(** * datasheet-parser: pin extraction pipeline

  A shallow embedding of the pin-extraction code of the repository
  ([extractors/table_extractor.py], [extractors/ocr_extractor.py],
  [extractors/text_extractor.py], [extractors/llm_extractor.py] and
  [parse.py]) together with the properties its specification states.

  Modelling conventions.
  - A Python [str] is a [string]; the characters are the 7-bit ASCII ones
    (the character tests below treat a byte above 127 like punctuation).
  - A Python [int] is a [Z].
  - A Python [dict] keyed by pin number is a [gmap Z _]; the [details]
    mapping of a pin, whose keys are written once each in a fixed order,
    is an association list in insertion order.
  - [None] is [None]; a value that may be [None] is an [option].
  - A call that an exception can leave, because neither it nor its callee
    catches it, gives a [Py.result]: [Py.Returns v] or [Py.Raises].
  - The external collaborators (pdfplumber, pdf2image, pytesseract, the
    language-model provider, pydantic) are inputs: a document is what they
    return for it. *)

From Stdlib Require Import ZArith Ascii String List Bool Lia.
From stdpp Require Import gmap strings list sorting.

Set Warnings "-clear-no-such-hyp".
Local Open Scope Z_scope.

(** ** Python string operations *)

Module Py.

Definition in_range (lo hi c : ascii) : bool :=
  (Ascii.leb lo c && Ascii.leb c hi)%bool.

(** [str.isspace] on one ASCII character, which is also the class [\s]. *)
Definition is_space (c : ascii) : bool :=
  (in_range "009" "013" c || in_range "028" "032" c)%char.

Definition is_digit (c : ascii) : bool := in_range "0" "9" c.
Definition is_upper (c : ascii) : bool := in_range "A" "Z" c.
Definition is_lower (c : ascii) : bool := in_range "a" "z" c.
Definition is_alpha (c : ascii) : bool := is_upper c || is_lower c.
Definition is_alnum (c : ascii) : bool := is_alpha c || is_digit c.

(** The class [\w]. *)
Definition is_word (c : ascii) : bool := is_alnum c || Ascii.eqb c "_".

Definition lower_char (c : ascii) : ascii :=
  if is_upper c then ascii_of_nat (nat_of_ascii c + 32) else c.

(** [s.lower()] *)
Fixpoint lower (s : string) : string :=
  match s with
  | EmptyString => EmptyString
  | String c s' => String (lower_char c) (lower s')
  end.

Fixpoint lstrip (s : string) : string :=
  match s with
  | String c s' => if is_space c then lstrip s' else s
  | EmptyString => EmptyString
  end.

Fixpoint rstrip (s : string) : string :=
  match s with
  | EmptyString => EmptyString
  | String c s' =>
      match rstrip s' with
      | EmptyString => if is_space c then EmptyString else String c EmptyString
      | t => String c t
      end
  end.

(** [s.strip()] *)
Definition strip (s : string) : string := rstrip (lstrip s).

(** [s.startswith(p)] *)
Fixpoint startswith (p s : string) : bool :=
  match p, s with
  | EmptyString, _ => true
  | String a p', String b s' => Ascii.eqb a b && startswith p' s'
  | String _ _, EmptyString => false
  end.

(** [sub in s] *)
Fixpoint contains (sub s : string) : bool :=
  startswith sub s ||
  match s with
  | EmptyString => false
  | String _ s' => contains sub s'
  end.

(** The truth value of a string: non-empty. *)
Definition truthy (s : string) : bool :=
  match s with EmptyString => false | _ => true end.

Fixpoint all_chars (p : ascii -> bool) (s : string) : bool :=
  match s with
  | EmptyString => true
  | String c s' => p c && all_chars p s'
  end.

(** [s.isdigit()] *)
Definition isdigit (s : string) : bool := truthy s && all_chars is_digit s.

Definition len (s : string) : Z := Z.of_nat (String.length s).

Definition digit_val (c : ascii) : Z :=
  Z.of_nat (nat_of_ascii c) - 48.

Fixpoint int_acc (acc : Z) (s : string) : Z :=
  match s with
  | EmptyString => acc
  | String c s' => int_acc (10 * acc + digit_val c) s'
  end.

(** [int(s)] for a string of decimal digits. *)
Definition int (s : string) : Z := int_acc 0 s.

(** [sep.join(l)] *)
Definition join (sep : string) (l : list string) : string :=
  String.concat sep l.

Fixpoint split_char_go (sep : ascii) (cur : string) (s : string) : list string :=
  match s with
  | EmptyString => [String.rev cur]
  | String c s' =>
      if Ascii.eqb c sep then String.rev cur :: split_char_go sep EmptyString s'
      else split_char_go sep (String c cur) s'
  end.

(** [s.split(sep)] for a one-character separator. *)
Definition split_char (sep : ascii) (s : string) : list string :=
  split_char_go sep EmptyString s.

(** Line boundaries of [str.splitlines] among the ASCII characters. *)
Definition is_linebreak (c : ascii) : bool :=
  (in_range "010" "013" c || in_range "028" "030" c)%char.

Fixpoint splitlines_go (cur : string) (s : string) : list string :=
  match s with
  | EmptyString =>
      match cur with EmptyString => [] | _ => [String.rev cur] end
  | String c s' =>
      if is_linebreak c then
        String.rev cur ::
          match c, s' with
          | "013"%char, String "010"%char s'' => splitlines_go EmptyString s''
          | _, _ => splitlines_go EmptyString s'
          end
      else splitlines_go (String c cur) s'
  end.

(** [s.splitlines()] *)
Definition splitlines (s : string) : list string :=
  splitlines_go EmptyString s.

(** [s[n:]] *)
Fixpoint drop (n : nat) (s : string) : string :=
  match n, s with
  | O, _ => s
  | S n', String _ s' => drop n' s'
  | S _, EmptyString => EmptyString
  end.

(** [s[:n]] *)
Fixpoint take (n : nat) (s : string) : string :=
  match n, s with
  | O, _ => EmptyString
  | S n', String c s' => String c (take n' s')
  | S _, EmptyString => EmptyString
  end.

(** [s.split(sep)] for a separator of one character or more; [skip]
    characters still belong to the separator just found. *)
Fixpoint split_go (sep : string) (cur : string) (s : string) (skip : nat)
    : list string :=
  match skip, s with
  | S n, String _ s' => split_go sep cur s' n
  | S _, EmptyString => [String.rev cur]
  | O, EmptyString => [String.rev cur]
  | O, String c s' =>
      if startswith sep s
      then String.rev cur :: split_go sep EmptyString s' (String.length sep - 1)
      else split_go sep (String c cur) s' O
  end.

Definition split (sep : string) (s : string) : list string :=
  split_go sep EmptyString s O.

(** [sorted(d.keys())] of a dictionary keyed by integers. *)
Definition sorted_keys {V : Type} (d : gmap Z V) : list Z :=
  merge_sort Z.le (map fst (map_to_list d)).

(** [l.sort(key=lambda x: x[0])]: a stable sort on the first component. *)
Fixpoint insert_by_key {V : Type} (x : Z * V) (l : list (Z * V)) : list (Z * V) :=
  match l with
  | [] => [x]
  | y :: l' => if x.1 <=? y.1 then x :: l else y :: insert_by_key x l'
  end.

Definition sort_by_key {V : Type} (l : list (Z * V)) : list (Z * V) :=
  foldr insert_by_key [] l.

(** How a call ends: it returns a value, or an exception that nothing in
    the callee catches leaves it. *)
Inductive result (A : Type) : Type :=
| Returns (a : A)
| Raises.
Arguments Returns {A} a.
Arguments Raises {A}.

End Py.

(** ** Regular expressions

  The subset of Python's [re] syntax that the extractors use: character
  classes, greedy repetition of a class, sequence, alternation (the left
  branch first), capturing groups that are neither nested nor repeated,
  and the zero-width assertions [^], [$] and [\b]. Matching is by
  backtracking with continuations, as in [re]: the first way to match in
  priority order is the one reported. *)

Module Re.

Inductive re : Type :=
| Eps
| Cls (p : ascii -> bool)
| Rep (p : ascii -> bool) (lo : nat) (hi : option nat)
| Seq (r1 r2 : re)
| Alt (r1 r2 : re)
| Grp (r : re)
| Bol
| Eol
| Wordb.

Definition hi_zero (hi : option nat) : bool :=
  match hi with Some O => true | _ => false end.

Definition is_word_opt (c : option ascii) : bool :=
  match c with Some c => Py.is_word c | None => false end.

Definition head (s : string) : option ascii :=
  match s with String c _ => Some c | EmptyString => None end.

(** [$] holds at the end of the text and before a final newline. *)
Definition at_end (s : string) : bool :=
  match s with
  | EmptyString => true
  | String "010"%char EmptyString => true
  | _ => false
  end.

Section Run.
Context {A : Type}.

(** Greedy [p{lo,hi}]: one more character first, then the rest. *)
Fixpoint rep (p : ascii -> bool) (lo : nat) (hi : option nat)
    (prev : option ascii) (s : string)
    (k : option ascii -> string -> option A) {struct s} : option A :=
  let stop := match lo with O => k prev s | S _ => None end in
  match s with
  | String c s' =>
      if p c && negb (hi_zero hi) then
        match rep p (Nat.pred lo) (option_map Nat.pred hi) (Some c) s' k with
        | Some x => Some x
        | None => stop
        end
      else stop
  | EmptyString => stop
  end.

(** [run r prev s caps k]: match [r] at the position whose preceding
    character is [prev] (none at the start of the text) and whose
    remaining text is [s]; [caps] are the groups closed so far. *)
Fixpoint run (r : re) (prev : option ascii) (s : string) (caps : list string)
    (k : option ascii -> string -> list string -> option A) : option A :=
  match r with
  | Eps => k prev s caps
  | Cls p =>
      match s with
      | String c s' => if p c then k (Some c) s' caps else None
      | EmptyString => None
      end
  | Rep p lo hi => rep p lo hi prev s (fun prev' s' => k prev' s' caps)
  | Seq r1 r2 =>
      run r1 prev s caps (fun prev' s' caps' => run r2 prev' s' caps' k)
  | Alt r1 r2 =>
      match run r1 prev s caps k with
      | Some x => Some x
      | None => run r2 prev s caps k
      end
  | Grp r' =>
      run r' prev s caps (fun prev' s' caps' =>
        k prev' s' (caps' ++ [Py.take (String.length s - String.length s') s]))
  | Bol => match prev with None => k prev s caps | Some _ => None end
  | Eol => if at_end s then k prev s caps else None
  | Wordb =>
      if xorb (is_word_opt prev) (is_word_opt (head s))
      then k prev s caps else None
  end.
End Run.

(** A match at one position: the text left after it and its groups. *)
Definition match_at (r : re) (prev : option ascii) (s : string)
    : option (string * list string) :=
  run r prev s [] (fun _ s' caps => Some (s', caps)).

(** [re.match(r, s)]: the groups of a match at the start of [s]. *)
Definition re_match (r : re) (s : string) : option (list string) :=
  snd <$> match_at r None s.

Fixpoint search_from (r : re) (prev : option ascii) (s : string)
    : option (list string) :=
  match match_at r prev s with
  | Some (_, caps) => Some caps
  | None =>
      match s with
      | String c s' => search_from r (Some c) s'
      | EmptyString => None
      end
  end.

(** [re.search(r, s)]: the groups of the leftmost match. *)
Definition re_search (r : re) (s : string) : option (list string) :=
  search_from r None s.

(** [skip] characters are still covered by the previous match. *)
Fixpoint findall_from (r : re) (prev : option ascii) (s : string) (skip : nat)
    : list (list string) :=
  match skip, s with
  | S n, String c s' => findall_from r (Some c) s' n
  | S _, EmptyString => []
  | O, EmptyString =>
      match match_at r prev s with
      | Some (_, caps) => [caps]
      | None => []
      end
  | O, String c s' =>
      match match_at r prev s with
      | Some (rest, caps) =>
          caps :: findall_from r (Some c) s'
                    (String.length s - String.length rest - 1)
      | None => findall_from r (Some c) s' O
      end
  end.

(** [re.findall(r, s)] for a pattern with groups: the groups of the
    successive non-overlapping matches, left to right. *)
Definition re_findall (r : re) (s : string) : list (list string) :=
  findall_from r None s O.

(** The characters kept are those before the next match; a match is
    replaced by [by]. *)
Fixpoint sub_from (r : re) (by_ : string) (prev : option ascii) (s : string)
    (skip : nat) : string :=
  match skip, s with
  | S n, String c s' => sub_from r by_ (Some c) s' n
  | S _, EmptyString => EmptyString
  | O, EmptyString => EmptyString
  | O, String c s' =>
      match match_at r prev s with
      | Some (rest, _) =>
          match (String.length s - String.length rest)%nat with
          | O => String c (sub_from r by_ (Some c) s' O)
          | S n => by_ +:+ sub_from r by_ (Some c) s' n
          end
      | None => String c (sub_from r by_ (Some c) s' O)
      end
  end.

(** [re.sub(r, by, s)] for a pattern that matches no empty text. *)
Definition re_sub (r : re) (by_ : string) (s : string) : string :=
  sub_from r by_ None s O.

(** Pattern builders. *)
Definition chr (c : ascii) : ascii -> bool := Ascii.eqb c.
Definition plus (p : ascii -> bool) : re := Rep p 1 None.
Definition star (p : ascii -> bool) : re := Rep p 0 None.
Definition opt (p : ascii -> bool) : re := Rep p 0 (Some 1%nat).
Definition times (p : ascii -> bool) (lo hi : nat) : re := Rep p lo (Some hi).

Fixpoint lit (s : string) : re :=
  match s with
  | EmptyString => Eps
  | String c s' => Seq (Cls (chr c)) (lit s')
  end.

Fixpoint cat (rs : list re) : re :=
  match rs with
  | [] => Eps
  | [r] => r
  | r :: rs' => Seq r (cat rs')
  end.

(** [.] matches every character but the newline. *)
Definition dot (c : ascii) : bool := negb (Ascii.eqb c "010").

(** A match object is true, [None] is false. *)
Definition matched {X : Type} (m : option X) : bool :=
  match m with Some _ => true | None => false end.

End Re.

(** ** Canonical data model ([schema.py], [config.py]) *)

Module Config.
Definition MIN_PIN_NAME_LENGTH : Z := 1.
Definition MAX_PIN_NAME_LENGTH : Z := 30.
End Config.

Module Schema.

(** [number: int | str] *)
Inductive pin_number : Type :=
| IntNum (n : Z)
| StrNum (s : string).

(** A value of the [details] mapping: a string, or a list of strings
    ([alternate_names]). *)
Inductive detail : Type :=
| DStr (s : string)
| DList (l : list string).

Record Pin : Type := mkPin {
  number : pin_number;
  name : string;
  details : option (list (string * detail))
}.

(** The dictionary that [extract_metadata_from_text] returns. *)
Record Metadata : Type := mkMetadata {
  features : list string;
  applications : list string;
  description : option string;
  title : option string;
  part_number : option string
}.

End Schema.

(** ** Structural table strategy ([extractors/table_extractor.py]) *)

Module TableExtractor.
Import Schema Re.

(** A table cell is a string or [None]; a table is a grid of rows. *)
Definition Cell : Type := option string.
Definition Row : Type := list Cell.
Definition Table : Type := list Row.

(** What pdfplumber returns for one page: [extract_tables()] and
    [extract_text()]. *)
Record Page : Type := mkPage {
  page_tables : list Table;
  page_text : option string
}.

(** The truth value of a cell: neither [None] nor the empty string. *)
Definition cell_truthy (c : Cell) : bool :=
  match c with Some s => Py.truthy s | None => false end.

(** [str(cell)] of a cell that is not [None]. *)
Definition cell_str (c : Cell) : string :=
  match c with Some s => s | None => EmptyString end.

(** [row[i]]; every use below is guarded by a length test. *)
Definition row_get (row : Row) (i : nat) : Cell :=
  match row !! i with Some c => c | None => None end.

Definition WS_RUN : re := plus Py.is_space.

(** [re.sub(r'\s+', ' ', s)] *)
Definition collapse_ws (s : string) : string := re_sub WS_RUN " " s.

(** [str(h).lower().strip() if h else ""] *)
Definition header_cell (h : Cell) : string :=
  if cell_truthy h then Py.strip (Py.lower (cell_str h)) else EmptyString.

Definition count_empty (headers : list string) : nat :=
  length (filter (fun h => h = EmptyString) headers).

Definition any_contains (sub : string) (l : list string) : bool :=
  existsb (Py.contains sub) l.

(** The first row does not carry enough information:
    [headers.count("") > len(headers) / 2 or not any("name" in h ...)]. *)
Definition weak_header (headers : list string) : bool :=
  (length headers <? 2 * count_empty headers)%nat
  || negb (any_contains "name" headers).

Definition header_keywords : list string := ["name"; "type"; "description"].

Definition looks_like_header (headers_row2 : list string) : bool :=
  existsb (fun keyword => Py.contains keyword (Py.join " " headers_row2))
          header_keywords.

(** Lines 163-165: the cells of row 0, in lower case, stripped, with the
    runs of white space collapsed. *)
Definition first_row_headers (table : Table) : list string :=
  map (fun h => collapse_ws (header_cell h)) (default [] (table !! 0%nat)).

(** Line 172: the cells of row 1, in lower case and stripped. *)
Definition second_row_headers (table : Table) : list string :=
  map header_cell (default [] (table !! 1%nat)).

(** Lines 163-176: the header row and the index of the first data row. *)
Definition select_headers (table : Table) : list string * nat :=
  let headers := first_row_headers table in
  if weak_header headers then
    if (2 <? length table)%nat then
      let headers_row2 := second_row_headers table in
      if looks_like_header headers_row2 then (headers_row2, 2%nat)
      else (headers, 1%nat)
    else (headers, 1%nat)
  else (headers, 1%nat).

(** The column roles found so far. *)
Record Roles : Type := mkRoles {
  pin_idx : option nat;
  name_idx : option nat;
  type_idx : option nat;
  direction_idx : option nat;
  description_idx : option nat
}.

Definition no_roles : Roles := mkRoles None None None None None.

Definition if_none (o : option nat) (i : nat) : option nat :=
  match o with None => Some i | Some _ => o end.

(** [pin\s*#?|pin\s*no|pin\s*num] *)
Definition PIN_RE : re :=
  Alt (cat [lit "pin"; star Py.is_space; opt (chr "#")])
 (Alt (cat [lit "pin"; star Py.is_space; lit "no"])
      (cat [lit "pin"; star Py.is_space; lit "num"])).

(** [\bname\b|signal|function|device] *)
Definition NAME_RE : re :=
  Alt (cat [Wordb; lit "name"; Wordb])
 (Alt (lit "signal") (Alt (lit "function") (lit "device"))).

(** [^i\s*/\s*o\s+type] *)
Definition IO_TYPE_RE : re :=
  cat [Bol; lit "i"; star Py.is_space; lit "/"; star Py.is_space; lit "o";
       plus Py.is_space; lit "type"].

(** [input.*output|output.*input|direction] *)
Definition DIRECTION_RE : re :=
  Alt (cat [lit "input"; star dot; lit "output"])
 (Alt (cat [lit "output"; star dot; lit "input"]) (lit "direction")).

(** [\bi\s*/\s*o\b] *)
Definition IO_TOKEN_RE : re :=
  cat [Wordb; lit "i"; star Py.is_space; lit "/"; star Py.is_space; lit "o"; Wordb].

Definition name_excluded (h : string) : bool :=
  Py.contains "description" h || Py.contains "package" h
  || Py.contains "orderable" h || Py.contains "reel" h || Py.contains "spq" h.

(** One iteration of the loop over [enumerate(headers)], lines 188-234. *)
Definition classify_header (r : Roles) (i : nat) (h : string) : Roles :=
  let h_lower := Py.lower h in
  let r :=
    if matched (re_search PIN_RE h_lower) && negb (Py.contains "description" h_lower)
    then mkRoles (Some i) (name_idx r) (type_idx r) (direction_idx r) (description_idx r)
    else r in
  let r :=
    if matched (re_search NAME_RE h_lower) && negb (name_excluded h_lower)
    then mkRoles (pin_idx r) (if_none (name_idx r) i) (type_idx r) (direction_idx r)
                 (description_idx r)
    else r in
  if matched (re_match IO_TYPE_RE h_lower) then
    (* both roles on this column, then [continue] *)
    mkRoles (pin_idx r) (name_idx r) (if_none (type_idx r) i)
            (if_none (direction_idx r) i) (description_idx r)
  else
    let r :=
      if (String.eqb h_lower "type" || Py.contains "analog" h_lower
          || Py.contains "digital" h_lower)
         && negb (Py.contains "description" h_lower)
      then
        match type_idx r with
        | None =>
            mkRoles (pin_idx r) (name_idx r) (Some i)
              (if Py.contains "input" h_lower || Py.contains "output" h_lower
               then if_none (direction_idx r) i else direction_idx r)
              (description_idx r)
        | Some _ => r
        end
      else r in
    let r :=
      if matched (re_search DIRECTION_RE h_lower) && negb (Py.contains "type" h_lower)
         && (matched (re_search IO_TOKEN_RE h_lower) && negb (Py.contains "type" h_lower))
      then mkRoles (pin_idx r) (name_idx r) (type_idx r) (if_none (direction_idx r) i)
                   (description_idx r)
      else r in
    if Py.contains "description" h_lower
    then mkRoles (pin_idx r) (name_idx r) (type_idx r) (direction_idx r)
                 (if_none (description_idx r) i)
    else r.

Fixpoint classify_from (i : nat) (headers : list string) (r : Roles) : Roles :=
  match headers with
  | [] => r
  | h :: hs => classify_from (S i) hs (classify_header r i h)
  end.

Definition classify_headers (headers : list string) : Roles :=
  classify_from 0 headers no_roles.

(** [^\d+$] *)
Definition DIGITS_RE : re := cat [Bol; plus Py.is_digit; Eol].

(** Lines 244-248: does the column hold a number in one of the rows? *)
Definition has_numbers (rows : list Row) (test_col : nat) : bool :=
  existsb (fun row =>
             (test_col <? length row)%nat && cell_truthy (row_get row test_col)
             && matched (re_match DIGITS_RE (Py.strip (cell_str (row_get row test_col)))))
          rows.

(** Lines 238-253: the name is in column 0 and no pin column was found:
    the first of the columns 1, 2, 3 that holds numbers in one of the
    first three data rows becomes the pin column. *)
Definition probe_pin_column (table : Table) (headers : list string)
    (data_start_idx : nat) (r : Roles) : Roles :=
  match name_idx r, pin_idx r with
  | Some O, None =>
      let rows := take 3 (drop data_start_idx table) in
      match List.find (has_numbers rows) (seq 1 (Nat.min 4 (length headers) - 1)) with
      | Some test_col =>
          mkRoles (Some test_col) (name_idx r) (type_idx r) (direction_idx r)
                  (description_idx r)
      | None => r
      end
  | _, _ => r
  end.

Definition packaging_terms : list string :=
  ["reel diameter"; "length(mm)"; "width(mm)"; "height(mm)"].

Definition is_packaging_table (headers : list string) : bool :=
  existsb (fun kw => Py.contains kw (Py.join " " headers)) packaging_terms.

(** [[cell for cell in row if cell is not None and str(cell).strip()]] *)
Definition cleaned_row (row : Row) : Row :=
  List.filter (fun cell => match cell with
                           | Some s => Py.truthy (Py.strip s)
                           | None => false
                           end) row.

(** [max(i for i in [pin_idx, ...] if i is not None)] *)
Definition max_idx (r : Roles) : nat :=
  foldr Nat.max 0%nat
    (omap id [pin_idx r; name_idx r; type_idx r; direction_idx r; description_idx r]).

(** [^[A-Z]{3}\d{4}] *)
Definition PART_NAME_RE : re :=
  cat [Bol; times Py.is_upper 3 3; times Py.is_digit 4 4].

(** A role column that is present in the row and holds a value:
    [idx is not None and len(row) > idx and row[idx]]. *)
Definition role_cell (idx : option nat) (row : Row) : option string :=
  match idx with
  | Some i =>
      if (i <? length row)%nat && cell_truthy (row_get row i)
      then Some (cell_str (row_get row i)) else None
  | None => None
  end.

(** Lines 320-329. *)
Definition type_of_text (type_lower : string) : option string :=
  if Py.contains "analog" type_lower && Py.contains "digital" type_lower
  then Some "Analog/Digital"
  else if Py.contains "analog" type_lower then Some "Analog"
  else if Py.contains "digital" type_lower then Some "Digital"
  else if Py.contains "power" type_lower || Py.contains "supply" type_lower
  then Some "Power"
  else if Py.contains "ground" type_lower || String.eqb type_lower "gnd"
          || String.eqb type_lower "ground"
  then Some "Ground"
  else None.

(** Lines 312-335. *)
Definition pin_type_of (r : Roles) (row : Row) : option string :=
  match type_idx r, role_cell (type_idx r) row with
  | Some ti, Some cell =>
      let type_lower := Py.lower (collapse_ws (Py.strip cell)) in
      match type_of_text type_lower with
      | Some t => Some t
      | None =>
          if (ti + 1 <? length row)%nat && cell_truthy (row_get row (ti + 1))
          then
            let adj_type := Py.lower (Py.strip (cell_str (row_get row (ti + 1)))) in
            if Py.contains "supply" adj_type || Py.contains "power" adj_type
            then Some "Power" else None
          else None
      end
  | _, _ => None
  end.

(** Lines 345-350. *)
Definition direction_of_text (dir_lower : string) : option string :=
  if Py.contains "i/o" dir_lower || Py.contains "i / o" dir_lower
     || Py.contains "bidirectional" dir_lower || Py.contains "input/output" dir_lower
     || Py.contains "inout" dir_lower
  then Some "I/O"
  else if Py.contains "output" dir_lower then Some "Output"
  else if Py.contains "input" dir_lower then Some "Input"
  else None.

(** Lines 361-366: the direction read off the type cell. *)
Definition direction_of_type_text (type_lower : string) : option string :=
  if Py.contains "i/o" type_lower || Py.contains "i / o" type_lower
     || Py.contains "input/output" type_lower || Py.contains "input / output" type_lower
  then Some "I/O"
  else if Py.contains "output" type_lower then Some "Output"
  else if Py.contains "input" type_lower then Some "Input"
  else None.

(** Lines 337-366. *)
Definition direction_of (r : Roles) (row : Row) : option string :=
  let direction :=
    match role_cell (direction_idx r) row with
    | Some cell => direction_of_text (Py.lower (collapse_ws (Py.strip cell)))
    | None => None
    end in
  match role_cell (type_idx r) row, direction with
  | Some cell, None => direction_of_type_text (Py.lower (collapse_ws (Py.strip cell)))
  | _, _ => direction
  end.

(** Lines 368-372. *)
Definition description_of (r : Roles) (row : Row) : option string :=
  match role_cell (description_idx r) row with
  | Some cell =>
      let desc := Py.strip cell in
      if 3 <? Py.len desc then Some desc else None
  | None => None
  end.

Definition detail_entry (key : string) (v : option string) : list (string * detail) :=
  match v with
  | Some s => if Py.truthy s then [(key, DStr s)] else []
  | None => []
  end.

(** Lines 375-388: only the attributes found; [None] when there is none. *)
Definition build_details (pin_type direction description : option string)
    : option (list (string * detail)) :=
  match detail_entry "type" pin_type ++ detail_entry "direction" direction
        ++ detail_entry "description" description with
  | [] => None
  | d => Some d
  end.

(** Lines 272-390, the body of the loop over the data rows: the candidate
    of a row, or [None] where the code says [continue]. *)
Definition process_row (pin_i name_i : nat) (r : Roles) (row : Row)
    : option (Z * Pin) :=
  if (length (cleaned_row row) <? 2)%nat then None
  else if (length row <=? max_idx r)%nat then None
  else
    let pin_num :=
      if cell_truthy (row_get row pin_i) then Py.strip (cell_str (row_get row pin_i))
      else EmptyString in
    let pin_num :=
      if negb (Py.truthy pin_num) && (pin_i + 1 <? length row)%nat
         && cell_truthy (row_get row (pin_i + 1))
      then Py.strip (cell_str (row_get row (pin_i + 1)))
      else pin_num in
    let name :=
      if cell_truthy (row_get row name_i) then Py.strip (cell_str (row_get row name_i))
      else EmptyString in
    if negb (matched (re_match DIGITS_RE pin_num)) then None
    else if Py.int pin_num =? 0 then None
    else if (Py.len name <? Config.MIN_PIN_NAME_LENGTH)
            || (Config.MAX_PIN_NAME_LENGTH <? Py.len name) then None
    else if Py.isdigit name && (Py.len name <=? 2) then None
    else if matched (re_match PART_NAME_RE name) then None
    else
      Some (Py.int pin_num,
            mkPin (IntNum (Py.int pin_num)) name
                  (build_details (pin_type_of r row) (direction_of r row)
                                 (description_of r row))).

(** Lines 157-390, the body of the loop over the tables of a page. *)
Definition process_table (table : Table) : list (Z * Pin) :=
  if (length table <? 2)%nat then []
  else
    let '(headers, data_start_idx) := select_headers table in
    let r := probe_pin_column table headers data_start_idx (classify_headers headers) in
    match pin_idx r, name_idx r with
    | Some pin_i, Some name_i =>
        if is_packaging_table headers then []
        else omap (process_row pin_i name_i r) (drop data_start_idx table)
    | _, _ => []
    end.

(** The candidates of the tables, in page order and table order. *)
Definition table_candidates (pages : list Page) : list (Z * Pin) :=
  flat_map (fun page => flat_map process_table (page_tables page)) pages.

(** *** Text-line fallback, lines 403-465 *)

Definition name_tail (c : ascii) : bool :=
  Py.is_upper c || Py.is_digit c || chr "/" c || chr "_" c || chr "-" c.

(** [^(\d+)\s+([A-Z][A-Z0-9/_\-]{1,20})\s+(.+)] *)
Definition TEXT_LINE_RE : re :=
  cat [Bol; Grp (plus Py.is_digit); plus Py.is_space;
       Grp (Seq (Cls Py.is_upper) (times name_tail 1 20)); plus Py.is_space;
       Grp (plus dot)].

(** [^DR$], [^\d+$], [^[A-Z]S$], [^T[A-Z]$] *)
Definition false_positive_patterns : list re :=
  [ cat [Bol; lit "DR"; Eol];
    cat [Bol; plus Py.is_digit; Eol];
    cat [Bol; Cls Py.is_upper; lit "S"; Eol];
    cat [Bol; lit "T"; Cls Py.is_upper; Eol] ].

(** [^[=<>]|^\d+$] *)
Definition FORMULA_RE : re :=
  Alt (cat [Bol; Cls (fun c => chr "=" c || chr "<" c || chr ">" c)])
      (cat [Bol; plus Py.is_digit; Eol]).

(** The body of the loop over the lines of a page: the candidate list
    after the line. *)
Definition fallback_line (candidates : list (Z * Pin)) (line : string)
    : list (Z * Pin) :=
  match re_match TEXT_LINE_RE (Py.strip line) with
  | Some [g1; g2; g3] =>
      let pin_num := Py.int g1 in
      let name := Py.strip g2 in
      let desc := Py.strip g3 in
      if pin_num =? 0 then candidates
      else if 256 <? pin_num then candidates
      else if existsb (fun p => fst p =? pin_num) candidates then candidates
      else if negb (matched (re_match (cat [Bol; Cls Py.is_upper]) name)) then candidates
      else if existsb (fun pattern => matched (re_match pattern name))
                      false_positive_patterns then candidates
      else if (Config.MIN_PIN_NAME_LENGTH <=? Py.len name)
              && (Py.len name <=? Config.MAX_PIN_NAME_LENGTH) then
        if matched (re_match FORMULA_RE desc) then candidates
        else
          candidates ++
            [(pin_num,
              mkPin (IntNum pin_num) name
                    (if Py.truthy desc then Some [("description", DStr desc)] else None))]
      else candidates
  | _ => candidates
  end.

Definition fallback_page (candidates : list (Z * Pin)) (page : Page)
    : list (Z * Pin) :=
  match page_text page with
  | Some text =>
      if Py.truthy text
      then foldl fallback_line candidates (Py.split_char "010" text)
      else candidates
  | None => candidates
  end.

(** The candidate list after the second pass over the pages. *)
Definition text_fallback (pages : list Page) (candidates : list (Z * Pin))
    : list (Z * Pin) :=
  foldl fallback_page candidates pages.

(** *** Merge, lines 479-486 *)

(** The loop that fills [seen]: the first record of a pin number stays. *)
Definition seen_step (seen : gmap Z Pin) (c : Z * Pin) : gmap Z Pin :=
  match seen !! c.1 with
  | None => <[c.1 := c.2]> seen
  | Some _ => seen
  end.

Definition build_seen (candidates : list (Z * Pin)) : gmap Z Pin :=
  foldl seen_step ∅ candidates.

(** [[seen[p] for p in sorted(seen.keys())]]; every key looked up is a
    key of [seen]. *)
Definition merge_candidates (candidates : list (Z * Pin)) : list Pin :=
  let seen := build_seen candidates in
  omap (fun p => seen !! p) (Py.sorted_keys seen).

(** *** The strategy *)

(** A document as pdfplumber gives it: its pages, or [None] when
    pdfplumber is not installed or cannot open the file. *)
Definition Pdf : Type := option (list Page).

(** The dictionary [{"pins": ..., "metadata": ...}]. *)
Record TableResult : Type := mkTableResult {
  pins : list Pin;
  metadata : option Metadata
}.

Section Strategy.
(** [extract_metadata_from_text]: the five-key dictionary read off the
    text of the first page. A dictionary with keys is true whatever
    their values. *)
Variable extract_metadata_from_text : string -> Metadata.

(** Lines 141-146. *)
Definition first_page_metadata (pages : list Page) : option Metadata :=
  match pages with
  | page :: _ =>
      match page_text page with
      | Some first_page_text =>
          if Py.truthy first_page_text
          then Some (extract_metadata_from_text first_page_text)
          else None
      | None => None
      end
  | [] => None
  end.

(** Both passes look at [min(50, len(pdf.pages))] pages. *)
Definition all_candidates (pages : list Page) : list (Z * Pin) :=
  text_fallback (take 50 pages) (table_candidates (take 50 pages)).

Definition extract_pins_from_tables (pdf : Pdf) : option TableResult :=
  match pdf with
  | None => None
  | Some pages =>
      let metadata := first_page_metadata pages in
      match all_candidates pages with
      | [] =>
          match metadata with
          | Some m => Some (mkTableResult [] (Some m))
          | None => None
          end
      | candidates => Some (mkTableResult (merge_candidates candidates) metadata)
      end
  end.
End Strategy.

End TableExtractor.

(** ** Diagram recognition strategy ([extractors/ocr_extractor.py]) *)

Module OcrExtractor.
Import Re.

(** [[A-Za-z0-9_/.-]] *)
Definition token_char (c : ascii) : bool :=
  Py.is_alnum c || chr "_" c || chr "/" c || chr "." c || chr "-" c.

(** [([A-Za-z0-9_/.-]+)\s+(\d{1,3})] *)
Definition pattern_A : re :=
  cat [Grp (plus token_char); plus Py.is_space; Grp (times Py.is_digit 1 3)].

(** [(\d{1,3})\s+([A-Za-z0-9_/.-]+)] *)
Definition pattern_B : re :=
  cat [Grp (times Py.is_digit 1 3); plus Py.is_space; Grp (plus token_char)].

(** [^\d+$] *)
Definition DIGITS_RE : re := cat [Bol; plus Py.is_digit; Eol].

(** Lines 54-57: [name, pin = m]. *)
Definition pair_A (m : list string) : option (Z * string) :=
  match m with
  | [name; pin] =>
      if matched (re_match DIGITS_RE pin) then Some (Py.int pin, name) else None
  | _ => None
  end.

(** Lines 59-62: [pin, name = m]. *)
Definition pair_B (m : list string) : option (Z * string) :=
  match m with
  | [pin; name] =>
      if matched (re_match DIGITS_RE pin) then Some (Py.int pin, name) else None
  | _ => None
  end.

(** The list [pairs] after both loops. *)
Definition collect_pairs (text : string) : list (Z * string) :=
  omap pair_A (re_findall pattern_A text) ++ omap pair_B (re_findall pattern_B text).

(** Lines 68-70: every pair is written, a later one over an earlier one. *)
Definition build_cleaned (pairs : list (Z * string)) : gmap Z string :=
  foldl (fun cleaned p => <[p.1 := p.2]> cleaned) ∅ pairs.

(** Lines 64-72. *)
Definition names_of_pairs (pairs : list (Z * string)) : option (list string) :=
  match pairs with
  | [] => None
  | _ =>
      let cleaned := build_cleaned pairs in
      Some (omap (fun p => cleaned !! p) (Py.sorted_keys cleaned))
  end.

(** What the rendering and recognition collaborators give for the pages
    a strategy asks for. [convert_from_path] is called inside a [try]
    (lines 35-40): [None] stands for the OCR packages missing or the
    rendering raising, which the strategy answers with [None]. Otherwise
    there is one entry per rendered image: what
    [pytesseract.image_to_string] does on it, which is called outside any
    [try] (lines 42-44), so that an exception of it leaves the strategy. *)
Definition Recognized : Type := option (list (Py.result string)).

(** Lines 42-44: [text += pytesseract.image_to_string(img)], image by
    image; the first recognition that raises ends the loop and the
    function. *)
Fixpoint recognized_text (text : string) (images : list (Py.result string))
    : Py.result string :=
  match images with
  | [] => Py.Returns text
  | Py.Returns t :: images' => recognized_text (text ++ t)%string images'
  | Py.Raises :: _ => Py.Raises
  end.

(** Lines 46-72, on the recognised text. *)
Definition names_of_text (text : string) : option (list string) :=
  names_of_pairs (collect_pairs text).

Definition extract_pins_from_ocr (images : Recognized)
    : Py.result (option (list string)) :=
  match images with
  | None => Py.Returns None
  | Some images =>
      match recognized_text EmptyString images with
      | Py.Returns text => Py.Returns (names_of_text text)
      | Py.Raises => Py.Raises
      end
  end.

End OcrExtractor.

(** ** Plain-text-pattern strategy ([extractors/text_extractor.py]) *)

Module TextExtractor.
Import Re.

(** [^\s*(\d{1,3})\s+([A-Za-z0-9_/.-]+)\s*$] *)
Definition pattern : re :=
  cat [Bol; star Py.is_space; Grp (times Py.is_digit 1 3); plus Py.is_space;
       Grp (plus OcrExtractor.token_char); star Py.is_space; Eol].

Definition line_result (line : string) : option (Z * string) :=
  match re_match pattern line with
  | Some [pin; name] => Some (Py.int pin, name)
  | _ => None
  end.

(** Lines 44-58, on the recognised text. *)
Definition names_of_text (text : string) : option (list string) :=
  match omap line_result (Py.splitlines text) with
  | [] => None
  | results => Some (map snd (Py.sort_by_key results))
  end.

(** The first five pages at [OCR_DPI]. Line 42 joins the recognised texts
    with [image_to_string] called image by image outside any [try]: the
    first recognition that raises ends the function. *)
Definition extract_pins_from_text (images : OcrExtractor.Recognized)
    : Py.result (option (list string)) :=
  match images with
  | None => Py.Returns None
  | Some images =>
      match OcrExtractor.recognized_text EmptyString images with
      | Py.Returns text => Py.Returns (names_of_text text)
      | Py.Raises => Py.Raises
      end
  end.

End TextExtractor.

(** ** Language-model strategy ([extractors/llm_extractor.py]) *)

Module LlmExtractor.
Import Schema.

Definition DEFAULT_MAX_PAGES : nat := 15.

(** An element of [pages_data]. *)
Record PageData : Type := mkPageData {
  page_number : Z;
  text : string;
  char_count : Z
}.

(** Lines 64-72: the pages, numbered from 1, that have text. *)
Fixpoint pages_from (page_num : Z) (pages : list TableExtractor.Page)
    : list PageData :=
  match pages with
  | [] => []
  | page :: rest =>
      match TableExtractor.page_text page with
      | Some t =>
          if Py.truthy t && Py.truthy (Py.strip t)
          then mkPageData page_num t (Py.len t) :: pages_from (page_num + 1) rest
          else pages_from (page_num + 1) rest
      | None => pages_from (page_num + 1) rest
      end
  end.

Definition extract_text_from_pdf (pdf : TableExtractor.Pdf) : list PageData :=
  match pdf with
  | None => []
  | Some pages => pages_from 1 (take DEFAULT_MAX_PAGES pages)
  end.

(** The branch that [process_page_with_llm] takes: a provider is used
    when it is the configured one and its package is installed. *)
Inductive Provider : Type :=
| OpenAI
| Anthropic
| Mock.

(** The language-model collaborators. [complete page_text page_number]
    is the content of the reply to the prompt built for the page, [None]
    when the call raises; [validate content] is the pin list of
    [PinExtractionResult.model_validate_json(content)], [None] when the
    validation raises. *)
Record Llm : Type := mkLlm {
  provider : Provider;
  complete : string -> Z -> option string;
  validate : string -> option (list Pin)
}.

(** Lines 169-176: the reply without its surrounding code fence. *)
Definition strip_fence (content : string) : string :=
  let content := Py.strip content in
  if Py.startswith "```" content then
    let content := default EmptyString (Py.split "```" content !! 1%nat) in
    let content := if Py.startswith "json" content then Py.drop 4 content else content in
    Py.strip content
  else content.

Definition mock_keywords : list string :=
  ["pin"; "terminal"; "connection"; "signal"; "description"].

(** The value of [process_page_with_llm]: the ["pins"] list of the
    dictionary it returns, or [None]. *)
Definition process_page_with_llm (llm : Llm) (page_text : string) (page_number : Z)
    : option (list Pin) :=
  match provider llm with
  | OpenAI | Anthropic =>
      match complete llm page_text page_number with
      | Some content =>
          match validate llm (strip_fence content) with
          | Some [] => None
          | Some pins => Some pins
          | None => None
          end
      | None => None
      end
  | Mock =>
      if existsb (fun kw => Py.contains kw (Py.lower page_text)) mock_keywords
      then Some []
      else None
  end.

(** The dictionary that [extract_pins_with_llm] returns. *)
Record LlmResult : Type := mkLlmResult {
  success : bool;
  total_pages : nat;
  pages_with_pins : nat;
  pins : list Pin;
  llm_results : list (list Pin)
}.

(** Lines 311-324. A page result is a dictionary with the key ["pins"],
    hence true; [all_pins] is created empty and nothing is added to it. *)
Definition extract_pins_with_llm (llm : Llm) (pdf : TableExtractor.Pdf)
    : option LlmResult :=
  match extract_text_from_pdf pdf with
  | [] => None
  | pages_data =>
      let results :=
        omap (fun page_data =>
                process_page_with_llm llm (text page_data) (page_number page_data))
             pages_data in
      let all_pins : list Pin := [] in
      Some (mkLlmResult true (length pages_data) (length results) all_pins results)
  end.

End LlmExtractor.

(** ** Orchestrator and command line ([parse.py]) *)

Module Parse.
Import Schema.

(** Everything the collaborators return for one document. *)
Record Document : Type := mkDocument {
  doc_pdf : TableExtractor.Pdf;
  doc_diagram : OcrExtractor.Recognized;
  doc_text : OcrExtractor.Recognized
}.

(** The strategies that the orchestrator can invoke. *)
Inductive Strategy : Type :=
| TableStrategy
| DiagramStrategy
| TextStrategy.

(** A computation that learns the result of a strategy only by invoking
    it: [extract_pins_from_tables] gives a result dictionary or [None],
    [extract_pins_from_ocr] and [extract_pins_from_text] a list of names or
    [None]. The continuation of an invocation stands for the code after
    the call: it runs when the strategy returns. *)
Inductive Prog (R : Type) : Type :=
| Ret (r : R)
| InvokeTables (k : option TableExtractor.TableResult -> Prog R)
| InvokeOcr (k : option (list string) -> Prog R)
| InvokeText (k : option (list string) -> Prog R).
Arguments Ret {R} r.
Arguments InvokeTables {R} k.
Arguments InvokeOcr {R} k.
Arguments InvokeText {R} k.

(** [[Pin(number=i, name=name) for i, name in enumerate(pins, 1)]] *)
Definition number_pins (names : list string) : list Pin :=
  imap (fun i name => mkPin (IntNum (Z.of_nat i + 1)) name None) names.

Definition nonempty {X : Type} (l : list X) : bool :=
  match l with [] => false | _ => true end.

(** [result and result.get("pins")] *)
Definition has_pins (result : option TableExtractor.TableResult) : bool :=
  match result with
  | Some r => nonempty (TableExtractor.pins r)
  | None => false
  end.

(** [if pins:] for a list that may be [None]. *)
Definition names_found (names : option (list string)) : bool :=
  match names with Some l => nonempty l | None => false end.

Definition extract_pins_traditional : Prog (option TableExtractor.TableResult) :=
  InvokeTables (fun result =>
    if has_pins result then Ret result
    else
      InvokeOcr (fun pins =>
        if names_found pins
        then Ret (Some (TableExtractor.mkTableResult (number_pins (default [] pins)) None))
        else
          InvokeText (fun pins =>
            if names_found pins
            then Ret (Some (TableExtractor.mkTableResult
                              (number_pins (default [] pins)) None))
            else Ret None))).

Section Run.
Variable extract_metadata_from_text : string -> Metadata.
Variable doc : Document.

(** What the orchestrator does with a call that may raise: it has no
    [try], so the exception leaves it too. *)
Definition call {A R : Type} (r : Py.result A) (k : A -> Py.result R * list Strategy)
    (invoked : list Strategy) : Py.result R * list Strategy :=
  match r with
  | Py.Returns a => k a
  | Py.Raises => (Py.Raises, invoked)
  end.

(** Running a computation on the document: how it ends and the strategies
    invoked, in the order of invocation. *)
Fixpoint run {R : Type} (p : Prog R) (invoked : list Strategy)
    : Py.result R * list Strategy :=
  match p with
  | Ret r => (Py.Returns r, invoked)
  | InvokeTables k =>
      run (k (TableExtractor.extract_pins_from_tables
                extract_metadata_from_text (doc_pdf doc)))
          (invoked ++ [TableStrategy])
  | InvokeOcr k =>
      call (OcrExtractor.extract_pins_from_ocr (doc_diagram doc))
           (fun pins => run (k pins) (invoked ++ [DiagramStrategy]))
           (invoked ++ [DiagramStrategy])
  | InvokeText k =>
      call (TextExtractor.extract_pins_from_text (doc_text doc))
           (fun pins => run (k pins) (invoked ++ [TextStrategy]))
           (invoked ++ [TextStrategy])
  end.

Definition traditional
    : Py.result (option TableExtractor.TableResult) * list Strategy :=
  run extract_pins_traditional [].
End Run.

(** *** [main], from the extraction on (lines 207-344)

    Progress narration ([--verbose]) and [--save-text] are left out: they
    assign none of the variables read below. *)

Inductive Method : Type :=
| Traditional
| Llm.

Record Args : Type := mkArgs {
  method : Method;
  json_only : bool
}.

(** What [main] prints. *)
Inductive Output : Type :=
| MetadataBlock (m : Metadata)
| PinListing (pins : list Pin)
| JsonHeading
| Json (pins_data : list Pin) (count : nat) (metadata : option Metadata)
| LlmNoPinsNotice
| LlmFailedNotice
| FailureNotice.

(** How [main] ends: it returns an exit code, or an exception leaves it:
    the [UnboundLocalError] of reading a local never assigned, or the
    exception that left a strategy ([main] calls the orchestrator outside
    any [try], line 241). *)
Inductive Outcome : Type :=
| Return (code : Z)
| UnboundLocalError (variable : string)
| StrategyException.

(** The local variables of [main] that the output step reads. A local
    that was never assigned is unbound: [l_metadata = None]; a local bound
    to [None] is [Some None]. *)
Record Locals : Type := mkLocals {
  l_pins : option (list Pin);
  l_metadata : option (option Metadata)
}.

(** Printing and early exit. *)
Definition M (A : Type) : Type := list Output -> (A + Outcome) * list Output.

Definition ret {A : Type} (a : A) : M A := fun out => (inl a, out).

Definition bind {A B : Type} (m : M A) (f : A -> M B) : M B :=
  fun out =>
    match m out with
    | (inl a, out') => f a out'
    | (inr o, out') => (inr o, out')
    end.

Definition print (o : Output) : M unit := fun out => (inl tt, out ++ [o]).

Definition stop {A : Type} (o : Outcome) : M A := fun out => (inr o, out).

Definition when (b : bool) (m : M unit) : M unit := if b then m else ret tt.

Notation "x <- m ;; k" := (bind m (fun x => k))
  (at level 100, m at next level, right associativity).
Notation "m ;;; k" := (bind m (fun _ => k))
  (at level 100, right associativity).

(** Reading the local [metadata]. *)
Definition read_metadata (locals : Locals) : M (option Metadata) :=
  match l_metadata locals with
  | Some v => ret v
  | None => stop (UnboundLocalError "metadata")
  end.

Section Main.
(** The two extraction entry points that [main] calls. *)
Variable extract_pins_with_llm : Document -> option LlmExtractor.LlmResult.
Variable extract_pins_traditional :
  Document -> Py.result (option TableExtractor.TableResult).

(** Lines 207-244. *)
Definition extract (args : Args) (doc : Document) : M Locals :=
  let pins : option (list Pin) := None in
  match method args with
  | Llm =>
      match extract_pins_with_llm doc with
      | Some result =>
          if LlmExtractor.success result then
            let pins := LlmExtractor.pins result in
            if negb (nonempty pins) then
              when (negb (json_only args)) (print LlmNoPinsNotice) ;;;
              stop (Return 1)
            else ret (mkLocals (Some pins) None)
          else
            when (negb (json_only args)) (print LlmFailedNotice) ;;;
            stop (Return 1)
      | None =>
          when (negb (json_only args)) (print LlmFailedNotice) ;;;
          stop (Return 1)
      end
  | Traditional =>
      match extract_pins_traditional doc with
      | Py.Returns (Some result) =>
          ret (mkLocals (Some (TableExtractor.pins result))
                        (Some (TableExtractor.metadata result)))
      | Py.Returns None => ret (mkLocals pins None)
      | Py.Raises => stop StrategyException
      end
  end.

(** Lines 246-344. *)
Definition output_results (args : Args) (locals : Locals) : M Empty_set :=
  match l_pins locals with
  | Some ((_ :: _) as pins) =>
      when (negb (json_only args))
        (metadata <- read_metadata locals ;;
         match metadata with
         | Some m => print (MetadataBlock m)
         | None => ret tt
         end ;;;
         print (PinListing pins)) ;;;
      when (negb (json_only args)) (print JsonHeading) ;;;
      metadata <- read_metadata locals ;;
      print (Json pins (length pins) metadata) ;;;
      stop (Return 0)
  | _ =>
      when (negb (json_only args)) (print FailureNotice) ;;;
      stop (Return 1)
  end.

(** What a run prints and how it ends. *)
Definition main (args : Args) (doc : Document) : list Output * Outcome :=
  match (locals <- extract args doc ;; output_results args locals) [] with
  | (inr o, out) => (out, o)
  | (inl e, _) => match e with end
  end.
End Main.

(** The command as the repository assembles it. *)
Definition cli (extract_metadata_from_text : string -> Metadata)
    (llm : LlmExtractor.Llm) (args : Args) (doc : Document) : list Output * Outcome :=
  main (fun d => LlmExtractor.extract_pins_with_llm llm (doc_pdf d))
       (fun d => (traditional extract_metadata_from_text d).1)
       args doc.

End Parse.

(** ** Document metadata ([extract_metadata_from_text] in
    [extractors/table_extractor.py])

  The bullet character U+2022 that the function looks for lies outside
  the ASCII characters of the model: the character that stands for it is
  the parameter [bullet]. *)

Module MetadataExtractor.
Import Schema Re.

(** [s.isupper()]: a cased character, and no lower-case one. *)
Fixpoint any_char (p : ascii -> bool) (s : string) : bool :=
  match s with
  | EmptyString => false
  | String c s' => p c || any_char p s'
  end.

Definition isupper (s : string) : bool :=
  any_char Py.is_upper s && negb (any_char Py.is_lower s).

Definition upper_or_digit (c : ascii) : bool := Py.is_upper c || Py.is_digit c.

(** The pattern [\b( [A-Z]{2,} \d{3,} [A-Z0-9]* )\b], written here with
    spaces between its parts. *)
Definition PART_RE : re :=
  cat [Wordb;
       Grp (cat [Rep Py.is_upper 2 None; Rep Py.is_digit 3 None; star upper_or_digit]);
       Wordb].

(** Lines 37-41: the body of the loop over the first ten lines. *)
Definition part_number_step (found : option string) (line : string) : option string :=
  match re_search PART_RE line with
  | Some [g] =>
      match found with
      | Some p => if Py.truthy p then found else Some g
      | None => Some g
      end
  | _ => found
  end.

Definition find_part_number (lines : list string) : option string :=
  foldl part_number_step None (take 10 lines).

Definition title_keywords : list string :=
  ["converter"; "regulator"; "amplifier"; "controller"; "interface"].

(** Lines 45-46. *)
Definition is_title_line (line : string) : bool :=
  (20 <? Py.len line) && (Py.len line <? 150) && negb (isupper line)
  && existsb (fun word => Py.contains word (Py.lower line)) title_keywords.

(** Lines 44-48: the first title line among the first fifteen lines. *)
Definition find_title (lines : list string) : option string :=
  match List.find is_title_line (take 15 lines) with
  | Some line => Some (Py.strip line)
  | None => None
  end.

Section Bullet.
Variable bullet : ascii.

(** [^[•\-\*]\s*] *)
Definition BULLET_RE : re :=
  cat [Bol; Cls (fun c => chr bullet c || chr "-" c || chr "*" c); star Py.is_space].

(** Lines 66-69 and 87-90: the item of a bullet line, if it has 6 to 199
    characters. *)
Definition bullet_item (line : string) : option string :=
  if Py.startswith (String bullet EmptyString) (Py.strip line)
     || Py.startswith "-" (Py.strip line)
  then
    let item := Py.strip (re_sub BULLET_RE EmptyString line) in
    if (5 <? Py.len item) && (Py.len item <? 200) then Some item else None
  else None.

(** Lines 51-69 and 72-90: the loop over the lines of a bullet section
    whose header line contains [header] and which ends at a line that
    contains one of [stops]; [in_section] is the flag of the loop. *)
Fixpoint section_items (header : string) (stops : list string) (in_section : bool)
    (lines : list string) : list string :=
  match lines with
  | [] => []
  | line :: rest =>
      let line_lower := Py.strip (Py.lower line) in
      if Py.contains header line_lower && (Py.len line_lower <? 30)
      then section_items header stops true rest
      else if in_section then
        if existsb (fun section => Py.contains section line_lower) stops
        then section_items header stops false rest
        else
          match bullet_item line with
          | Some item => item :: section_items header stops true rest
          | None => section_items header stops true rest
          end
      else section_items header stops false rest
  end.

Definition feature_stops : list string :=
  ["description"; "application"; "specification"; "pin config"].

Definition application_stops : list string :=
  ["pin config"; "specification"; "features"].

Definition description_stops : list string :=
  ["pin config"; "pin description"; "specification"; "features"; "application"].

(** Lines 93-108: the loop that collects [description_text]; it stops at
    the first section line met inside the description. *)
Fixpoint description_text (in_description : bool) (lines : list string) : list string :=
  match lines with
  | [] => []
  | line :: rest =>
      let line_lower := Py.strip (Py.lower line) in
      if String.eqb line_lower "description"
         || ((Py.len line_lower <? 30) && Py.contains "description" line_lower)
      then description_text true rest
      else if in_description then
        if existsb (fun section => Py.contains section line_lower) description_stops
        then []
        else if Py.truthy (Py.strip line)
                && negb (Py.startswith (String bullet EmptyString) (Py.strip line))
        then Py.strip line :: description_text true rest
        else description_text true rest
      else description_text false rest
  end.

(** Lines 110-111. *)
Definition find_description (lines : list string) : option string :=
  match description_text false lines with
  | [] => None
  | text => Some (Py.join " " (take 10 text))
  end.

(** The metadata of the lines of a page. *)
Definition metadata_of_lines (lines : list string) : Metadata :=
  mkMetadata (section_items "features" feature_stops false lines)
             (section_items "application" application_stops false lines)
             (find_description lines)
             (find_title lines)
             (find_part_number lines).

Definition extract_metadata_from_text (text : string) : Metadata :=
  metadata_of_lines (Py.split_char "010" text).

End Bullet.

End MetadataExtractor.

(** ** Utilities ([utils.py]) *)

Module Utils.

(** An element of the ["pins"] list of [format_pin_data]: a dictionary
    with the keys ["pin"] and ["name"], or the name as it was given. *)
Inductive pin_entry : Type :=
| Indexed (pin : Z) (name : string)
| Plain (name : string).

(** The dictionary that [format_pin_data] returns. *)
Record PinData : Type := mkPinData {
  pd_pins : list pin_entry;
  pd_count : nat
}.

Definition format_pin_data (pins : list string) (include_indices : bool) : PinData :=
  let pin_list :=
    if include_indices
    then imap (fun i name => Indexed (Z.of_nat i + 1) name) pins
    else map Plain pins in
  mkPinData pin_list (length pins).

End Utils.

(** ** Specification vocabulary *)

Module Spec.

(** The first, respectively last, value written for a key in a list of
    writes. *)
Fixpoint first_assoc {V : Type} (c : list (Z * V)) (k : Z) : option V :=
  match c with
  | [] => None
  | x :: c' => if decide (x.1 = k) then Some x.2 else first_assoc c' k
  end.

Fixpoint last_assoc {V : Type} (c : list (Z * V)) (k : Z) : option V :=
  match c with
  | [] => None
  | x :: c' =>
      match last_assoc c' k with
      | Some w => Some w
      | None => if decide (x.1 = k) then Some x.2 else None
      end
  end.

(** [v] is the record of the first entry of [c] with key [k]. *)
Definition first_seen {V : Type} (c : list (Z * V)) (k : Z) (v : V) : Prop :=
  ∃ l1 l2, c = l1 ++ (k, v) :: l2 ∧ k ∉ l1.*1.

(** [v] is the record of the last entry of [c] with key [k]. *)
Definition last_seen {V : Type} (c : list (Z * V)) (k : Z) (v : V) : Prop :=
  ∃ l1 l2, c = l1 ++ (k, v) :: l2 ∧ k ∉ l2.*1.

(** [out] lists, by strictly ascending key, one record per key of [c],
    chosen by [pick]. *)
Definition keyed_by {V : Type} (pick : list (Z * V) → Z → V → Prop)
    (c : list (Z * V)) (ks : list Z) (out : list V) : Prop :=
  StronglySorted Z.lt ks ∧ (∀ k, k ∈ ks ↔ k ∈ c.*1) ∧ Forall2 (pick c) ks out.

(** The (number, name) pairs of a diagram text, pooled from both
    shapes: one pair per occurrence of the name-then-number shape, in the
    order of the text, followed by one pair per occurrence of the
    number-then-name shape. *)
Definition name_then_number (groups : list string) : Z * string :=
  (Py.int (nth 1 groups EmptyString), nth 0 groups EmptyString).

Definition number_then_name (groups : list string) : Z * string :=
  (Py.int (nth 0 groups EmptyString), nth 1 groups EmptyString).

Definition pooled_pairs (text : string) : list (Z * string) :=
  map name_then_number (Re.re_findall OcrExtractor.pattern_A text)
  ++ map number_then_name (Re.re_findall OcrExtractor.pattern_B text).

(** A candidate is well formed when its record carries its key as an
    integer pin number, and the key is not 0. *)
Definition candidate_ok (x : Z * Schema.Pin) : Prop :=
  Schema.number x.2 = Schema.IntNum x.1 ∧ x.1 ≠ 0.

End Spec.

(** ** Concrete documents *)

Module Scenario.
Import Schema TableExtractor.

Definition nl : string := String "010" EmptyString.

(** The metadata of a first page on which none of the sections and
    patterns of [extract_metadata_from_text] occurs. *)
Definition no_sections (text : string) : Metadata :=
  mkMetadata [] [] None None None.

(** Scenario B of the specification. *)
Definition table_B : Table :=
  [ [Some "PIN#"; Some "NAME"; Some "I/O TYPE"];
    [Some "3"; Some "SDA"; Some "Digital I/O"] ].

Definition text_B : string :=
  "PIN# NAME I/O TYPE" +:+ nl +:+ "3 SDA Digital I/O".

Definition pin_B : Pin :=
  mkPin (IntNum 3) "SDA" (Some [("type", DStr "Digital"); ("direction", DStr "I/O")]).

(** A page with the table of scenario B, whose text also has a line for
    pin 3 and one for pin 4. *)
Definition pages_B4 : list Page :=
  [ mkPage [table_B]
      (Some (text_B +:+ nl +:+ "4 VSS Ground connection" +:+ nl
             +:+ "3 SCL Serial clock")) ].

(** A table of two rows whose second row reads like a header. *)
Definition table_two_rows : Table :=
  [ [Some "A"; Some "B"];
    [Some "Pin"; Some "Name"] ].

(** The same with a data row below. *)
Definition table_three_rows : Table :=
  [ [Some "A"; Some "B"];
    [Some "Pin"; Some "Name"];
    [Some "1"; Some "VDD"] ].

(** A scanned document: one page without tables and without text. *)
Definition scanned_pdf : Pdf := Some [mkPage [] None].

(** The two shapes of the diagram patterns on two lines, as in the
    comment above the patterns in [ocr_extractor.py], and on one line
    with a comma between them. *)
Definition diagram_lines : string := "VDD 1" +:+ nl +:+ "2 SDA".
Definition diagram_comma : string := "VDD 1, 2 SDA".

(** Both shapes with the same pin number, over two images. *)
Definition diagram_same_pin : list string := ["VDD 1, "; "1 SDA"].

Definition doc_diagram_lines : Parse.Document :=
  Parse.mkDocument scanned_pdf (Some [Py.Returns diagram_lines]) None.

Definition doc_diagram_comma : Parse.Document :=
  Parse.mkDocument scanned_pdf (Some [Py.Returns diagram_comma]) None.

(** A document whose tables give pins. *)
Definition doc_tables : Parse.Document :=
  Parse.mkDocument (Some pages_B4) (Some [Py.Returns diagram_comma]) None.

(** A document without pages. *)
Definition doc_empty : Parse.Document :=
  Parse.mkDocument (Some []) (Some []) (Some []).

(** Scanned documents on which the recognition raises: on the first image
    of the diagram strategy; on the second image of the text strategy, after
    a diagram on which nothing is read. *)
Definition doc_diagram_raises : Parse.Document :=
  Parse.mkDocument scanned_pdf (Some [Py.Raises; Py.Returns diagram_comma])
                   (Some [Py.Returns diagram_comma]).

Definition doc_text_raises : Parse.Document :=
  Parse.mkDocument scanned_pdf (Some [Py.Returns EmptyString])
                   (Some [Py.Returns diagram_comma; Py.Raises]).

(** A first page with text but no pin, over a readable diagram. *)
Definition doc_metadata_only : Parse.Document :=
  Parse.mkDocument (Some [mkPage [] (Some "16-bit converter")])
                   (Some [Py.Returns diagram_comma]) None.

(** A provider that answers every page with one pin, except page 2, on
    which the call raises. *)
Definition vdd : Pin := mkPin (IntNum 1) "VDD" None.

Definition quote : string := String "034" EmptyString.

Definition reply : string :=
  "{" +:+ quote +:+ "pins" +:+ quote +:+ ": [{" +:+ quote +:+ "number" +:+ quote
  +:+ ": 1, " +:+ quote +:+ "name" +:+ quote +:+ ": " +:+ quote +:+ "VDD" +:+ quote
  +:+ "}]}".

Definition llm_one_pin : LlmExtractor.Llm :=
  LlmExtractor.mkLlm LlmExtractor.OpenAI
    (fun _ page_number =>
       if page_number =? 2 then None
       else Some ("```json" +:+ nl +:+ reply +:+ nl +:+ "```"))
    (fun content => if String.eqb content reply then Some [vdd] else None).

Definition pdf_three_pages : Pdf :=
  Some [mkPage [] (Some "Pin 1: VDD");
        mkPage [] (Some "Ordering information");
        mkPage [] (Some "Pin 1: VDD (top view)")].

Definition llm_args : Parse.Args := Parse.mkArgs Parse.Llm false.

End Scenario.

(** ** Further specification vocabulary *)

Module Shape.
Import Schema.

(** The values that the table strategy writes under the keys ["type"] and
    ["direction"]. *)
Definition pin_types : list string :=
  ["Analog/Digital"; "Analog"; "Digital"; "Power"; "Ground"].

Definition directions : list string := ["I/O"; "Output"; "Input"].

Definition detail_keys : list string := ["type"; "direction"; "description"].

Definition entry_ok (e : string * detail) : Prop :=
  (e.1 = "type" ∧ ∃ t, e.2 = DStr t ∧ t ∈ pin_types)
  ∨ (e.1 = "direction" ∧ ∃ d, e.2 = DStr d ∧ d ∈ directions)
  ∨ (e.1 = "description" ∧ ∃ s, e.2 = DStr s ∧ s ≠ EmptyString).

(** A [details] value of the table strategy: absent, or a mapping that is
    not empty, whose keys are some of type, direction, description, once
    each and in that order. *)
Definition details_ok (d : option (list (string * detail))) : Prop :=
  match d with
  | None => True
  | Some l => l ≠ [] ∧ l.*1 `sublist_of` detail_keys ∧ Forall entry_ok l
  end.

Definition pin_shape (pin : Pin) : Prop :=
  Config.MIN_PIN_NAME_LENGTH ≤ Py.len (name pin) ≤ Config.MAX_PIN_NAME_LENGTH
  ∧ details_ok (details pin).

(** A candidate that the text fallback appends: a number from 1 to 256, a
    name that is an upper-case letter followed by 1 to 20 more characters,
    and a description as the only detail. *)
Definition fallback_pin (x : Z * Pin) : Prop :=
  1 ≤ x.1 ≤ 256
  ∧ number x.2 = IntNum x.1
  ∧ (∃ c t, name x.2 = String c t ∧ Py.is_upper c = true
            ∧ (1 ≤ String.length t ≤ 20)%nat)
  ∧ (details x.2 = None
     ∨ ∃ desc, details x.2 = Some [("description", DStr desc)] ∧ desc ≠ EmptyString).

(** The string does not end in white space. *)
Definition no_trailing_space (s : string) : Prop :=
  ∀ t c, s = t +:+ String c EmptyString → Py.is_space c = false.

(** A column role that is set points below [n]. *)
Definition below (n : nat) (role : option nat) : Prop :=
  match role with Some j => (j < n)%nat | None => True end.

Definition roles_below (n : nat) (r : TableExtractor.Roles) : Prop :=
  below n (TableExtractor.pin_idx r) ∧ below n (TableExtractor.name_idx r)
  ∧ below n (TableExtractor.type_idx r) ∧ below n (TableExtractor.direction_idx r)
  ∧ below n (TableExtractor.description_idx r).

(** How one header cell changes a role: not at all, or to its own index
    [i]; a role that keeps the first match is changed only when unset. *)
Definition updated (i : nat) (old new : option nat) : Prop :=
  new = old ∨ new = Some i.

Definition first_kept (i : nat) (old new : option nat) : Prop :=
  match old with Some _ => new = old | None => new = None ∨ new = Some i end.

Definition header_step (i : nat) (r r' : TableExtractor.Roles) : Prop :=
  updated i (TableExtractor.pin_idx r) (TableExtractor.pin_idx r')
  ∧ first_kept i (TableExtractor.name_idx r) (TableExtractor.name_idx r')
  ∧ first_kept i (TableExtractor.type_idx r) (TableExtractor.type_idx r')
  ∧ first_kept i (TableExtractor.direction_idx r) (TableExtractor.direction_idx r')
  ∧ first_kept i (TableExtractor.description_idx r) (TableExtractor.description_idx r').

(** The test of the pin-number column on a header cell. *)
Definition is_pin_header (h : string) : bool :=
  Re.matched (Re.re_search TableExtractor.PIN_RE (Py.lower h))
  && negb (Py.contains "description" (Py.lower h)).

(** An item of the features or applications list: 6 to 199 characters,
    without white space around it. *)
Definition item_ok (item : string) : Prop :=
  6 ≤ Py.len item ≤ 199 ∧ Py.strip item = item.

(** A part number: two upper-case letters or more, then three digits or
    more, then upper-case letters and digits. *)
Definition part_number_ok (p : string) : Prop :=
  ∃ letters digits tail,
    p = letters +:+ digits +:+ tail
    ∧ Py.all_chars Py.is_upper letters = true ∧ (2 ≤ String.length letters)%nat
    ∧ Py.all_chars Py.is_digit digits = true ∧ (3 ≤ String.length digits)%nat
    ∧ Py.all_chars MetadataExtractor.upper_or_digit tail = true.

(** Every character but the backtick. *)
Definition not_backtick (c : ascii) : bool := negb (Ascii.eqb c "`").

End Shape.

(** ** Further concrete documents *)

Module Cases.
Import Schema TableExtractor.

(** Fifty pages, the first with the table of scenario B, and a fifty-first
    page with a table of its own. *)
Definition fifty_pages : list Page :=
  mkPage [Scenario.table_B] None :: replicate 49 (mkPage [] None).

Definition page_51 : Page :=
  mkPage [[ [Some "PIN"; Some "NAME"]; [Some "9"; Some "GND"] ]]
         (Some "7 VREF Reference voltage").

(** The pins that the strategy returns for [Scenario.pages_B4]. *)
Definition pin_VSS : Pin :=
  mkPin (IntNum 4) "VSS" (Some [("description", DStr "Ground connection")]).

Definition result_B4 : TableResult :=
  mkTableResult [Scenario.pin_B; pin_VSS] (Some (mkMetadata [] [] None None None)).

(** Two candidates in ascending order of pin number. *)
Definition candidates_13 : list (Z * Pin) := [(1, Scenario.vdd); (3, Scenario.pin_B)].

(** A header row with two cells that pass the pin test, and a cell
    after them that does not. *)
Definition headers_two_pins : list string := ["pin"; "name"; "pin no"; "type"].

(** The result of the orchestrator for [Scenario.doc_diagram_comma]. *)
Definition result_comma : TableResult :=
  mkTableResult [mkPin (IntNum 1) "VDD" None; mkPin (IntNum 2) "SDA" None] None.

(** The result of [extract_pins_with_llm] for [Scenario.llm_one_pin] and
    [Scenario.pdf_three_pages]. *)
Definition llm_result_3 : LlmExtractor.LlmResult :=
  LlmExtractor.mkLlmResult true 3 2 [] [[Scenario.vdd]; [Scenario.vdd]].

(** The byte that stands for the bullet in the examples. *)
Definition bullet : ascii := "149"%char.

(** A page with a description section. *)
Definition text_description : string :=
  "DESCRIPTION" +:+ Scenario.nl +:+ "  The part is small.  " +:+ Scenario.nl
  +:+ "Pin Configuration".

(** Sixteen lines, the first with a part number, and a line to put after
    them. *)
Definition head_lines : list string := "ADS1115" :: replicate 15 "x".
Definition late_line : string := "Dual TPS54360 buck converter for portable designs".

(** Recognised text of the text strategy. *)
Definition text_lines : string := " 2 SDA " +:+ Scenario.nl +:+ "1 VDD".

(** A fenced reply body. *)
Definition fenced_body : string := Scenario.nl +:+ Scenario.reply +:+ Scenario.nl.

End Cases.

(** ** Dictionaries keyed by pin number *)

Section Dict.
Context {V : Type}.
Implicit Types (m : gmap Z V) (c : list (Z * V)) (k : Z) (v : V).

Lemma first_assoc_Some c k v :
  Spec.first_assoc c k = Some v ↔ Spec.first_seen c k v.
Proof.
  induction c as [|[k' v'] c IH]; simpl.
  - split; [done|]. intros ([|??] & ? & ? & _); done.
  - case_decide as Hk; simplify_eq/=.
    + split.
      * intros [= ->]. exists [], c. split; [done|]. set_solver.
      * intros ([|[k1 v1] l1] & l2 & Heq & Hn); simplify_eq/=; [done|].
        set_solver.
    + rewrite IH. split.
      * intros (l1 & l2 & -> & Hn). exists ((k', v') :: l1), l2.
        split; [done|]. set_solver.
      * intros ([|[k1 v1] l1] & l2 & Heq & Hn); simplify_eq/=.
        exists l1, l2. split; [done|]. set_solver.
Qed.

Lemma first_assoc_None c k : Spec.first_assoc c k = None ↔ k ∉ c.*1.
Proof.
  induction c as [|[k' v'] c IH]; simpl; [set_solver|].
  case_decide; simplify_eq/=; [set_solver|]. rewrite IH. set_solver.
Qed.

Lemma last_assoc_None c k : Spec.last_assoc c k = None ↔ k ∉ c.*1.
Proof.
  induction c as [|[k' v'] c IH]; simpl; [set_solver|].
  destruct (Spec.last_assoc c k) as [w|].
  - split; [done|]. intros Hn. assert (k ∉ c.*1) as Hc by set_solver.
    apply IH in Hc. done.
  - assert (k ∉ c.*1) as Hc by by apply IH.
    case_decide; simplify_eq/=; set_solver.
Qed.

Lemma last_assoc_Some c k v :
  Spec.last_assoc c k = Some v ↔ Spec.last_seen c k v.
Proof.
  induction c as [|[k' v'] c IH]; simpl.
  - split; [done|]. intros ([|??] & ? & ? & _); done.
  - pose proof (last_assoc_None c k) as HN.
    destruct (Spec.last_assoc c k) as [w|].
    + assert (k ∈ c.*1) as Hin.
      { destruct (decide (k ∈ c.*1)) as [|Hn]; [done|]. by apply HN in Hn. }
      split.
      * intros Hw. apply IH in Hw as (l1 & l2 & -> & Hn).
        by exists ((k', v') :: l1), l2.
      * intros ([|[k1 v1] l1] & l2 & Heq & Hn); simplify_eq/=; [done|].
        apply IH. by exists l1, l2.
    + assert (k ∉ c.*1) as Hnot by by apply HN.
      case_decide as Hk; simplify_eq/=.
      * split.
        -- intros [= ->]. by exists [], c.
        -- intros ([|[k1 v1] l1] & l2 & Heq & Hn); simplify_eq/=; [done|].
           exfalso. apply Hnot. rewrite fmap_app. set_solver.
      * split; [done|].
        intros ([|[k1 v1] l1] & l2 & Heq & Hn); simplify_eq/=.
        exfalso. apply Hnot. rewrite fmap_app. set_solver.
Qed.

(** The keys of a dictionary in ascending order. *)
Lemma sorted_keys_elem m k : k ∈ Py.sorted_keys m ↔ is_Some (m !! k).
Proof.
  unfold Py.sorted_keys. rewrite merge_sort_Permutation.
  change (map fst (map_to_list m)) with ((map_to_list m).*1).
  rewrite list_elem_of_fmap. split.
  - intros ([k' v] & -> & Hin). apply elem_of_map_to_list in Hin. by exists v.
  - intros [v Hv]. exists (k, v). split; [done|]. by apply elem_of_map_to_list.
Qed.

Lemma sorted_keys_NoDup m : NoDup (Py.sorted_keys m).
Proof.
  unfold Py.sorted_keys. rewrite merge_sort_Permutation.
  apply NoDup_fst_map_to_list.
Qed.

Lemma sorted_keys_sorted m : StronglySorted Z.lt (Py.sorted_keys m).
Proof.
  pose proof (sorted_keys_NoDup m) as Hnd.
  assert (StronglySorted Z.le (Py.sorted_keys m)) as Hs
    by apply (StronglySorted_merge_sort Z.le).
  induction Hs as [|k ks Hs IH Hall]; [constructor|].
  apply NoDup_cons in Hnd as [Hk Hnd].
  constructor; [by apply IH|].
  apply Forall_forall. intros k' Hk'.
  rewrite Forall_forall in Hall. specialize (Hall k' Hk').
  assert (k ≠ k') by (intros ->; done). lia.
Qed.

(** Reading every key of the sorted key list. *)
Lemma omap_lookup_keys m (ks : list Z) :
  Forall (λ k, is_Some (m !! k)) ks →
  Forall2 (λ k v, m !! k = Some v) ks (omap (λ p, m !! p) ks).
Proof.
  induction 1 as [|k ks [v Hv] _ IH]; simpl; [constructor|].
  rewrite Hv. by constructor.
Qed.

Lemma sorted_keys_values m :
  Forall2 (λ k v, m !! k = Some v) (Py.sorted_keys m)
          (omap (λ p, m !! p) (Py.sorted_keys m)).
Proof.
  apply omap_lookup_keys, Forall_forall. intros k. apply sorted_keys_elem.
Qed.

(** Two strictly ascending lists with the same elements are equal. *)
Lemma ascending_unique (ks ks' : list Z) :
  StronglySorted Z.lt ks → StronglySorted Z.lt ks' →
  (∀ k, k ∈ ks ↔ k ∈ ks') → ks = ks'.
Proof.
  intros Hs. revert ks'.
  induction Hs as [|k ks Hs IH Hall]; intros ks' Hs' Heq.
  - destruct ks' as [|k' ks']; [done|]. specialize (Heq k'). set_solver.
  - destruct Hs' as [|k' ks' Hs' Hall'].
    { specialize (Heq k). set_solver. }
    rewrite Forall_forall in Hall. rewrite Forall_forall in Hall'.
    assert (k = k') as <-.
    { pose proof (proj1 (Heq k)) as H1. pose proof (proj2 (Heq k')) as H2.
      rewrite !elem_of_cons in H1, H2.
      destruct H1 as [|H1]; [by left|done|].
      destruct H2 as [|H2]; [by left|done|].
      specialize (Hall _ H2). specialize (Hall' _ H1). lia. }
    f_equal. apply IH; [done|]. intros j. specialize (Heq j).
    rewrite !elem_of_cons in Heq. split; intros Hj.
    + destruct (proj1 Heq (or_intror Hj)) as [->|]; [|done].
      specialize (Hall _ Hj). lia.
    + destruct (proj2 Heq (or_intror Hj)) as [->|]; [|done].
      specialize (Hall' _ Hj). lia.
Qed.

(** A choice of record that is a function of the key determines the
    output list. *)
Lemma keyed_by_unique (pick : list (Z * V) → Z → V → Prop) c ks ks' out out' :
  (∀ k v v', pick c k v → pick c k v' → v = v') →
  Spec.keyed_by pick c ks out → Spec.keyed_by pick c ks' out' →
  ks = ks' ∧ out = out'.
Proof.
  intros Hfun (Hs & Hel & Hf) (Hs' & Hel' & Hf').
  assert (ks = ks') as <-.
  { apply ascending_unique; [done..|]. intros k. by rewrite Hel, Hel'. }
  split; [done|]. clear Hs Hs' Hel Hel'. revert out' Hf'.
  induction Hf as [|k v ks out Hp Hf IH]; intros out' Hf'.
  - by apply Forall2_nil_inv_l in Hf'.
  - apply Forall2_cons_inv_l in Hf' as (v' & out2 & Hp' & Hf' & ->).
    f_equal; [by eapply Hfun|by apply IH].
Qed.

Lemma first_seen_fun c k v v' :
  Spec.first_seen c k v → Spec.first_seen c k v' → v = v'.
Proof. rewrite <- !first_assoc_Some. congruence. Qed.

Lemma last_seen_fun c k v v' :
  Spec.last_seen c k v → Spec.last_seen c k v' → v = v'.
Proof. rewrite <- !last_assoc_Some. congruence. Qed.

(** The dictionary written with "keep the first" holds the first record
    of every key. *)
Lemma foldl_keep_first (step : gmap Z V → Z * V → gmap Z V) m c k :
  (∀ m x, step m x = match m !! x.1 with None => <[x.1 := x.2]> m | Some _ => m end) →
  foldl step m c !! k =
    match m !! k with Some v => Some v | None => Spec.first_assoc c k end.
Proof.
  intros Hstep. revert m. induction c as [|[k' v'] c IH]; intros m; simpl.
  - by destruct (m !! k).
  - rewrite IH, Hstep. simpl. destruct (m !! k') as [w|] eqn:Hk'.
    + case_decide; simplify_eq/=; [by rewrite Hk'|done].
    + case_decide; simplify_eq/=.
      * by rewrite lookup_insert_eq, Hk'.
      * by rewrite lookup_insert_ne.
Qed.

(** The dictionary written with plain assignment holds the last record of
    every key. *)
Lemma foldl_keep_last m c k :
  foldl (λ cleaned p, <[p.1 := p.2]> cleaned) m c !! k =
    match Spec.last_assoc c k with Some v => Some v | None => m !! k end.
Proof.
  revert m. induction c as [|[k' v'] c IH]; intros m; simpl; [done|].
  rewrite IH. destruct (Spec.last_assoc c k); [done|].
  case_decide; simplify_eq/=.
  - by rewrite lookup_insert_eq.
  - by rewrite lookup_insert_ne.
Qed.

(** Sorted keys and their records, for a dictionary whose lookups are
    given by [assoc] on the list of writes. *)
Lemma keyed_by_dict (pick : list (Z * V) → Z → V → Prop)
    (assoc : list (Z * V) → Z → option V) m c :
  (∀ k, m !! k = assoc c k) →
  (∀ k v, assoc c k = Some v ↔ pick c k v) →
  (∀ k, assoc c k = None ↔ k ∉ c.*1) →
  Spec.keyed_by pick c (Py.sorted_keys m) (omap (λ p, m !! p) (Py.sorted_keys m)).
Proof.
  intros Hm Hsome Hnone. split; [apply sorted_keys_sorted|split].
  - intros k. rewrite sorted_keys_elem, Hm.
    destruct (assoc c k) as [v|] eqn:Hk.
    + split; [|by eauto]. intros _.
      destruct (decide (k ∈ c.*1)) as [|Hn]; [done|].
      apply Hnone in Hn. congruence.
    + apply Hnone in Hk. split; [by intros [??]|done].
  - eapply Forall2_impl; [apply sorted_keys_values|].
    intros k v Hk. apply Hsome. by rewrite <- Hm.
Qed.

End Dict.

(** ** Facts about the structural table strategy *)

Section TableFacts.
Import Schema Re TableExtractor Spec.

Lemma process_row_ok pin_i name_i r row x :
  process_row pin_i name_i r row = Some x → candidate_ok x.
Proof.
  unfold process_row. cbv zeta. intros H.
  repeat match type of H with
         | (if ?b then _ else _) = _ => destruct b eqn:?; try discriminate
         end.
  injection H as <-. split; [done|]. simpl. by apply Z.eqb_neq.
Qed.

Lemma process_table_ok table : Forall candidate_ok (process_table table).
Proof.
  unfold process_table. case_match; [constructor|].
  destruct (select_headers table) as [headers data_start_idx].
  repeat case_match; try constructor.
  apply Forall_forall. intros x (row & _ & Hrow)%list_elem_of_omap.
  by eapply process_row_ok.
Qed.

Lemma table_candidates_ok pages : Forall candidate_ok (table_candidates pages).
Proof.
  unfold table_candidates. apply Forall_flat_map, Forall_forall. intros page _.
  apply Forall_flat_map, Forall_forall. intros table _. apply process_table_ok.
Qed.

(** The fallback only appends, and what it appends is well formed. *)
Lemma fallback_line_extends candidates line :
  ∃ extra, fallback_line candidates line = candidates ++ extra
           ∧ Forall candidate_ok extra.
Proof.
  unfold fallback_line.
  assert (∃ extra, candidates = candidates ++ extra ∧ Forall candidate_ok extra) as Hsame.
  { exists []. by rewrite app_nil_r. }
  destruct (re_match TEXT_LINE_RE (Py.strip line)) as [[|g1 [|g2 [|g3 [|??]]]]|];
    try done.
  cbv zeta.
  repeat match goal with
         | |- ∃ _, (if ?b then _ else _) = _ ∧ _ => destruct b eqn:?; try done
         end.
  eexists. split; [done|]. constructor; [|constructor].
  split; [done|]. simpl. by apply Z.eqb_neq.
Qed.

Lemma foldl_extends {X : Type} (f : list (Z * Pin) → X → list (Z * Pin)) xs c :
  (∀ c x, ∃ extra, f c x = c ++ extra ∧ Forall candidate_ok extra) →
  ∃ extra, foldl f c xs = c ++ extra ∧ Forall candidate_ok extra.
Proof.
  intros Hf. revert c. induction xs as [|x xs IH]; intros c; simpl.
  - exists []. by rewrite app_nil_r.
  - destruct (Hf c x) as (e1 & -> & H1).
    destruct (IH (c ++ e1)) as (e2 & -> & H2).
    exists (e1 ++ e2). rewrite <- app_assoc. split; [done|]. by apply Forall_app.
Qed.

Lemma fallback_page_extends candidates page :
  ∃ extra, fallback_page candidates page = candidates ++ extra
           ∧ Forall candidate_ok extra.
Proof.
  unfold fallback_page.
  assert (∃ extra, candidates = candidates ++ extra ∧ Forall candidate_ok extra) as Hsame.
  { exists []. by rewrite app_nil_r. }
  destruct (page_text page) as [text|]; [|done].
  destruct (Py.truthy text); [|done].
  apply foldl_extends, fallback_line_extends.
Qed.

Lemma text_fallback_extends pages candidates :
  ∃ extra, text_fallback pages candidates = candidates ++ extra
           ∧ Forall candidate_ok extra.
Proof. apply foldl_extends, fallback_page_extends. Qed.

Lemma all_candidates_ok pages : Forall candidate_ok (all_candidates pages).
Proof.
  unfold all_candidates.
  destruct (text_fallback_extends (take 50 pages) (table_candidates (take 50 pages)))
    as (extra & -> & Hextra).
  apply Forall_app. split; [apply table_candidates_ok|done].
Qed.

(** The merge lists, by ascending key, the first record of every key. *)
Lemma merge_candidates_keyed candidates :
  Spec.keyed_by Spec.first_seen candidates
    (Py.sorted_keys (build_seen candidates)) (merge_candidates candidates).
Proof.
  unfold merge_candidates.
  apply (keyed_by_dict Spec.first_seen Spec.first_assoc).
  - intros k. unfold build_seen.
    rewrite (foldl_keep_first seen_step); [by rewrite lookup_empty|done].
  - apply first_assoc_Some.
  - apply first_assoc_None.
Qed.

(** A first record of [l] is still the first record of [l ++ l']. *)
Lemma first_seen_app_l {V : Type} (l l' : list (Z * V)) k v :
  Spec.first_seen l k v → Spec.first_seen (l ++ l') k v.
Proof.
  intros (l1 & l2 & -> & Hn). exists l1, (l2 ++ l').
  by rewrite <- app_assoc.
Qed.

Lemma first_seen_elem {V : Type} (c : list (Z * V)) k v :
  Spec.first_seen c k v → (k, v) ∈ c.
Proof. intros (l1 & l2 & -> & _). set_solver. Qed.

Lemma keyed_by_elem {V : Type} pick (c : list (Z * V)) ks out k v :
  (∀ k v v', pick c k v → pick c k v' → v = v') →
  Spec.keyed_by pick c ks out → k ∈ c.*1 → pick c k v → v ∈ out.
Proof.
  intros Hfun (_ & Hel & Hf) Hk Hp. apply Hel in Hk.
  apply list_elem_of_lookup in Hk as [i Hi].
  destruct (Forall2_lookup_l _ _ _ _ _ Hf Hi) as (v' & Hv' & Hp').
  rewrite (Hfun _ _ _ Hp Hp'). by eapply list_elem_of_lookup_2.
Qed.

End TableFacts.

(** ** The merge of the structural table strategy *)

Section Merge.
Import Schema Re TableExtractor Spec.

(** The number of a record listed by the merge is its key. *)
Lemma merge_numbers candidates ks out :
  Forall candidate_ok candidates →
  Forall2 (first_seen candidates) ks out →
  number <$> out = IntNum <$> ks.
Proof.
  intros Hok. induction 1 as [|k pin ks out Hp _ IH]; [done|].
  simpl. f_equal; [|done].
  apply first_seen_elem in Hp. rewrite Forall_forall in Hok.
  destruct (Hok _ Hp) as [Hn _]. exact Hn.
Qed.

(** The pin list of a result of the strategy is the merge of all the
    candidates of the document. *)
Lemma result_pins_merge extract_metadata_from_text pages :
  match extract_pins_from_tables extract_metadata_from_text (Some pages) with
  | Some result => pins result = merge_candidates (all_candidates pages)
  | None => all_candidates pages = []
  end.
Proof.
  simpl. destruct (all_candidates pages) as [|c cs] eqn:Hc; [|done].
  by destruct (first_page_metadata _ _).
Qed.

Lemma ascending_NoDup (ks : list Z) : StronglySorted Z.lt ks → NoDup ks.
Proof.
  induction 1 as [|k ks Hs IH Hall]; constructor; [|done].
  intros Hin. rewrite Forall_forall in Hall. specialize (Hall _ Hin). lia.
Qed.

(** C1. The candidates of the structural table strategy are the table
    candidates, in encounter order, followed by the text-fallback ones.
    The merge returns one record per pin number: the first one met in
    that order, so a record read off a table wins over one read off the
    text; the records come by strictly ascending pin number; and this
    determines the returned list: any list of first-met records in
    ascending order of pin number is the one the merge returns. The
    list is the pin list of the result of the strategy. *)
Theorem merge_first_seen_ascending
    (extract_metadata_from_text : string → Metadata) (pages : list Page) :
  let tables := table_candidates (take 50 pages) in
  let candidates := all_candidates pages in
  let out := merge_candidates candidates in
  ∃ ks : list Z,
    (∃ extra, candidates = tables ++ extra)
    ∧ keyed_by first_seen candidates ks out
    ∧ number <$> out = IntNum <$> ks
    ∧ (∀ k pin, first_seen tables k pin → pin ∈ out)
    ∧ (∀ ks' out', keyed_by first_seen candidates ks' out' → ks' = ks ∧ out' = out)
    ∧ match extract_pins_from_tables extract_metadata_from_text (Some pages) with
      | Some result => pins result = out
      | None => candidates = []
      end.
Proof.
  intros tables candidates out.
  pose proof (merge_candidates_keyed candidates) as Hkeyed.
  pose proof (all_candidates_ok pages) as Hok.
  destruct (text_fallback_extends (take 50 pages) tables) as (extra & Hext & _).
  exists (Py.sorted_keys (build_seen candidates)).
  split; [by exists extra|]. split; [done|]. split; [|split; [|split]].
  - destruct Hkeyed as (_ & _ & Hf). by eapply merge_numbers.
  - intros k pin Hfirst.
    assert (first_seen candidates k pin) as Hc.
    { unfold candidates, all_candidates. fold tables. rewrite Hext.
      by apply first_seen_app_l. }
    eapply (keyed_by_elem first_seen); [apply first_seen_fun|done| |done].
    apply first_seen_elem in Hc. apply list_elem_of_fmap. by exists (k, pin).
  - intros ks' out' Hk'.
    by eapply (keyed_by_unique first_seen); [apply first_seen_fun|..].
  - apply result_pins_merge.
Qed.

(** C3. Whatever the document, every pin that the structural table
    strategy returns has an integer pin number, no returned pin has the
    number 0, and no two returned pins have the same number. *)
Theorem table_pins_numeric_unique_nonzero
    (extract_metadata_from_text : string → Metadata) (pdf : Pdf)
    (result : TableResult) :
  extract_pins_from_tables extract_metadata_from_text pdf = Some result →
  Forall (λ pin, ∃ n, number pin = IntNum n ∧ n ≠ 0) (pins result)
  ∧ NoDup (number <$> pins result).
Proof.
  destruct pdf as [pages|]; [|done]. intros Hres.
  pose proof (result_pins_merge extract_metadata_from_text pages) as Hpins.
  rewrite Hres in Hpins. rewrite Hpins.
  pose proof (all_candidates_ok pages) as Hok.
  destruct (merge_candidates_keyed (all_candidates pages)) as (Hs & _ & Hf).
  split.
  - apply Forall_forall. intros pin Hpin.
    apply list_elem_of_lookup in Hpin as [i Hi].
    destruct (Forall2_lookup_r _ _ _ _ _ Hf Hi) as (k & _ & Hk).
    apply first_seen_elem in Hk. rewrite Forall_forall in Hok.
    destruct (Hok _ Hk) as [Hn H0]. by exists k.
  - rewrite (merge_numbers _ _ _ Hok Hf). apply NoDup_fmap_2.
    + by intros n n' [= ->].
    + by apply ascending_NoDup.
Qed.

End Merge.

(** ** Header selection *)

Section Headers.
Import Schema Re TableExtractor Spec.

(** C8, as stated: a weak first row and a second row that reads like a
    header promote the second row whenever a second row exists. The
    table of two rows [Scenario.table_two_rows] refutes it: its first row
    stays the header row and its second row is data. *)
Lemma promotion_needs_a_data_row :
  ¬ (∀ table : Table,
       (1 < length table)%nat →
       weak_header (first_row_headers table) = true →
       looks_like_header (second_row_headers table) = true →
       select_headers table = (second_row_headers table, 2%nat)).
Proof.
  intros Hclaim.
  specialize (Hclaim Scenario.table_two_rows).
  assert (select_headers Scenario.table_two_rows = (["a"; "b"], 1%nat)) as Hsel
    by by vm_compute.
  rewrite Hsel in Hclaim.
  assert ((["a"; "b"], 1%nat) = (second_row_headers Scenario.table_two_rows, 2%nat))
    as Heq; [|by inversion Heq].
  apply Hclaim; [simpl; lia|by vm_compute..].
Qed.

(** C8, amended. In a table of at least three rows, when more than half
    of the row-0 header cells are empty or none of them contains "name",
    and the cells of row 1, joined, contain "name", "type" or
    "description", then row 1 is the header row and the data rows are
    the rows from row 2 on. *)
Theorem header_promotion (table : Table) :
  (2 < length table)%nat →
  weak_header (first_row_headers table) = true →
  looks_like_header (second_row_headers table) = true →
  select_headers table = (second_row_headers table, 2%nat)
  ∧ process_table table =
      let headers := second_row_headers table in
      let r := probe_pin_column table headers 2 (classify_headers headers) in
      match pin_idx r, name_idx r with
      | Some pin_i, Some name_i =>
          if is_packaging_table headers then []
          else omap (process_row pin_i name_i r) (drop 2 table)
      | _, _ => []
      end.
Proof.
  intros Hlen Hweak Hlooks.
  assert (select_headers table = (second_row_headers table, 2%nat)) as Hsel.
  { unfold select_headers. rewrite Hweak, Hlooks.
    by destruct (Nat.ltb_spec 2 (length table)); [|lia]. }
  split; [done|]. unfold process_table. rewrite Hsel.
  by destruct (Nat.ltb_spec (length table) 2); [lia|].
Qed.

Lemma header_promotion_witness :
  select_headers Scenario.table_three_rows = (["pin"; "name"], 2%nat)
  ∧ process_table Scenario.table_three_rows = [(1, mkPin (IntNum 1) "VDD" None)].
Proof.
  destruct (header_promotion Scenario.table_three_rows) as [Hsel Hproc].
  - simpl. lia.
  - by vm_compute.
  - by vm_compute.
  - split; [exact Hsel|]. rewrite Hproc. by vm_compute.
Defined.

End Headers.

(** ** Scenario B *)

Section ScenarioB.
Import Schema Re TableExtractor Spec Scenario.

(** C6. The table with the header row PIN#, NAME, I/O TYPE and the data
    row 3, SDA, Digital I/O: the header I/O TYPE gives its column both
    the type role and the direction role, and the strategy returns the
    single pin number 3, name SDA, details type Digital and direction
    I/O, whether the page has no text or the text of the table. *)
Theorem scenario_B_one_pin (extract_metadata_from_text : string → Metadata) :
  select_headers table_B = (["pin#"; "name"; "i/o type"], 1%nat)
  ∧ classify_headers ["pin#"; "name"; "i/o type"]
    = mkRoles (Some 0%nat) (Some 1%nat) (Some 2%nat) (Some 2%nat) None
  ∧ process_table table_B = [(3, pin_B)]
  ∧ pins <$> extract_pins_from_tables extract_metadata_from_text
               (Some [mkPage [table_B] None]) = Some [pin_B]
  ∧ pins <$> extract_pins_from_tables extract_metadata_from_text
               (Some [mkPage [table_B] (Some text_B)]) = Some [pin_B].
Proof. repeat split; by vm_compute. Qed.

End ScenarioB.

(** ** The diagram recognition strategy *)

Section Diagram.
Import Schema Re OcrExtractor Spec Scenario.

(** When every recognition returns, the text is the concatenation of the
    recognised texts. *)
Lemma recognized_text_returns (text : string) (texts : list string) :
  recognized_text text (Py.Returns <$> texts)
  = Py.Returns (foldl String.app text texts).
Proof.
  revert text. induction texts as [|t texts IH]; intros text; [done|].
  simpl. apply IH.
Qed.

Lemma names_of_pairs_keyed pairs :
  match names_of_pairs pairs with
  | None => pairs = []
  | Some names =>
      pairs ≠ [] ∧ keyed_by last_seen pairs (Py.sorted_keys (build_cleaned pairs)) names
  end.
Proof.
  destruct pairs as [|p pairs]; [done|].
  unfold names_of_pairs. split; [done|].
  apply (keyed_by_dict last_seen last_assoc).
  - intros k. unfold build_cleaned. rewrite foldl_keep_last.
    by destruct (last_assoc _ _).
  - apply last_assoc_Some.
  - apply last_assoc_None.
Qed.

(** C7, on the code. For the text with the two shapes on two lines, the
    number-then-name pattern reads the number 1 that ends the first line
    with the number 2 that starts the second as the pair (1, 2): the
    strategy returns the single name 2, and the orchestrator the single
    pin 1 named 2. With a comma between the two shapes the names are
    VDD and SDA, and the orchestrator numbers them 1 and 2, without
    details and without metadata. *)
Theorem ocr_two_lines_collide (extract_metadata_from_text : string → Metadata) :
  re_findall pattern_A diagram_lines = [["VDD"; "1"]]
  ∧ re_findall pattern_B diagram_lines = [["1"; "2"]]
  ∧ extract_pins_from_ocr (Some [Py.Returns diagram_lines]) = Py.Returns (Some ["2"])
  ∧ Parse.traditional extract_metadata_from_text doc_diagram_lines
    = (Py.Returns
         (Some (TableExtractor.mkTableResult [mkPin (IntNum 1) "2" None] None)),
       [Parse.TableStrategy; Parse.DiagramStrategy])
  ∧ extract_pins_from_ocr (Some [Py.Returns diagram_comma])
    = Py.Returns (Some ["VDD"; "SDA"])
  ∧ Parse.traditional extract_metadata_from_text doc_diagram_comma
    = (Py.Returns
         (Some (TableExtractor.mkTableResult
                  [mkPin (IntNum 1) "VDD" None; mkPin (IntNum 2) "SDA" None] None)),
       [Parse.TableStrategy; Parse.DiagramStrategy]).
Proof. repeat split; by vm_compute. Qed.

End Diagram.

(** ** The language-model strategy *)

Section LanguageModel.
Import Schema LlmExtractor Scenario.

(** C5, on the code. The pin list of the result of [extract_pins_with_llm]
    is empty whatever the pages give: the pins of the pages are kept in
    [llm_results] only. For the document of three pages whose first and
    third page the provider answers with the pin VDD and on whose second
    page the call raises, the pages after the failure are still
    processed, the concatenation of the pins of the pages is VDD, VDD,
    and the pin list of the result is empty. *)
Theorem llm_pins_never_aggregated :
  (∀ llm pdf,
     match extract_pins_with_llm llm pdf with
     | Some result => pins result = []
     | None => extract_text_from_pdf pdf = []
     end)
  ∧ extract_pins_with_llm llm_one_pin pdf_three_pages
    = Some (mkLlmResult true 3 2 [] [[vdd]; [vdd]])
  ∧ concat [[vdd]; [vdd]] = [vdd; vdd].
Proof.
  split; [|split; [by vm_compute|done]].
  intros llm pdf. unfold extract_pins_with_llm.
  by destruct (extract_text_from_pdf pdf).
Qed.

End LanguageModel.

(** ** The orchestrator *)

Section Orchestrator.
Import Schema TableExtractor OcrExtractor TextExtractor Parse Scenario.

Variable extract_metadata_from_text : string → Metadata.

(** The run of the orchestrator, by what the strategies do. *)
Lemma traditional_cases (doc : Document) :
  let tables := extract_pins_from_tables extract_metadata_from_text (doc_pdf doc) in
  traditional extract_metadata_from_text doc =
    if has_pins tables then (Py.Returns tables, [TableStrategy])
    else
      match extract_pins_from_ocr (doc_diagram doc) with
      | Py.Raises => (Py.Raises, [TableStrategy; DiagramStrategy])
      | Py.Returns diagram =>
          if names_found diagram
          then (Py.Returns (Some (mkTableResult (number_pins (default [] diagram)) None)),
                [TableStrategy; DiagramStrategy])
          else
            match extract_pins_from_text (doc_text doc) with
            | Py.Raises => (Py.Raises, [TableStrategy; DiagramStrategy; TextStrategy])
            | Py.Returns text =>
                if names_found text
                then (Py.Returns
                        (Some (mkTableResult (number_pins (default [] text)) None)),
                      [TableStrategy; DiagramStrategy; TextStrategy])
                else (Py.Returns None, [TableStrategy; DiagramStrategy; TextStrategy])
            end
      end.
Proof.
  intros tables. unfold traditional, extract_pins_traditional.
  simpl. fold tables. destruct (has_pins tables); [done|].
  simpl. destruct (extract_pins_from_ocr (doc_diagram doc)) as [diagram|]; [|done].
  simpl. destruct (names_found diagram); [done|].
  simpl. destruct (extract_pins_from_text (doc_text doc)) as [text|]; [|done].
  simpl. by destruct (names_found text).
Qed.

Lemma has_pins_true result :
  has_pins result = true ↔ ∃ r, result = Some r ∧ pins r ≠ [].
Proof.
  destruct result as [[[|p ps] m]|]; simpl; split; try done.
  - by intros (r & [= <-] & Hr).
  - intros _. by eexists.
  - by intros (r & ? & _).
Qed.

Lemma names_found_true names :
  names_found names = true ↔ ∃ l, names = Some l ∧ l ≠ [].
Proof.
  destruct names as [[|n l]|]; simpl; split; try done.
  - by intros (l & [= <-] & Hl).
  - intros _. by eexists.
  - by intros (l & ? & _).
Qed.

(** C2. If the structural table strategy returns a result with a pin, the
    orchestrator returns that result and has invoked the table strategy
    only. If it does not and the diagram strategy returns a name, the
    orchestrator has invoked the table and the diagram strategy, not the
    text strategy. If none of the three returns a pin, all three were
    invoked, in that order, and the orchestrator returns [None]. When the
    recognition raises in the diagram or in the text strategy, the
    exception leaves the orchestrator after that invocation. *)
Theorem strategy_precedence (doc : Document) :
  let tables := extract_pins_from_tables extract_metadata_from_text (doc_pdf doc) in
  let diagram := extract_pins_from_ocr (doc_diagram doc) in
  let text := extract_pins_from_text (doc_text doc) in
  (∀ r, tables = Some r → pins r ≠ [] →
     traditional extract_metadata_from_text doc = (Py.Returns (Some r), [TableStrategy]))
  ∧ (has_pins tables = false → ∀ names, diagram = Py.Returns (Some names) → names ≠ [] →
     traditional extract_metadata_from_text doc
     = (Py.Returns (Some (mkTableResult (number_pins names) None)),
        [TableStrategy; DiagramStrategy]))
  ∧ (has_pins tables = false →
     ∀ d x, diagram = Py.Returns d → names_found d = false →
            text = Py.Returns x → names_found x = false →
     traditional extract_metadata_from_text doc
     = (Py.Returns None, [TableStrategy; DiagramStrategy; TextStrategy]))
  ∧ (has_pins tables = false → diagram = Py.Raises →
     traditional extract_metadata_from_text doc
     = (Py.Raises, [TableStrategy; DiagramStrategy]))
  ∧ (has_pins tables = false →
     ∀ d, diagram = Py.Returns d → names_found d = false → text = Py.Raises →
     traditional extract_metadata_from_text doc
     = (Py.Raises, [TableStrategy; DiagramStrategy; TextStrategy])).
Proof.
  intros tables diagram text. pose proof (traditional_cases doc) as Hrun.
  cbv zeta in Hrun. fold tables diagram text in Hrun.
  split; [|split; [|split; [|split]]].
  - intros r Hr Hp.
    assert (has_pins tables = true) as Ht by (apply has_pins_true; eauto).
    by rewrite Hrun, Ht, Hr.
  - intros Ht names Hd Hn.
    assert (names_found (Some names) = true) as Hf by (apply names_found_true; eauto).
    by rewrite Hrun, Ht, Hd, Hf.
  - intros Ht d x Hd Hnd Hx Hnx. by rewrite Hrun, Ht, Hd, Hnd, Hx, Hnx.
  - intros Ht Hd. by rewrite Hrun, Ht, Hd.
  - intros Ht d Hd Hnd Hx. by rewrite Hrun, Ht, Hd, Hnd, Hx.
Qed.

(** C9. When the candidates of a document are none and its first page has
    text, the table strategy returns the metadata with an empty pin list.
    The orchestrator then goes on to the diagram strategy, and whatever it
    returns has no metadata. A result of the orchestrator with metadata
    is a result of the table strategy with a pin. *)
Theorem metadata_needs_table_pins :
  (∀ pages m,
     all_candidates pages = [] →
     first_page_metadata extract_metadata_from_text pages = Some m →
     extract_pins_from_tables extract_metadata_from_text (Some pages)
     = Some (mkTableResult [] (Some m)))
  ∧ (∀ doc m,
       extract_pins_from_tables extract_metadata_from_text (doc_pdf doc)
       = Some (mkTableResult [] (Some m)) →
       [TableStrategy; DiagramStrategy]
         `prefix_of` (traditional extract_metadata_from_text doc).2
       ∧ ∀ r, (traditional extract_metadata_from_text doc).1 = Py.Returns (Some r) →
              metadata r = None)
  ∧ (∀ doc r m,
       (traditional extract_metadata_from_text doc).1 = Py.Returns (Some r) →
       metadata r = Some m →
       extract_pins_from_tables extract_metadata_from_text (doc_pdf doc) = Some r
       ∧ pins r ≠ []).
Proof.
  split; [|split].
  - intros pages m Hc Hm. simpl. by rewrite Hc, Hm.
  - intros doc m Ht. rewrite (traditional_cases doc). cbv zeta. rewrite Ht. simpl.
    destruct (extract_pins_from_ocr _) as [d|]; [|done].
    destruct (names_found d); simpl.
    { split; [done|]. by intros r [= <-]. }
    destruct (extract_pins_from_text _) as [x|];
      [|split; [by exists [TextStrategy]|done]].
    destruct (names_found x); simpl.
    + split; [by exists [TextStrategy]|]. by intros r [= <-].
    + split; [by exists [TextStrategy]|]. done.
  - intros doc r m. rewrite (traditional_cases doc). cbv zeta.
    destruct (has_pins _) eqn:Ht; simpl.
    + intros [= Hr] _. apply has_pins_true in Ht as (r' & Hr' & Hp).
      rewrite Hr' in Hr. injection Hr as <-. done.
    + destruct (extract_pins_from_ocr _) as [d|]; [|done].
      destruct (names_found d); simpl; [by intros [= <-]|].
      destruct (extract_pins_from_text _) as [x|]; [|done].
      destruct (names_found x); simpl; by intros [= <-].
Qed.

End Orchestrator.

(** ** The output step of the command *)

Section Command.
Import Schema Parse Scenario.

(** C10. In [main] the local [metadata] is assigned in the traditional
    branch only. In llm mode, when the extraction returns a result (such
    a result has [success] set) with at least one pin, the extraction step
    leaves [metadata] unbound, and the output step ends in an
    [UnboundLocalError] on [metadata] before anything is printed: the
    final JSON is not printed. *)
Theorem llm_output_reads_unbound_metadata
    (extract_pins_with_llm : Document → option LlmExtractor.LlmResult)
    (extract_pins_traditional :
       Document → Py.result (option TableExtractor.TableResult))
    (args : Args) (doc : Document) (result : LlmExtractor.LlmResult) :
  method args = Llm →
  extract_pins_with_llm doc = Some result →
  LlmExtractor.success result = true →
  LlmExtractor.pins result ≠ [] →
  extract extract_pins_with_llm extract_pins_traditional args doc []
    = (inl (mkLocals (Some (LlmExtractor.pins result)) None), [])
  ∧ main extract_pins_with_llm extract_pins_traditional args doc
    = ([], UnboundLocalError "metadata").
Proof.
  intros Hm Hr Hs Hp.
  assert (extract extract_pins_with_llm extract_pins_traditional args doc []
          = (inl (mkLocals (Some (LlmExtractor.pins result)) None), [])) as He.
  { unfold extract. rewrite Hm, Hr, Hs.
    by destruct (LlmExtractor.pins result). }
  split; [done|]. unfold main, bind. rewrite He.
  unfold output_results. simpl.
  destruct (LlmExtractor.pins result) as [|pin rest]; [done|].
  by destruct (json_only args).
Qed.

Lemma llm_output_reads_unbound_metadata_witness :
  main (fun _ => Some (LlmExtractor.mkLlmResult true 1 1 [vdd] [[vdd]]))
       (fun _ => Py.Returns None) llm_args doc_empty
  = ([], UnboundLocalError "metadata").
Proof.
  apply (llm_output_reads_unbound_metadata
           (fun _ => Some (LlmExtractor.mkLlmResult true 1 1 [vdd] [[vdd]]))
           (fun _ => Py.Returns None) llm_args doc_empty
           (LlmExtractor.mkLlmResult true 1 1 [vdd] [[vdd]]));
    reflexivity || discriminate.
Defined.

End Command.

(** ** The theorems at concrete documents *)

Section Witnesses.
Import Schema TableExtractor Parse Spec Scenario.

Lemma merge_first_seen_ascending_witness :
  merge_candidates (all_candidates pages_B4)
  = [pin_B; mkPin (IntNum 4) "VSS" (Some [("description", DStr "Ground connection")])]
  ∧ pin_B ∈ merge_candidates (all_candidates pages_B4).
Proof.
  destruct (merge_first_seen_ascending no_sections pages_B4)
    as (ks & _ & _ & _ & Htable & _ & _).
  split; [by vm_compute|].
  apply (Htable 3). exists [], []. split; [by vm_compute|]. apply not_elem_of_nil.
Defined.

Lemma table_pins_numeric_unique_nonzero_witness :
  Forall (λ pin, ∃ n, number pin = IntNum n ∧ n ≠ 0)
    [pin_B; mkPin (IntNum 4) "VSS" (Some [("description", DStr "Ground connection")])]
  ∧ NoDup [IntNum 3; IntNum 4].
Proof.
  apply (table_pins_numeric_unique_nonzero no_sections (Some pages_B4)
           (mkTableResult
              [pin_B;
               mkPin (IntNum 4) "VSS" (Some [("description", DStr "Ground connection")])]
              (Some (mkMetadata [] [] None None None)))).
  by vm_compute.
Defined.

Lemma strategy_precedence_witness :
  traditional no_sections doc_tables
  = (Py.Returns (extract_pins_from_tables no_sections (doc_pdf doc_tables)),
     [TableStrategy])
  ∧ (traditional no_sections doc_diagram_comma).2 = [TableStrategy; DiagramStrategy]
  ∧ traditional no_sections doc_empty
    = (Py.Returns None, [TableStrategy; DiagramStrategy; TextStrategy])
  ∧ traditional no_sections doc_diagram_raises
    = (Py.Raises, [TableStrategy; DiagramStrategy])
  ∧ traditional no_sections doc_text_raises
    = (Py.Raises, [TableStrategy; DiagramStrategy; TextStrategy]).
Proof.
  split; [|split; [|split; [|split]]].
  - destruct (strategy_precedence no_sections doc_tables) as (H & _ & _).
    rewrite (H (mkTableResult
                  [pin_B; mkPin (IntNum 4) "VSS"
                            (Some [("description", DStr "Ground connection")])]
                  (Some (mkMetadata [] [] None None None)))); [by vm_compute..|done].
  - destruct (strategy_precedence no_sections doc_diagram_comma) as (_ & H & _).
    rewrite (H eq_refl ["VDD"; "SDA"]); [done|by vm_compute|done].
  - destruct (strategy_precedence no_sections doc_empty) as (_ & _ & H & _).
    by apply (H eq_refl None None).
  - destruct (strategy_precedence no_sections doc_diagram_raises) as (_ & _ & _ & H & _).
    by apply H.
  - destruct (strategy_precedence no_sections doc_text_raises) as (_ & _ & _ & _ & H).
    by apply (H eq_refl None).
Defined.

Lemma metadata_needs_table_pins_witness :
  extract_pins_from_tables no_sections (doc_pdf doc_metadata_only)
  = Some (mkTableResult [] (Some (mkMetadata [] [] None None None)))
  ∧ (∀ r, (traditional no_sections doc_metadata_only).1 = Py.Returns (Some r) →
          metadata r = None).
Proof.
  destruct (metadata_needs_table_pins no_sections) as (H1 & H2 & _).
  assert (extract_pins_from_tables no_sections (doc_pdf doc_metadata_only)
          = Some (mkTableResult [] (Some (mkMetadata [] [] None None None)))) as Ht.
  { apply H1; reflexivity. }
  split; [exact Ht|]. by destruct (H2 _ _ Ht) as [_ H].
Defined.

End Witnesses.


(** ** Further properties of the structural table strategy *)

Section TableShape.
Import Schema Re TableExtractor Spec Shape.

(** A property of every candidate of a row and of every candidate that
    the fallback appends is a property of all the candidates. *)
Lemma foldl_appends {X : Type} (P : Z * Pin → Prop)
    (f : list (Z * Pin) → X → list (Z * Pin)) xs c :
  (∀ c x, ∃ extra, f c x = c ++ extra ∧ Forall P extra) →
  ∃ extra, foldl f c xs = c ++ extra ∧ Forall P extra.
Proof.
  intros Hf. revert c. induction xs as [|x xs IH]; intros c; simpl.
  - exists []. by rewrite app_nil_r.
  - destruct (Hf c x) as (e1 & -> & H1).
    destruct (IH (c ++ e1)) as (e2 & -> & H2).
    exists (e1 ++ e2). rewrite <- app_assoc. split; [done|]. by apply Forall_app.
Qed.

Lemma all_candidates_Forall (P : Z * Pin → Prop) :
  (∀ pin_i name_i r row x, process_row pin_i name_i r row = Some x → P x) →
  (∀ c line, ∃ extra, fallback_line c line = c ++ extra ∧ Forall P extra) →
  ∀ pages, Forall P (all_candidates pages).
Proof.
  intros Hrow Hline pages. unfold all_candidates.
  assert (Forall P (table_candidates (take 50 pages))) as Htab.
  { unfold table_candidates. apply Forall_flat_map, Forall_forall. intros page _.
    apply Forall_flat_map, Forall_forall. intros table _.
    unfold process_table. case_match; [constructor|].
    destruct (select_headers table) as [headers data_start_idx].
    repeat case_match; try constructor.
    apply Forall_forall. intros x (row & _ & Hx)%list_elem_of_omap.
    by eapply Hrow. }
  destruct (foldl_appends P fallback_page (take 50 pages)
              (table_candidates (take 50 pages))) as (extra & Hext & Hextra).
  { intros c page. unfold fallback_page.
    assert (∃ extra, c = c ++ extra ∧ Forall P extra) as Hsame.
    { exists []. by rewrite app_nil_r. }
    destruct (page_text page) as [text|]; [|done].
    destruct (Py.truthy text); [|done].
    by apply foldl_appends. }
  unfold text_fallback. rewrite Hext. by apply Forall_app.
Qed.

(** Every pin of the merge is the record of a candidate. *)
Lemma merge_candidates_elem candidates pin :
  pin ∈ merge_candidates candidates → ∃ k, (k, pin) ∈ candidates.
Proof.
  intros Hpin. destruct (merge_candidates_keyed candidates) as (_ & _ & Hf).
  apply list_elem_of_lookup in Hpin as [i Hi].
  destruct (Forall2_lookup_r _ _ _ _ _ Hf Hi) as (k & _ & Hk).
  exists k. by apply first_seen_elem.
Qed.

Lemma result_pins_Forall (P : Z * Pin → Prop) extract_metadata_from_text pdf result :
  (∀ pages, Forall P (all_candidates pages)) →
  extract_pins_from_tables extract_metadata_from_text pdf = Some result →
  Forall (λ pin, ∃ k, P (k, pin)) (pins result).
Proof.
  intros HP Hres. destruct pdf as [pages|]; [|done].
  pose proof (result_pins_merge extract_metadata_from_text pages) as Hpins.
  rewrite Hres in Hpins. rewrite Hpins. apply Forall_forall. intros pin Hpin.
  apply merge_candidates_elem in Hpin as [k Hk]. exists k.
  specialize (HP pages). rewrite Forall_forall in HP. by apply HP.
Qed.

Lemma type_of_text_values s t : type_of_text s = Some t → t ∈ pin_types.
Proof.
  unfold type_of_text, pin_types. intros H.
  repeat match type of H with
         | (if ?b then _ else _) = _ => destruct b
         end; simplify_eq; set_solver.
Qed.

Lemma pin_type_of_values r row t : pin_type_of r row = Some t → t ∈ pin_types.
Proof.
  unfold pin_type_of. intros H.
  destruct (type_idx r) as [ti|]; [|done].
  destruct (role_cell _ _) as [cell|]; [|done].
  destruct (type_of_text _) as [t'|] eqn:Ht.
  - injection H as <-. by eapply type_of_text_values.
  - repeat match type of H with
           | (if ?b then _ else _) = _ => destruct b
           end; simplify_eq. set_solver.
Qed.

Lemma direction_of_values r row d : direction_of r row = Some d → d ∈ directions.
Proof.
  assert (∀ s, direction_of_text s = Some d → d ∈ directions) as H1.
  { intros s H. unfold direction_of_text in H.
    repeat match type of H with
           | (if ?b then _ else _) = _ => destruct b
           end; simplify_eq; set_solver. }
  assert (∀ s, direction_of_type_text s = Some d → d ∈ directions) as H2.
  { intros s H. unfold direction_of_type_text in H.
    repeat match type of H with
           | (if ?b then _ else _) = _ => destruct b
           end; simplify_eq; set_solver. }
  unfold direction_of. intros H.
  destruct (role_cell (direction_idx r) row) as [cell|].
  - destruct (direction_of_text _) as [d'|] eqn:Hd.
    + assert (d' = d) as -> by (destruct (role_cell (type_idx r) row); by simplify_eq).
      by eapply H1.
    + destruct (role_cell (type_idx r) row); [by eapply H2|done].
  - destruct (role_cell (type_idx r) row); [by eapply H2|done].
Qed.

Lemma description_of_nonempty r row s :
  description_of r row = Some s → s ≠ EmptyString.
Proof.
  unfold description_of. intros H.
  destruct (role_cell _ _) as [cell|]; [|done].
  destruct (Z.ltb_spec 3 (Py.len (Py.strip cell))) as [Hlen|]; [|done].
  injection H as <-. intros Heq. rewrite Heq in Hlen. by vm_compute in Hlen.
Qed.

Lemma build_details_ok t d s :
  (∀ t', t = Some t' → t' ∈ pin_types) →
  (∀ d', d = Some d' → d' ∈ directions) →
  (∀ s', s = Some s' → s' ≠ EmptyString) →
  details_ok (build_details t d s).
Proof.
  intros Ht Hd Hs. unfold build_details.
  assert (∀ t', t = Some t' → Py.truthy t' = true) as Htt.
  { intros t' Heq. specialize (Ht _ Heq). unfold pin_types in Ht.
    repeat (apply elem_of_cons in Ht as [->|Ht]; [done|]).
    by apply elem_of_nil in Ht. }
  assert (∀ d', d = Some d' → Py.truthy d' = true) as Hdt.
  { intros d' Heq. specialize (Hd _ Heq). unfold directions in Hd.
    repeat (apply elem_of_cons in Hd as [->|Hd]; [done|]).
    by apply elem_of_nil in Hd. }
  assert (∀ s', s = Some s' → Py.truthy s' = true) as Hst.
  { intros s' Heq. specialize (Hs _ Heq). by destruct s'. }
  unfold detail_entry.
  destruct t as [t'|]; [rewrite (Htt t' eq_refl)|];
    (destruct d as [d'|]; [rewrite (Hdt d' eq_refl)|]);
    (destruct s as [s'|]; [rewrite (Hst s' eq_refl)|]); simpl; try done;
    (split; [done|]); (split; [unfold detail_keys; repeat first
       [apply sublist_nil | apply sublist_skip | apply sublist_cons]|]);
    repeat (apply Forall_cons; split); try apply Forall_nil;
    unfold entry_ok; simpl; naive_solver.
Qed.

Lemma process_row_shape pin_i name_i r row x :
  process_row pin_i name_i r row = Some x → pin_shape x.2.
Proof.
  unfold process_row. cbv zeta. intros H.
  repeat match type of H with
         | (if ?b then _ else _) = _ => destruct b eqn:?; try discriminate
         end.
  injection H as <-. split; simpl.
  - apply orb_false_iff in Heqb3 as [H1 H2]. lia.
  - apply build_details_ok.
    + intros ??. by eapply pin_type_of_values.
    + intros ??. by eapply direction_of_values.
    + intros ??. by eapply description_of_nonempty.
Qed.

Lemma fallback_line_shape candidates line :
  ∃ extra, fallback_line candidates line = candidates ++ extra
           ∧ Forall (λ x, pin_shape x.2) extra.
Proof.
  unfold fallback_line.
  assert (∃ extra, candidates = candidates ++ extra
                   ∧ Forall (λ x : Z * Pin, pin_shape x.2) extra) as Hsame.
  { exists []. by rewrite app_nil_r. }
  destruct (re_match TEXT_LINE_RE (Py.strip line)) as [[|g1 [|g2 [|g3 [|??]]]]|];
    try done.
  cbv zeta.
  repeat match goal with
         | |- ∃ _, (if ?b then _ else _) = _ ∧ _ => destruct b eqn:?; try done
         end.
  eexists. split; [done|]. constructor; [|constructor].
  split; simpl.
  - apply andb_true_iff in Heqb4 as [H1 H2]. lia.
  - destruct (Py.strip g3) as [|c s] eqn:Hg; simpl; [done|].
    split; [done|]. split.
    + unfold detail_keys. repeat first
        [apply sublist_nil | apply sublist_skip | apply sublist_cons].
    + constructor; [|constructor]. unfold entry_ok. simpl. naive_solver.
Qed.

(** X1. Every pin that the structural table strategy returns has a name of
    1 to 30 characters, and its details are either absent or a mapping
    that is not empty, with keys among type, direction and description,
    once each and in that order; the type is one of Analog/Digital, Analog,
    Digital, Power, Ground, the direction one of I/O, Output, Input, and
    the description is not empty. *)
Theorem table_pins_shape
    (extract_metadata_from_text : string → Metadata) (pdf : Pdf)
    (result : TableResult) :
  extract_pins_from_tables extract_metadata_from_text pdf = Some result →
  Forall pin_shape (pins result).
Proof.
  intros Hres.
  eapply Forall_impl.
  - eapply (result_pins_Forall (λ x, pin_shape x.2)); [|done].
    apply all_candidates_Forall.
    + apply process_row_shape.
    + apply fallback_line_shape.
  - by intros pin [k Hk].
Qed.

End TableShape.

(** ** What the patterns match *)

Section Patterns.
Import Re.

Lemma app_String c (t s : string) : String c t +:+ s = String c (t +:+ s).
Proof. reflexivity. Qed.

Lemma app_Empty (s : string) : EmptyString +:+ s = s.
Proof. reflexivity. Qed.

Lemma length_app (t s : string) :
  String.length (t +:+ s) = (String.length t + String.length s)%nat.
Proof. induction t as [|c t IH]; [done|]. rewrite app_String. simpl. by rewrite IH. Qed.

Lemma take_app_exact (t s : string) :
  Py.take (String.length (t +:+ s) - String.length s) (t +:+ s) = t.
Proof.
  rewrite length_app.
  replace (String.length t + String.length s - String.length s)%nat
    with (String.length t) by lia.
  induction t as [|c t IH]; [by destruct s|].
  rewrite app_String. simpl. by rewrite IH.
Qed.

Lemma app_assoc_s (a b c : string) : (a +:+ b) +:+ c = a +:+ (b +:+ c).
Proof. induction a as [|x a IH]; [done|]. rewrite !app_String. by rewrite IH. Qed.

Lemma all_chars_app p (t s : string) :
  Py.all_chars p (t +:+ s) = Py.all_chars p t && Py.all_chars p s.
Proof.
  induction t as [|c t IH]; [done|]. rewrite app_String. simpl.
  rewrite IH. by rewrite andb_assoc.
Qed.

(** A greedy repetition hands over to its continuation after a run of
    characters of the class, of a length within the bounds. *)
Lemma rep_inv {A : Type} p lo hi prev s (k : option ascii → string → option A) x :
  rep p lo hi prev s k = Some x →
  ∃ t s' prev',
    s = t +:+ s' ∧ Py.all_chars p t = true
    ∧ (lo ≤ String.length t)%nat
    ∧ (∀ h, hi = Some h → (String.length t ≤ h)%nat)
    ∧ k prev' s' = Some x.
Proof.
  revert lo hi prev. induction s as [|c s IH]; intros lo hi prev; simpl.
  - destruct lo; [|done]. intros Hk.
    exists EmptyString, EmptyString, prev. repeat split; try done; simpl; lia.
  - assert (match lo with O => k prev (String c s) | S _ => None end = Some x →
            ∃ t s' prev',
              String c s = t +:+ s' ∧ Py.all_chars p t = true
              ∧ (lo ≤ String.length t)%nat
              ∧ (∀ h, hi = Some h → (String.length t ≤ h)%nat)
              ∧ k prev' s' = Some x) as Hstop.
    { destruct lo; [|done]. intros Hk.
      exists EmptyString, (String c s), prev. repeat split; try done; simpl; lia. }
    destruct (p c) eqn:Hp; simpl; [|done].
    destruct (hi_zero hi) eqn:Hz; simpl; [done|].
    destruct (rep p (Nat.pred lo) (option_map Nat.pred hi) (Some c) s k)
      as [y|] eqn:Hrec; [|done].
    intros [= ->]. apply IH in Hrec as (t & s' & prev' & -> & Ht & Hlo & Hhi & Hk).
    exists (String c t), s', prev'. rewrite app_String. simpl. rewrite Hp, Ht.
    repeat split; try done; [lia|].
    intros h ->. destruct h as [|h]; [done|]. specialize (Hhi h eq_refl). lia.
Qed.

(** The value of a string of decimal digits. *)
Lemma int_acc_digits acc s :
  Py.all_chars Py.is_digit s = true → 0 ≤ acc →
  acc * 10 ^ Z.of_nat (String.length s) ≤ Py.int_acc acc s
  < (acc + 1) * 10 ^ Z.of_nat (String.length s).
Proof.
  revert acc. induction s as [|c s IH]; intros acc Hs Hacc.
  - simpl. lia.
  - simpl in Hs. apply andb_true_iff in Hs as [Hc Hs].
    assert (0 ≤ Py.digit_val c ≤ 9) as Hd.
    { unfold Py.is_digit, Py.in_range in Hc. unfold Py.digit_val.
      destruct c as [[] [] [] [] [] [] [] []]; try done; vm_compute; split; congruence. }
    change (Py.int_acc acc (String c s)) with (Py.int_acc (10 * acc + Py.digit_val c) s).
    specialize (IH (10 * acc + Py.digit_val c) Hs ltac:(lia)).
    replace (Z.of_nat (String.length (String c s)))
      with (1 + Z.of_nat (String.length s)) by (simpl; lia).
    rewrite Z.pow_add_r by lia. change (10 ^ 1) with 10.
    pose proof (Z.pow_pos_nonneg 10 (Z.of_nat (String.length s))) as Hpos.
    nia.
Qed.

Lemma int_digits s :
  Py.all_chars Py.is_digit s = true →
  0 ≤ Py.int s < 10 ^ Z.of_nat (String.length s).
Proof.
  intros Hs. pose proof (int_acc_digits 0 s Hs ltac:(lia)) as H.
  unfold Py.int. lia.
Qed.

End Patterns.

Tactic Notation "rep_step" hyp(H) "as" ident(t) ident(s) ident(Hall) ident(Hlo) ident(Hhi) :=
  let prev := fresh "prev" in
  apply rep_inv in H as (t & s & prev & -> & Hall & Hlo & Hhi & H);
  cbv beta in H.

Section PatternGroups.
Import Re.

(** The groups of a line that the text fallback accepts: a number in
    digits, and a name that is an upper-case letter followed by 1 to 20
    characters of the name class. *)
Lemma text_line_groups s caps :
  re_match TableExtractor.TEXT_LINE_RE s = Some caps →
  ∃ g1 c t g3,
    caps = [g1; String c t; g3]
    ∧ Py.all_chars Py.is_digit g1 = true ∧ (1 ≤ String.length g1)%nat
    ∧ Py.is_upper c = true
    ∧ Py.all_chars TableExtractor.name_tail t = true
    ∧ (1 ≤ String.length t ≤ 20)%nat.
Proof.
  unfold re_match, match_at.
  destruct (run _ _ _ _ _) as [[rest caps']|] eqn:H; [|done].
  intros [= <-]. simpl in H.
  rep_step H as g1 s1 Hg1 Hl1 Hh1. rewrite take_app_exact in H.
  rep_step H as w1 s2 Hw1 Hlw1 Hhw1.
  destruct s2 as [|c s2]; [done|]. destruct (Py.is_upper c) eqn:Hc; [|done].
  rep_step H as t s3 Ht Hlt Hht.
  rewrite <- app_String, take_app_exact in H.
  rep_step H as w2 s4 Hw2 Hlw2 Hhw2.
  rep_step H as g3 s5 Hg3 Hl3 Hh3. rewrite take_app_exact in H.
  injection H as <- <-.
  exists g1, c, t, g3. repeat split; try done. by apply (Hht 20%nat).
Qed.

(** The groups of a match of the two diagram patterns. *)
Lemma pattern_A_groups prev s rest caps :
  match_at OcrExtractor.pattern_A prev s = Some (rest, caps) →
  ∃ name pin,
    caps = [name; pin]
    ∧ Py.all_chars Py.is_digit pin = true ∧ (1 ≤ String.length pin ≤ 3)%nat
    ∧ Py.all_chars OcrExtractor.token_char name = true
    ∧ (1 ≤ String.length name)%nat.
Proof.
  unfold match_at. intros H. simpl in H.
  rep_step H as name s1 Hn Hln Hhn. rewrite take_app_exact in H.
  rep_step H as w s2 Hw Hlw Hhw.
  rep_step H as pin s3 Hp Hlp Hhp. rewrite take_app_exact in H.
  injection H as <- <-.
  exists name, pin. repeat split; try done. by apply (Hhp 3%nat).
Qed.

Lemma pattern_B_groups prev s rest caps :
  match_at OcrExtractor.pattern_B prev s = Some (rest, caps) →
  ∃ pin name,
    caps = [pin; name]
    ∧ Py.all_chars Py.is_digit pin = true ∧ (1 ≤ String.length pin ≤ 3)%nat
    ∧ Py.all_chars OcrExtractor.token_char name = true
    ∧ (1 ≤ String.length name)%nat.
Proof.
  unfold match_at. intros H. simpl in H.
  rep_step H as pin s1 Hp Hlp Hhp. rewrite take_app_exact in H.
  rep_step H as w s2 Hw Hlw Hhw.
  rep_step H as name s3 Hn Hln Hhn. rewrite take_app_exact in H.
  injection H as <- <-.
  exists pin, name. repeat split; try done. by apply (Hhp 3%nat).
Qed.

(** Every match that [re.findall] lists is a match at some position. *)
Lemma findall_from_matches r prev s skip caps :
  caps ∈ findall_from r prev s skip →
  ∃ prev' s' rest, match_at r prev' s' = Some (rest, caps).
Proof.
  revert prev skip. induction s as [|c s IH]; intros prev skip; simpl.
  - destruct skip; [|by intros ?%elem_of_nil].
    destruct (match_at r prev EmptyString) as [[rest caps']|] eqn:Hm;
      [|by intros ?%elem_of_nil].
    intros ->%list_elem_of_singleton. eauto.
  - destruct skip as [|n]; [|by apply IH].
    destruct (match_at r prev (String c s)) as [[rest caps']|] eqn:Hm; [|by apply IH].
    intros [->|Hin]%elem_of_cons; [eauto|by eapply IH].
Qed.

(** A three-digit number is below 1000. *)
Lemma int_three_digits pin :
  Py.all_chars Py.is_digit pin = true → (String.length pin ≤ 3)%nat →
  0 ≤ Py.int pin ≤ 999.
Proof.
  intros Hd Hlen. pose proof (int_digits pin Hd) as [H0 H1]. split; [done|].
  assert (10 ^ Z.of_nat (String.length pin) ≤ 10 ^ 3) as Hpow
    by (apply Z.pow_le_mono_r; lia).
  change (10 ^ 3) with 1000 in Hpow. lia.
Qed.

End PatternGroups.

(** ** The pairs of the diagram recognition strategy *)

Section DiagramPairs.
Import Re OcrExtractor Spec Scenario.

(** A greedy repetition without upper bound takes a whole text of the
    class. *)
Lemma rep_all {A : Type} p lo prev s (k : option ascii → string → option A) x :
  Py.all_chars p s = true → (lo ≤ String.length s)%nat →
  (∀ prev', k prev' EmptyString = Some x) →
  rep p lo None prev s k = Some x.
Proof.
  intros Hs Hlo Hk. revert lo prev Hs Hlo.
  induction s as [|c s IH]; intros lo prev Hs Hlo; simpl in *.
  - destruct lo; [apply Hk|lia].
  - apply andb_true_iff in Hs as [Hc Hs]. rewrite Hc. simpl.
    rewrite (IH (Nat.pred lo) (Some c) Hs); [done|lia].
Qed.

(** The check of lines 56 and 61 passes on every number that the two
    patterns capture. *)
Lemma digits_match pin :
  Py.all_chars Py.is_digit pin = true → (1 ≤ String.length pin)%nat →
  matched (re_match DIGITS_RE pin) = true.
Proof.
  intros Hd Hlen. unfold re_match, match_at, DIGITS_RE. simpl.
  by rewrite (rep_all Py.is_digit 1 None pin _ (EmptyString, [])).
Qed.

Lemma omap_all_some {X Y : Type} (f : X → option Y) (g : X → Y) (l : list X) :
  (∀ x, x ∈ l → f x = Some (g x)) → omap f l = map g l.
Proof.
  induction l as [|x l IH]; intros H; [done|].
  simpl. rewrite (H x) by set_solver. f_equal. apply IH. intros; apply H; set_solver.
Qed.

(** C4. The strategy pools the pairs of both shapes: its list of pairs has
    one (number, name) pair per occurrence of the name-then-number shape
    followed by one per occurrence of the number-then-name shape, and the
    check on the number drops none of them. Without a pair there is no
    result; otherwise the result has one name per pin number of the pooled
    pairs, the name of the last pair with that number, and the names come
    by strictly ascending pin number. *)
Theorem ocr_last_write_ascending (texts : list string) :
  let text := foldl String.app EmptyString texts in
  let pairs := pooled_pairs text in
  collect_pairs text = pairs
  ∧ match extract_pins_from_ocr (Some (Py.Returns <$> texts)) with
    | Py.Returns None => pairs = []
    | Py.Returns (Some names) =>
        pairs ≠ [] ∧ ∃ ks : list Z, keyed_by last_seen pairs ks names
    | Py.Raises => False
    end.
Proof.
  intros text pairs.
  assert (collect_pairs text = pairs) as Hpairs.
  { unfold collect_pairs, pairs, pooled_pairs. f_equal; apply omap_all_some.
    - intros m Hm. apply findall_from_matches in Hm as (prev & s & rest & Hm).
      apply pattern_A_groups in Hm as (name & pin & -> & Hd & Hlen & _).
      unfold pair_A. by rewrite digits_match by (done || lia).
    - intros m Hm. apply findall_from_matches in Hm as (prev & s & rest & Hm).
      apply pattern_B_groups in Hm as (pin & name & -> & Hd & Hlen & _).
      unfold pair_B. by rewrite digits_match by (done || lia). }
  split; [done|].
  unfold extract_pins_from_ocr. rewrite recognized_text_returns. fold text.
  unfold names_of_text. rewrite Hpairs.
  pose proof (names_of_pairs_keyed pairs) as H.
  destruct (names_of_pairs pairs); [|done].
  destruct H as [Hne Hk]. split; [done|]. by eexists.
Qed.

(** On the two images whose texts join to VDD 1, 1 SDA the first shape
    gives the pair (1, VDD) and the second the pair (1, SDA): the name of
    pin 1 is the one written last. *)
Lemma ocr_last_write_ascending_witness :
  collect_pairs (foldl String.app EmptyString diagram_same_pin)
  = [(1, "VDD"); (1, "SDA")]
  ∧ extract_pins_from_ocr (Some (Py.Returns <$> diagram_same_pin))
    = Py.Returns (Some ["SDA"]).
Proof.
  destruct (ocr_last_write_ascending diagram_same_pin) as [Hpairs Hnames].
  split; [rewrite Hpairs; by vm_compute|].
  destruct (extract_pins_from_ocr _) as [[names|]|] eqn:Hres;
    [|by vm_compute in Hres|done].
  by vm_compute in Hres.
Defined.

End DiagramPairs.


(** ** The text-line fallback *)

Section Fallback.
Import Schema Re TableExtractor Spec Shape.

Lemma strip_no_space s :
  Py.all_chars (λ c, negb (Py.is_space c)) s = true → Py.strip s = s.
Proof.
  intros Hs. unfold Py.strip.
  assert (Py.lstrip s = s) as ->.
  { destruct s as [|c s]; [done|]. simpl in *.
    apply andb_true_iff in Hs as [Hc _]. by destruct (Py.is_space c). }
  induction s as [|c s IH]; [done|]. simpl in *.
  apply andb_true_iff in Hs as [Hc Hs]. rewrite (IH Hs).
  destruct s; [by destruct (Py.is_space c)|done].
Qed.

Lemma upper_not_space c : Py.is_upper c = true → Py.is_space c = false.
Proof. revert c. intros [[] [] [] [] [] [] [] []]; vm_compute; congruence. Qed.

Lemma name_tail_not_space c : name_tail c = true → Py.is_space c = false.
Proof. revert c. intros [[] [] [] [] [] [] [] []]; vm_compute; congruence. Qed.

Lemma all_chars_impl (p q : ascii → bool) s :
  (∀ c, p c = true → q c = true) →
  Py.all_chars p s = true → Py.all_chars q s = true.
Proof.
  intros Hpq. induction s as [|c s IH]; [done|]. simpl.
  intros [Hc Hs]%andb_true_iff. by rewrite (Hpq _ Hc), (IH Hs).
Qed.

Lemma existsb_key_false (c : list (Z * Pin)) k :
  existsb (λ p, p.1 =? k) c = false → k ∉ c.*1.
Proof.
  induction c as [|x c IH]; simpl; [intros _; apply not_elem_of_nil|].
  intros [Hx Hc]%orb_false_iff. apply Z.eqb_neq in Hx.
  rewrite not_elem_of_cons. split; [done|by apply IH].
Qed.

(** One line appends at most one candidate, under a number that no earlier
    candidate has. *)
Lemma fallback_line_fresh candidates line :
  ∃ extra,
    fallback_line candidates line = candidates ++ extra
    ∧ (length extra ≤ 1)%nat
    ∧ Forall (λ x, (x.1 ∉ candidates.*1) ∧ fallback_pin x) extra.
Proof.
  unfold fallback_line.
  assert (∃ extra, candidates = candidates ++ extra ∧ (length extra ≤ 1)%nat
          ∧ Forall (λ x, (x.1 ∉ candidates.*1) ∧ fallback_pin x) extra) as Hsame.
  { exists []. rewrite app_nil_r. repeat split; [simpl; lia|constructor]. }
  destruct (re_match TEXT_LINE_RE (Py.strip line)) as [caps|] eqn:Hm; [|done].
  apply text_line_groups in Hm as (g1 & c & t & g3 & -> & Hg1 & Hl1 & Hc & Ht & Hlt).
  cbv zeta.
  repeat match goal with
         | |- ∃ _, (if ?b then _ else _) = _ ∧ _ => destruct b eqn:?; try done
         end.
  eexists. split; [done|]. split; [simpl; lia|].
  constructor; [|constructor]. split; [by apply existsb_key_false|].
  assert (Py.strip (String c t) = String c t) as Hname.
  { apply strip_no_space. simpl. rewrite (upper_not_space c Hc). simpl.
    eapply all_chars_impl; [|exact Ht].
    intros c' Hc'. by rewrite (name_tail_not_space c' Hc'). }
  pose proof (int_digits g1 Hg1) as [Hpos _].
  apply Z.eqb_neq in Heqb. apply Z.ltb_ge in Heqb0.
  split; [simpl; lia|]. split; [done|]. split.
  - exists c, t. simpl. by rewrite Hname.
  - simpl. destruct (Py.strip g3) as [|c3 s3]; simpl; [by left|].
    right. by eexists.
Qed.

(** The candidates appended over a whole pass have pairwise different
    numbers, none of them a number of a candidate present before the
    pass. *)
Lemma foldl_fresh {X : Type} (f : list (Z * Pin) → X → list (Z * Pin)) xs c :
  (∀ c x, ∃ extra, f c x = c ++ extra ∧ NoDup extra.*1
                   ∧ Forall (λ y, (y.1 ∉ c.*1) ∧ fallback_pin y) extra) →
  ∃ extra, foldl f c xs = c ++ extra ∧ NoDup extra.*1
           ∧ Forall (λ y, (y.1 ∉ c.*1) ∧ fallback_pin y) extra.
Proof.
  intros Hf. revert c. induction xs as [|x xs IH]; intros c; simpl.
  - exists []. rewrite app_nil_r. repeat split; constructor.
  - destruct (Hf c x) as (e1 & -> & Hn1 & H1).
    destruct (IH (c ++ e1)) as (e2 & -> & Hn2 & H2).
    exists (e1 ++ e2). rewrite <- app_assoc. split; [done|].
    rewrite Forall_forall in H1. rewrite Forall_forall in H2. split.
    + rewrite fmap_app. apply NoDup_app. split; [done|]. split; [|done].
      intros k Hk1 (y & -> & Hy)%list_elem_of_fmap.
      destruct (H2 _ Hy) as [Hnot _]. apply Hnot. rewrite fmap_app.
      apply elem_of_app. by right.
    + apply Forall_app. split; apply Forall_forall; intros y Hy.
      * by apply H1.
      * destruct (H2 _ Hy) as [Hnot Hp]. split; [|done].
        intros Hin. apply Hnot. rewrite fmap_app. apply elem_of_app. by left.
Qed.

(** X2. The text fallback only appends to the table candidates. What it
    appends has numbers from 1 to 256 that differ from one another and
    from the number of every table candidate; each appended name is an
    upper-case letter followed by 1 to 20 characters, and the only detail
    is a description that is not empty. *)
Theorem fallback_candidates_fresh (pages : list Page) :
  ∃ extra,
    all_candidates pages = table_candidates (take 50 pages) ++ extra
    ∧ NoDup extra.*1
    ∧ Forall (λ x, (x.1 ∉ (table_candidates (take 50 pages)).*1) ∧ fallback_pin x) extra.
Proof.
  unfold all_candidates, text_fallback. apply foldl_fresh.
  intros c page. unfold fallback_page.
  assert (∃ extra, c = c ++ extra ∧ NoDup extra.*1
          ∧ Forall (λ y, (y.1 ∉ c.*1) ∧ fallback_pin y) extra) as Hsame.
  { exists []. rewrite app_nil_r. repeat split; constructor. }
  destruct (page_text page) as [text|]; [|done].
  destruct (Py.truthy text); [|done].
  apply foldl_fresh. intros c' line.
  destruct (fallback_line_fresh c' line) as (extra & -> & Hlen & Hall).
  exists extra. split; [done|]. split; [|done].
  destruct extra as [|y [|z extra]]; simpl in *; [constructor| |lia].
  apply NoDup_singleton.
Qed.

End Fallback.

(** ** Pin numbers read off a table *)

Section TableNumbers.
Import Schema Re TableExtractor Spec.

Lemma app_Empty_r (s : string) : s +:+ EmptyString = s.
Proof. induction s as [|c s IH]; [done|]. by rewrite app_String, IH. Qed.

(** A stripped string does not end in white space. *)
Lemma rstrip_last s t c :
  Py.rstrip s = t +:+ String c EmptyString → Py.is_space c = false.
Proof.
  revert t. induction s as [|a s IH]; intros t; simpl.
  - by destruct t.
  - destruct (Py.rstrip s) as [|b r] eqn:Hr.
    + destruct (Py.is_space a) eqn:Ha; [by destruct t|].
      destruct t as [|a' t]; [by intros [= <-]|].
      rewrite app_String. intros [= _ Ht]. by destruct t.
    + destruct t as [|a' t]; [done|].
      rewrite app_String. intros [= _ Ht]. by eapply IH.
Qed.

Lemma strip_no_trailing_space s : Shape.no_trailing_space (Py.strip s).
Proof. intros t c Heq. by eapply rstrip_last. Qed.

Lemma empty_no_trailing_space : Shape.no_trailing_space EmptyString.
Proof. intros t c Heq. by destruct t. Qed.

Lemma if_no_trailing_space (b : bool) s1 s2 :
  Shape.no_trailing_space s1 → Shape.no_trailing_space s2 →
  Shape.no_trailing_space (if b then s1 else s2).
Proof. by destruct b. Qed.

Lemma at_end_inv s :
  at_end s = true → s = EmptyString ∨ s = String "010" EmptyString.
Proof.
  destruct s as [|c s]; [by left|].
  destruct c as [[] [] [] [] [] [] [] []]; simpl; try discriminate.
  destruct s; [by right|discriminate].
Qed.

Lemma digits_of_stripped (s : string) :
  Shape.no_trailing_space s →
  matched (re_match DIGITS_RE s) = true →
  Py.all_chars Py.is_digit s = true ∧ s ≠ EmptyString.
Proof.
  intros Hstripped. unfold re_match, match_at.
  destruct (run _ _ _ _ _) as [[rest caps]|] eqn:H; [|done]. intros _.
  simpl in H.
  apply rep_inv in H as (t & s' & prev & -> & Ht & Hlen & _ & H). cbv beta in H.
  destruct (at_end s') eqn:He; [|done].
  apply at_end_inv in He as [-> | ->].
  - rewrite app_Empty_r. split; [done|]. intros ->. simpl in Hlen. lia.
  - specialize (Hstripped t _ eq_refl). by vm_compute in Hstripped.
Qed.

Lemma process_row_positive pin_i name_i r row x :
  process_row pin_i name_i r row = Some x → 1 ≤ x.1.
Proof.
  unfold process_row. cbv zeta. intros H.
  repeat match type of H with
         | (if ?b then _ else _) = _ => destruct b eqn:?; try discriminate
         end.
  injection H as <-. simpl.
  match goal with
  | Hm : negb (matched (re_match DIGITS_RE ?s)) = false,
    Hz : (Py.int ?s =? 0) = false |- _ =>
      apply negb_false_iff in Hm; apply Z.eqb_neq in Hz;
      assert (Py.all_chars Py.is_digit s = true ∧ s ≠ EmptyString) as [Hd _];
      [apply digits_of_stripped; [|done]|pose proof (int_digits _ Hd); lia]
  end.
  repeat apply if_no_trailing_space;
    first [apply strip_no_trailing_space | apply empty_no_trailing_space].
Qed.

(** X3. Every pin number that the structural table strategy returns is an
    integer of at least 1; C3 excludes 0, and a number read off a cell or a
    line is a string of decimal digits. *)
Theorem table_pin_numbers_positive
    (extract_metadata_from_text : string → Metadata) (pdf : Pdf)
    (result : TableResult) :
  extract_pins_from_tables extract_metadata_from_text pdf = Some result →
  Forall (λ pin, ∃ n, number pin = IntNum n ∧ 1 ≤ n) (pins result).
Proof.
  intros Hres. eapply Forall_impl.
  - eapply (result_pins_Forall (λ x, number x.2 = IntNum x.1 ∧ 1 ≤ x.1)); [|done].
    apply all_candidates_Forall.
    + intros pin_i name_i r row x Hx. split.
      * by destruct (process_row_ok _ _ _ _ _ Hx).
      * by eapply process_row_positive.
    + intros c line.
      destruct (fallback_line_fresh c line) as (extra & -> & _ & Hall).
      exists extra. split; [done|]. eapply Forall_impl; [done|].
      intros y [_ (Hk & Hn & _)]. split; [done|lia].
  - intros pin (k & Hn & Hk). by exists k.
Qed.

End TableNumbers.

(** ** Further properties of the diagram and text strategies *)

Section Recognition.
Import Schema Re OcrExtractor TextExtractor Spec.

Lemma last_seen_elem {V : Type} (c : list (Z * V)) k v :
  last_seen c k v → (k, v) ∈ c.
Proof. intros (l1 & l2 & -> & _). set_solver. Qed.

(** Every pair of the recognised text has a pin number from 0 to 999 and a
    name of one token character or more. *)
Lemma collect_pairs_shape text x :
  x ∈ collect_pairs text →
  0 ≤ x.1 ≤ 999 ∧ x.2 ≠ EmptyString ∧ Py.all_chars token_char x.2 = true.
Proof.
  unfold collect_pairs. intros [Hx|Hx]%elem_of_app;
    apply list_elem_of_omap in Hx as (m & Hm & Hpair);
    apply findall_from_matches in Hm as (prev & s & rest & Hm).
  - apply pattern_A_groups in Hm as (name & pin & -> & Hd & Hlen & Htok & Hn).
    simpl in Hpair. destruct (matched _); [|done]. injection Hpair as <-. simpl.
    split; [apply int_three_digits; [done|lia]|]. split; [|done].
    intros ->. simpl in Hn. lia.
  - apply pattern_B_groups in Hm as (pin & name & -> & Hd & Hlen & Htok & Hn).
    simpl in Hpair. destruct (matched _); [|done]. injection Hpair as <-. simpl.
    split; [apply int_three_digits; [done|lia]|]. split; [|done].
    intros ->. simpl in Hn. lia.
Qed.

(** At most [n] different integers lie between 0 and [n - 1]. *)
Lemma NoDup_bounded_length (ks : list Z) (n : nat) :
  NoDup ks → Forall (λ k, 0 ≤ k < Z.of_nat n) ks → (length ks ≤ n)%nat.
Proof.
  intros Hnd Hall.
  assert (length ks ≤ length (Z.of_nat <$> seq 0 n))%nat as Hlen.
  { apply List.NoDup_incl_length; [by apply NoDup_ListNoDup|].
    intros k Hk%list_elem_of_In. apply list_elem_of_In.
    rewrite Forall_forall in Hall. specialize (Hall _ Hk).
    apply list_elem_of_fmap. exists (Z.to_nat k). split; [lia|].
    apply elem_of_seq. lia. }
  by rewrite length_fmap, length_seq in Hlen.
Qed.

(** X4. A result of the diagram strategy is a list of 1 to 1000 names: one
    per pin number, and the patterns read pin numbers of at most three
    digits. Every name is one or more characters of the token class, so it
    holds no white space. *)
Theorem ocr_names_bounded (images : Recognized) (names : list string) :
  extract_pins_from_ocr images = Py.Returns (Some names) →
  (1 ≤ length names ≤ 1000)%nat
  ∧ Forall (λ name, name ≠ EmptyString ∧ Py.all_chars token_char name = true) names.
Proof.
  unfold extract_pins_from_ocr. destruct images as [images|]; [|done].
  destruct (recognized_text _ _) as [text|]; [|done].
  unfold OcrExtractor.names_of_text.
  set (pairs := collect_pairs _). intros [= Hres].
  pose proof (names_of_pairs_keyed pairs) as Hk. rewrite Hres in Hk.
  destruct Hk as (Hne & Hs & Hel & Hf).
  pose proof (Forall2_length _ _ _ Hf) as Hlen. rewrite <- Hlen.
  split; [split|].
  - destruct pairs as [|[k v] ps] eqn:Hp; [done|].
    assert (k ∈ Py.sorted_keys (build_cleaned ((k, v) :: ps))) as Hin
      by (apply Hel; set_solver).
    destruct (Py.sorted_keys _); [by apply elem_of_nil in Hin|simpl; lia].
  - apply NoDup_bounded_length; [by apply ascending_NoDup|].
    apply Forall_forall. intros k (x & -> & Hx)%Hel%list_elem_of_fmap.
    destruct (collect_pairs_shape _ _ Hx) as [H _]. lia.
  - apply Forall_forall. intros name Hname.
    apply list_elem_of_lookup in Hname as [i Hi].
    destruct (Forall2_lookup_r _ _ _ _ _ Hf Hi) as (k & _ & Hlast).
    apply last_seen_elem in Hlast.
    by destruct (collect_pairs_shape _ _ Hlast) as (_ & H1 & H2).
Qed.

(** The sort of the text strategy. *)
Lemma insert_by_key_perm {V : Type} (x : Z * V) l : Py.insert_by_key x l ≡ₚ x :: l.
Proof.
  induction l as [|y l IH]; simpl; [done|].
  destruct (x.1 <=? y.1); [done|]. rewrite IH. apply Permutation_swap.
Qed.

Lemma sort_by_key_perm {V : Type} (l : list (Z * V)) : Py.sort_by_key l ≡ₚ l.
Proof.
  induction l as [|x l IH]; simpl; [done|].
  unfold Py.sort_by_key in *. simpl. by rewrite insert_by_key_perm, IH.
Qed.






End Recognition.

(** ** Further properties of the language-model strategy *)

Section LanguageModelPages.
Import Schema TableExtractor LlmExtractor.

(** The entries of [pages_from n pages]: their page numbers count the
    pages from [n] on, in ascending order, and each entry carries the text
    of its page, which is not blank, with its length. *)
Lemma pages_from_spec (n : Z) (pages : list Page) :
  StronglySorted Z.lt (page_number <$> pages_from n pages)
  ∧ Forall (λ d, n ≤ page_number d < n + Z.of_nat (length pages)
                 ∧ (∃ page, pages !! Z.to_nat (page_number d - n) = Some page
                            ∧ page_text page = Some (text d))
                 ∧ Py.truthy (Py.strip (text d)) = true
                 ∧ char_count d = Py.len (text d))
           (pages_from n pages).
Proof.
  revert n. induction pages as [|page pages IH]; intros n; simpl.
  - split; constructor.
  - destruct (IH (n + 1)) as [Hs Hall].
    assert (Forall (λ d, n ≤ page_number d < n + Z.of_nat (S (length pages))
                 ∧ (∃ page', (page :: pages) !! Z.to_nat (page_number d - n) = Some page'
                            ∧ page_text page' = Some (text d))
                 ∧ Py.truthy (Py.strip (text d)) = true
                 ∧ char_count d = Py.len (text d))
              (pages_from (n + 1) pages)) as Hrest.
    { eapply Forall_impl; [exact Hall|]. intros d (Hn & (p & Hp & Ht) & Hb & Hc).
      split; [lia|]. split; [|done]. exists p. split; [|done].
      replace (Z.to_nat (page_number d - n)) with (S (Z.to_nat (page_number d - (n + 1))))
        by lia. done. }
    destruct (page_text page) as [t|] eqn:Ht; [|done].
    destruct (Py.truthy t && Py.truthy (Py.strip t)) eqn:Hb; [|done].
    apply andb_true_iff in Hb as [_ Hb]. split.
    + simpl. constructor; [done|]. apply Forall_fmap, Forall_forall.
      intros d Hd. rewrite Forall_forall in Hall.
      destruct (Hall _ Hd) as [Hn _]. simpl. lia.
    + constructor; [|done]. simpl. split; [lia|]. split; [|done].
      exists page. by rewrite Z.sub_diag.
Qed.

Lemma pages_from_length (n : Z) (pages : list Page) :
  (length (pages_from n pages) ≤ length pages)%nat.
Proof.
  revert n. induction pages as [|page pages IH]; intros n; simpl; [lia|].
  specialize (IH (n + 1)).
  destruct (page_text page) as [t|]; [|lia].
  destruct (Py.truthy t && Py.truthy (Py.strip t)); simpl; lia.
Qed.

(** X6. The text extraction of the language-model strategy looks at the
    first 15 pages only. It returns at most 15 entries, in ascending order
    of page number; an entry has the number, from 1 to 15, of its page in
    the document, the text of that page, which is not blank, and the
    length of that text. A page without text is left out and still
    counted. *)
Theorem llm_text_pages (pages : list Page) :
  let pages_data := extract_text_from_pdf (Some pages) in
  (length pages_data ≤ 15)%nat
  ∧ StronglySorted Z.lt (page_number <$> pages_data)
  ∧ Forall (λ d, 1 ≤ page_number d ≤ 15
                 ∧ (∃ page, pages !! Z.to_nat (page_number d - 1) = Some page
                            ∧ page_text page = Some (text d))
                 ∧ Py.truthy (Py.strip (text d)) = true
                 ∧ char_count d = Py.len (text d))
           pages_data.
Proof.
  intros pages_data. unfold pages_data, extract_text_from_pdf, DEFAULT_MAX_PAGES.
  destruct (pages_from_spec 1 (take 15 pages)) as [Hs Hall].
  assert (length (take 15 pages) ≤ 15)%nat as Hlen by (rewrite length_take; lia).
  split; [|split; [done|]].
  - pose proof (pages_from_length 1 (take 15 pages)). lia.
  - eapply Forall_impl; [exact Hall|]. intros d (Hn & (p & Hp & Ht) & Hb & Hc).
    split; [lia|]. split; [|done]. exists p. split; [|done].
    by apply lookup_take_Some in Hp as [Hp _].
Qed.

Lemma omap_length_le {X Y : Type} (f : X → option Y) (l : list X) :
  (length (omap f l) ≤ length l)%nat.
Proof.
  induction l as [|x l IH]; [done|].
  change (omap f (x :: l))
    with (match f x with Some y => y :: omap f l | None => omap f l end).
  destruct (f x); simpl; lia.
Qed.

Lemma process_page_shape llm page_text page_number pins :
  process_page_with_llm llm page_text page_number = Some pins →
  (provider llm = Mock → pins = []) ∧ (provider llm ≠ Mock → pins ≠ []).
Proof.
  unfold process_page_with_llm.
  destruct (provider llm); intros H; (split; [|intros Hp]); try done;
    try (destruct (complete llm _ _); [|done];
         destruct (validate llm _) as [[|p ps]|]; by simplify_eq).
  intros _. destruct (existsb _ _); by simplify_eq.
Qed.

(** X7. A result of [extract_pins_with_llm] has [success] set; its page
    count is the number of pages with text, from 1 to 15; the pages
    counted as having pins are those with an entry in [llm_results], at
    most the page count. With a real provider every entry of
    [llm_results] has a pin: a page that answers with an empty list, an
    invalid reply or an error leaves no entry. With the mock every entry
    is empty. *)
Theorem llm_result_counts (llm : Llm) (pdf : Pdf) (result : LlmResult) :
  extract_pins_with_llm llm pdf = Some result →
  success result = true
  ∧ total_pages result = length (extract_text_from_pdf pdf)
  ∧ (1 ≤ total_pages result ≤ 15)%nat
  ∧ pages_with_pins result = length (llm_results result)
  ∧ (pages_with_pins result ≤ total_pages result)%nat
  ∧ (provider llm ≠ Mock → Forall (λ pins, pins ≠ []) (llm_results result))
  ∧ (provider llm = Mock → Forall (λ pins, pins = []) (llm_results result)).
Proof.
  unfold extract_pins_with_llm.
  destruct (extract_text_from_pdf pdf) as [|d ds] eqn:Hpd; [done|].
  assert (length (d :: ds) ≤ 15)%nat as Hlen.
  { destruct pdf as [pages|]; [|done]. rewrite <- Hpd.
    unfold extract_text_from_pdf, DEFAULT_MAX_PAGES.
    pose proof (pages_from_length 1 (take 15 pages)) as Hle.
    rewrite length_take in Hle. lia. }
  match goal with
  | |- context [omap ?f (d :: ds)] =>
      pose proof (omap_length_le f (d :: ds)) as Hle;
      assert (∀ pins, pins ∈ omap f (d :: ds) → ∃ x, f x = Some pins) as Hin
        by (intros pins (x & _ & Hx)%list_elem_of_omap; eauto);
      generalize dependent (omap f (d :: ds))
  end.
  intros results Hle Hin [= <-]. simpl in *.
  repeat split; try done; try lia.
  - intros Hp. apply Forall_forall. intros pins [x Hx]%Hin.
    apply process_page_shape in Hx as [_ Hx]. by apply Hx.
  - intros Hp. apply Forall_forall. intros pins [x Hx]%Hin.
    apply process_page_shape in Hx as [Hx _]. by apply Hx.
Qed.

End LanguageModelPages.

(** ** Further properties of the orchestrator and of the command *)

Section CommandOutcome.
Import Schema TableExtractor OcrExtractor TextExtractor Parse.

Variable extract_metadata_from_text : string → Metadata.

Lemma number_pins_numbers (names : list string) :
  number <$> number_pins names = (λ i, IntNum (Z.of_nat i)) <$> seq 1 (length names).
Proof.
  unfold number_pins.
  assert (∀ k, number <$> imap (λ i name, mkPin (IntNum (Z.of_nat (k + i) + 1)) name None)
                            names
               = (λ i, IntNum (Z.of_nat i)) <$> seq (S k) (length names)) as Hgen.
  { induction names as [|x l IH]; intros k; [done|].
    rewrite imap_cons.
    change (seq (S k) (length (x :: l))) with (S k :: seq (S (S k)) (length l)).
    rewrite !fmap_cons. f_equal; [simpl; f_equal; lia|].
    rewrite <- (IH (S k)). f_equal. apply imap_ext. intros i y _. simpl.
    do 2 f_equal. lia. }
  apply (Hgen 0%nat).
Qed.

(** X8. The pins that the orchestrator makes of a list of names carry the
    numbers 1, 2, ... in list order, the names in the same order, and no
    details. *)
Theorem number_pins_sequential (names : list string) :
  number <$> number_pins names = (λ i, IntNum (Z.of_nat i)) <$> seq 1 (length names)
  ∧ name <$> number_pins names = names
  ∧ Forall (λ pin, details pin = None) (number_pins names).
Proof.
  split; [apply number_pins_numbers|]. unfold number_pins. split.
  - rewrite fmap_imap. simpl.
    rewrite (imap_ext _ (λ _ x, x)) by done. clear.
    induction names as [|x l IH]; [done|]. rewrite imap_cons. f_equal. exact IH.
  - apply Forall_forall. intros pin (i & x & -> & _)%elem_of_lookup_imap. done.
Qed.

(** X9. A result of the orchestrator always has a pin. A result that did
    not come from the table strategy alone has no metadata, and its pin
    numbers are 1, 2, ... in list order. *)
Theorem traditional_result_has_pins (doc : Document) (r : TableResult) :
  (traditional extract_metadata_from_text doc).1 = Py.Returns (Some r) →
  pins r ≠ []
  ∧ ((traditional extract_metadata_from_text doc).2 ≠ [TableStrategy] →
     metadata r = None
     ∧ number <$> pins r = (λ i, IntNum (Z.of_nat i)) <$> seq 1 (length (pins r))).
Proof.
  rewrite (traditional_cases extract_metadata_from_text doc). cbv zeta.
  assert (∀ names, names_found names = true →
            pins (mkTableResult (number_pins (default [] names)) None) ≠ []
            ∧ number <$> number_pins (default [] names)
              = (λ i, IntNum (Z.of_nat i))
                  <$> seq 1 (length (number_pins (default [] names)))) as Hnames.
  { intros names (l & -> & Hl)%names_found_true. simpl. split.
    - by destruct l.
    - rewrite (number_pins_numbers l).
      unfold number_pins. by rewrite length_imap. }
  destruct (has_pins _) eqn:Ht; simpl.
  - intros [= Hr]. apply has_pins_true in Ht as (r' & Hr' & Hp).
    rewrite Hr' in Hr. injection Hr as <-. done.
  - destruct (extract_pins_from_ocr _) as [d|]; [|done].
    destruct (names_found d) eqn:Hd; simpl.
    + intros [= <-]. destruct (Hnames _ Hd) as [H1 H2]. done.
    + destruct (extract_pins_from_text _) as [x|]; [|done].
      destruct (names_found x) eqn:Hx; simpl; [|done].
      intros [= <-]. destruct (Hnames _ Hx) as [H1 H2]. done.
Qed.

(** X10. In llm mode the command of the repository ends with exit code 1,
    whatever the provider and the document, and prints no JSON: the pin
    list of [extract_pins_with_llm] is always empty. Without [--json-only]
    it prints one notice: that of a failed extraction when no page has
    text, that of an extraction without pins otherwise. *)
Theorem llm_mode_always_exits_1 (llm : LlmExtractor.Llm) (json_only : bool)
    (doc : Document) :
  cli extract_metadata_from_text llm (mkArgs Llm json_only) doc
  = (if json_only then []
     else match LlmExtractor.extract_text_from_pdf (doc_pdf doc) with
          | [] => [LlmFailedNotice]
          | _ => [LlmNoPinsNotice]
          end,
     Return 1).
Proof.
  unfold cli, main, bind, extract. simpl.
  unfold LlmExtractor.extract_pins_with_llm.
  destruct (LlmExtractor.extract_text_from_pdf (doc_pdf doc)); simpl;
    by destruct json_only.
Qed.

(** X11. How the command of the repository ends in traditional mode, by
    what the strategies do in the order of invocation. When a strategy
    yields a pin, the command ends with exit code 0, and the last thing
    printed is the JSON with the pins of the orchestrator, their count and
    the metadata; with [--json-only] nothing else is printed. When the
    three strategies return without a pin, it ends with exit code 1 and
    prints the failure notice ([--json-only]: nothing), no JSON. When the
    recognition raises in the diagram strategy, or in the text strategy
    after a diagram strategy without names, the exception leaves the
    command: nothing is printed and there is no exit code of [main]. The
    output step itself never raises in this mode. *)
Theorem traditional_mode_exit_code (llm : LlmExtractor.Llm) (json_only : bool)
    (doc : Document) :
  let tables := extract_pins_from_tables extract_metadata_from_text (doc_pdf doc) in
  let diagram := extract_pins_from_ocr (doc_diagram doc) in
  let text := extract_pins_from_text (doc_text doc) in
  let run := cli extract_metadata_from_text llm (mkArgs Traditional json_only) doc in
  let exit_0 :=
    ∃ r, (traditional extract_metadata_from_text doc).1 = Py.Returns (Some r)
         ∧ run.2 = Return 0
         ∧ last run.1 = Some (Json (pins r) (length (pins r)) (metadata r))
         ∧ (json_only = true → length run.1 = 1%nat) in
  let exit_1 := run = (if json_only then [] else [FailureNotice], Return 1) in
  let raised :=
    (traditional extract_metadata_from_text doc).1 = Py.Raises
    ∧ run = ([], StrategyException) in
  if has_pins tables then exit_0
  else
    match diagram with
    | Py.Raises => raised
    | Py.Returns d =>
        if names_found d then exit_0
        else
          match text with
          | Py.Raises => raised
          | Py.Returns x => if names_found x then exit_0 else exit_1
          end
    end.
Proof.
  intros tables diagram text run. cbv zeta.
  unfold run, tables, diagram, text, cli, main, bind, extract. simpl.
  rewrite (traditional_cases extract_metadata_from_text doc). cbv zeta.
  assert (∀ r : TableResult, pins r ≠ [] →
    ∃ r0, Py.Returns (Some r) = Py.Returns (Some r0)
      ∧ (match output_results (mkArgs Traditional json_only)
                 (mkLocals (Some (pins r)) (Some (metadata r))) [] with
         | (inl e, _) => match e return (list Output * Outcome) with end
         | (inr o, out) => (out, o)
         end).2 = Return 0
      ∧ last (match output_results (mkArgs Traditional json_only)
                 (mkLocals (Some (pins r)) (Some (metadata r))) [] with
         | (inl e, _) => match e return (list Output * Outcome) with end
         | (inr o, out) => (out, o)
         end).1 = Some (Json (pins r0) (length (pins r0)) (metadata r0))
      ∧ (json_only = true →
         length (match output_results (mkArgs Traditional json_only)
                 (mkLocals (Some (pins r)) (Some (metadata r))) [] with
         | (inl e, _) => match e return (list Output * Outcome) with end
         | (inr o, out) => (out, o)
         end).1 = 1%nat)) as Hout.
  { intros [[|p ps] m] Hp; [done|]. eexists. split; [done|].
    unfold output_results, bind, when, print, read_metadata, ret, stop. simpl.
    destruct json_only, m; simpl; repeat split; try done. }
  destruct (has_pins _) eqn:Ht; simpl.
  - apply has_pins_true in Ht as (r & -> & Hp). simpl. by apply Hout.
  - destruct (extract_pins_from_ocr _) as [d|]; [|done].
    destruct (names_found d) eqn:Hd; simpl.
    + apply names_found_true in Hd as (l & -> & Hl). simpl.
      apply (Hout (mkTableResult (number_pins l) None)).
      by destruct l.
    + destruct (extract_pins_from_text _) as [x|]; [|done].
      destruct (names_found x) eqn:Hx; simpl.
      * apply names_found_true in Hx as (l & -> & Hl). simpl.
        apply (Hout (mkTableResult (number_pins l) None)).
        by destruct l.
      * unfold output_results, bind, when, print, ret, stop.
        by destruct json_only.
Qed.

End CommandOutcome.


(** ** Column roles *)

Section ColumnRoles.
Import Schema Re TableExtractor Spec Shape.

Lemma below_mono n m role : (n ≤ m)%nat → below n role → below m role.
Proof. destruct role; simpl; [lia|done]. Qed.

Lemma below_if_none n role : below n role → below (S n) (if_none role n).
Proof. destruct role; simpl; lia. Qed.

Lemma classify_header_step i h r : header_step i r (classify_header r i h).
Proof.
  unfold classify_header. cbv zeta.
  generalize (matched (re_search PIN_RE (Py.lower h))
              && negb (Py.contains "description" (Py.lower h))).
  generalize (matched (re_search NAME_RE (Py.lower h))
              && negb (name_excluded (Py.lower h))).
  generalize (matched (re_match IO_TYPE_RE (Py.lower h))).
  generalize ((String.eqb (Py.lower h) "type" || Py.contains "analog" (Py.lower h)
               || Py.contains "digital" (Py.lower h))
              && negb (Py.contains "description" (Py.lower h))).
  generalize (Py.contains "input" (Py.lower h) || Py.contains "output" (Py.lower h)).
  generalize (matched (re_search DIRECTION_RE (Py.lower h))
              && negb (Py.contains "type" (Py.lower h))
              && (matched (re_search IO_TOKEN_RE (Py.lower h))
                  && negb (Py.contains "type" (Py.lower h)))).
  generalize (Py.contains "description" (Py.lower h)).
  intros c6 c5 c4b c4 c3 c2 c1.
  assert (∀ o, first_kept i o o) as Hrefl by (intros [?|]; simpl; auto).
  assert (∀ o, first_kept i o (if_none o i)) as Hnone by (intros [?|]; simpl; auto).
  assert (∀ o, updated i o o) as Hsame by (by left).
  assert (∀ o, updated i o (Some i)) as Hnew by (by right).
  assert (first_kept i None (Some i)) as Hset by (by right).
  assert (∀ o, first_kept i o (if_none (if_none o i) i)) as Hnone2
    by (intros [?|]; simpl; auto).
  destruct r as [p n [t|] d s];
    destruct c1, c2, c3, c4, c4b, c5, c6;
    unfold header_step; simpl; repeat split; auto.
Qed.

Lemma classify_header_below i h r :
  roles_below i r → roles_below (S i) (classify_header r i h).
Proof.
  intros (Hp & Hn & Ht & Hd & Hs).
  destruct (classify_header_step i h r) as (Sp & Sn & St & Sd & Ss).
  assert (∀ old new, below i old → first_kept i old new → below (S i) new) as Hk.
  { intros [j|] new Hb Hf; simpl in *.
    - rewrite Hf. simpl. lia.
    - destruct Hf as [-> | ->]; simpl; [done|lia]. }
  repeat split; eauto.
  destruct Sp as [-> | ->]; simpl; [|lia]. eapply below_mono; [|done]. lia.
Qed.

Lemma classify_from_below i hs r :
  roles_below i r → roles_below (i + length hs) (classify_from i hs r).
Proof.
  revert i r. induction hs as [|h hs IH]; intros i r Hr; simpl.
  - by rewrite Nat.add_0_r.
  - replace (i + S (length hs))%nat with (S i + length hs)%nat by lia.
    by apply IH, classify_header_below.
Qed.

Lemma classify_from_app i hs1 hs2 r :
  classify_from i (hs1 ++ hs2) r
  = classify_from (i + length hs1) hs2 (classify_from i hs1 r).
Proof.
  revert i r. induction hs1 as [|h hs1 IH]; intros i r; simpl.
  - by rewrite Nat.add_0_r.
  - rewrite IH. f_equal. lia.
Qed.

(** A role that keeps its first column is not moved by a later header. *)
Lemma classify_header_keeps r i h :
  (∀ j, name_idx r = Some j → name_idx (classify_header r i h) = Some j)
  ∧ (∀ j, type_idx r = Some j → type_idx (classify_header r i h) = Some j)
  ∧ (∀ j, direction_idx r = Some j → direction_idx (classify_header r i h) = Some j)
  ∧ (∀ j, description_idx r = Some j → description_idx (classify_header r i h) = Some j).
Proof.
  destruct (classify_header_step i h r) as (_ & Sn & St & Sd & Ss).
  repeat split; intros j Hj;
    match goal with H : first_kept _ _ _ |- _ => rewrite Hj in H; by rewrite H end.
Qed.

Lemma classify_from_keeps i hs r :
  (∀ j, name_idx r = Some j → name_idx (classify_from i hs r) = Some j)
  ∧ (∀ j, type_idx r = Some j → type_idx (classify_from i hs r) = Some j)
  ∧ (∀ j, direction_idx r = Some j → direction_idx (classify_from i hs r) = Some j)
  ∧ (∀ j, description_idx r = Some j → description_idx (classify_from i hs r) = Some j).
Proof.
  revert i r. induction hs as [|h hs IH]; intros i r; simpl; [done|].
  destruct (classify_header_keeps r i h) as (H1 & H2 & H3 & H4).
  destruct (IH (S i) (classify_header r i h)) as (K1 & K2 & K3 & K4).
  repeat split; intros j Hj; auto.
Qed.

Lemma classify_header_pin r i h :
  pin_idx (classify_header r i h) = if is_pin_header h then Some i else pin_idx r.
Proof.
  unfold is_pin_header, classify_header. cbv zeta.
  destruct (matched (re_search PIN_RE (Py.lower h))
            && negb (Py.contains "description" (Py.lower h)));
    repeat case_match; simpl; done.
Qed.

Lemma classify_headers_snoc_pin headers h :
  pin_idx (classify_headers (headers ++ [h]))
  = if is_pin_header h then Some (length headers)
    else pin_idx (classify_headers headers).
Proof.
  unfold classify_headers. rewrite classify_from_app. simpl.
  apply classify_header_pin.
Qed.

(** The pin-number role is on the last header that passes the pin test. *)
Lemma classify_headers_pin headers :
  (∀ i, pin_idx (classify_headers headers) = Some i ↔
        (∃ h, headers !! i = Some h ∧ is_pin_header h = true)
        ∧ ∀ j h', (i < j)%nat → headers !! j = Some h' → is_pin_header h' = false)
  ∧ (pin_idx (classify_headers headers) = None ↔
     Forall (λ h, is_pin_header h = false) headers).
Proof.
  induction headers as [|h headers [IHs IHn]] using rev_ind.
  - split; [|done]. intros i. split; [done|]. by intros [(h & Hh & _) _].
  - rewrite classify_headers_snoc_pin. destruct (is_pin_header h) eqn:Hpin.
    + split.
      * intros i. split.
        -- intros [= <-]. split.
           ++ exists h. by rewrite list_lookup_middle.
           ++ intros j h' Hj Hl. apply lookup_lt_Some in Hl.
              rewrite List.length_app in Hl. simpl in Hl. lia.
        -- intros [(h0 & Hl & Hh0) Hlater].
           destruct (decide (i = length headers)) as [->|Hne]; [done|].
           pose proof (lookup_lt_Some _ _ _ Hl) as Hlt.
           rewrite List.length_app in Hlt. simpl in Hlt.
           rewrite (Hlater (length headers) h) in Hpin; [done|lia|].
           by rewrite list_lookup_middle.
      * split; [done|]. intros [_ Hh]%Forall_app.
        rewrite Forall_singleton in Hh. congruence.
    + split.
      * intros i. rewrite IHs. split.
        -- intros [(h0 & Hl & Hh0) Hlater]. split.
           ++ exists h0. split; [|done]. by apply lookup_app_l_Some.
           ++ intros j h' Hj Hl'.
              apply lookup_app_Some in Hl' as [Hl'|[_ Hl']]; [by eapply Hlater|].
              apply list_lookup_singleton_Some in Hl' as [_ <-]. done.
        -- intros [(h0 & Hl & Hh0) Hlater].
           apply lookup_app_Some in Hl as [Hl|[_ Hl]].
           ++ split; [by exists h0|]. intros j h' Hj Hl'.
              apply (Hlater j h' Hj). by apply lookup_app_l_Some.
           ++ apply list_lookup_singleton_Some in Hl as [_ <-]. congruence.
      * rewrite IHn, Forall_app, Forall_singleton. naive_solver.
Qed.

(** X12. Every column role that the header classification sets is the index
    of a header cell. The name, type, direction and description roles stay
    on the first column that earns them: headers further right never move
    them. The pin-number role moves: it is set exactly when some header
    passes the pin test, and then it is the index of the last header that
    passes it. *)
Theorem roles_first_match_and_bounds (headers more : list string) :
  roles_below (length headers) (classify_headers headers)
  ∧ (∀ j, name_idx (classify_headers headers) = Some j →
          name_idx (classify_headers (headers ++ more)) = Some j)
  ∧ (∀ j, type_idx (classify_headers headers) = Some j →
          type_idx (classify_headers (headers ++ more)) = Some j)
  ∧ (∀ j, direction_idx (classify_headers headers) = Some j →
          direction_idx (classify_headers (headers ++ more)) = Some j)
  ∧ (∀ j, description_idx (classify_headers headers) = Some j →
          description_idx (classify_headers (headers ++ more)) = Some j)
  ∧ (∀ i, pin_idx (classify_headers headers) = Some i ↔
          (∃ h, headers !! i = Some h ∧ is_pin_header h = true)
          ∧ ∀ j h', (i < j)%nat → headers !! j = Some h' → is_pin_header h' = false)
  ∧ (pin_idx (classify_headers headers) = None ↔
     Forall (λ h, is_pin_header h = false) headers).
Proof.
  split; [|split; [|split; [|split; [|split]]]];
    [| | | | |apply classify_headers_pin].
  - apply (classify_from_below 0 headers no_roles). by repeat split.
  - unfold classify_headers. rewrite !classify_from_app. simpl.
    by destruct (classify_from_keeps (length headers) more
                   (classify_from 0 headers no_roles)) as (H1 & _).
  - unfold classify_headers. rewrite !classify_from_app. simpl.
    by destruct (classify_from_keeps (length headers) more
                   (classify_from 0 headers no_roles)) as (_ & H2 & _).
  - unfold classify_headers. rewrite !classify_from_app. simpl.
    by destruct (classify_from_keeps (length headers) more
                   (classify_from 0 headers no_roles)) as (_ & _ & H3 & _).
  - unfold classify_headers. rewrite !classify_from_app. simpl.
    by destruct (classify_from_keeps (length headers) more
                   (classify_from 0 headers no_roles)) as (_ & _ & _ & H4).
Qed.

(** X13. Pages after the fiftieth never change the result of the
    structural table strategy: both passes stop after 50 pages, and the
    metadata come from the first page. *)
Theorem pages_after_50_ignored
    (extract_metadata_from_text : string → Metadata) (pages more : list Page) :
  (50 ≤ length pages)%nat →
  extract_pins_from_tables extract_metadata_from_text (Some (pages ++ more))
  = extract_pins_from_tables extract_metadata_from_text (Some pages).
Proof.
  intros Hlen. unfold extract_pins_from_tables, all_candidates.
  rewrite (take_app_le pages more 50) by done.
  destruct pages as [|page pages]; [simpl in Hlen; lia|]. done.
Qed.

(** X14. Candidates whose pin numbers already ascend strictly pass through
    the merge unchanged: it returns their records in the same order. *)
Theorem merge_of_ascending (candidates : list (Z * Pin)) :
  StronglySorted Z.lt candidates.*1 →
  merge_candidates candidates = candidates.*2.
Proof.
  intros Hs.
  assert (keyed_by first_seen candidates candidates.*1 candidates.*2) as Hk.
  { split; [done|]. split; [done|].
    apply ascending_NoDup in Hs.
    induction candidates as [|[k v] c IH] using rev_ind; [constructor|].
    rewrite !fmap_app in *. simpl in *.
    apply NoDup_app in Hs as (Hnd & Hdisj & _).
    apply Forall2_app.
    - eapply Forall2_impl; [by apply IH|]. intros k' v' Hf.
      by apply first_seen_app_l.
    - constructor; [|constructor]. exists c, []. split; [done|].
      intros Hin. apply (Hdisj k Hin). set_solver. }
  by destruct (keyed_by_unique first_seen candidates _ _ _ _
                 (first_seen_fun candidates)
                 (merge_candidates_keyed candidates) Hk) as [_ ->].
Qed.

End ColumnRoles.


(** ** Document metadata *)

Section MetadataFacts.
Import Schema Re MetadataExtractor Shape.

Variable bullet : ascii.

Lemma rstrip_idem s : Py.rstrip (Py.rstrip s) = Py.rstrip s.
Proof.
  induction s as [|a s IH]; [done|]. simpl.
  destruct (Py.rstrip s) as [|b r] eqn:Hr.
  - destruct (Py.is_space a) eqn:Ha; [done|]. simpl. by rewrite Ha.
  - change (Py.rstrip (String a (String b r)))
      with (match Py.rstrip (String b r) with
            | EmptyString => if Py.is_space a then EmptyString else String a EmptyString
            | t => String a t
            end).
    by rewrite IH.
Qed.

Lemma lstrip_head s c t : Py.lstrip s = String c t → Py.is_space c = false.
Proof.
  induction s as [|a s IH]; [done|]. simpl.
  destruct (Py.is_space a) eqn:Ha; [done|]. by intros [= <- _].
Qed.

Lemma rstrip_head c t :
  Py.is_space c = false → ∃ t', Py.rstrip (String c t) = String c t'.
Proof.
  intros Hc. simpl. destruct (Py.rstrip t); [|by eexists].
  rewrite Hc. by eexists.
Qed.

Lemma strip_idem s : Py.strip (Py.strip s) = Py.strip s.
Proof.
  unfold Py.strip. destruct (Py.lstrip s) as [|c t] eqn:Hl; [done|].
  apply lstrip_head in Hl. destruct (rstrip_head c t Hl) as [t' Ht'].
  rewrite Ht'. simpl. rewrite Hl. by rewrite <- Ht', rstrip_idem.
Qed.

Lemma bullet_item_ok line item : bullet_item bullet line = Some item → item_ok item.
Proof.
  unfold bullet_item. destruct (_ || _); [|done]. cbv zeta.
  destruct (_ && _) eqn:Hlen; [|done]. intros [= <-].
  apply andb_true_iff in Hlen as [H1 H2].
  split; [lia|apply strip_idem].
Qed.

Lemma section_items_ok header stops in_section lines :
  Forall item_ok (section_items bullet header stops in_section lines).
Proof.
  revert in_section. induction lines as [|line rest IH]; intros in_section; simpl.
  - constructor.
  - destruct (_ && _); [done|]. destruct in_section; [|done].
    destruct (existsb _ _); [done|].
    destruct (bullet_item bullet line) as [item|] eqn:Hitem; [|done].
    constructor; [by eapply bullet_item_ok|done].
Qed.

(** X15. Every entry of the features list and of the applications list of
    the metadata has 6 to 199 characters and no white space around it. *)
Theorem metadata_items_shape (text : string) :
  Forall item_ok (features (extract_metadata_from_text bullet text))
  ∧ Forall item_ok (applications (extract_metadata_from_text bullet text)).
Proof. split; apply section_items_ok. Qed.

Lemma search_from_matches r prev s caps :
  search_from r prev s = Some caps →
  ∃ prev' s' rest, match_at r prev' s' = Some (rest, caps).
Proof.
  revert prev. induction s as [|c s IH]; intros prev; simpl.
  - destruct (match_at r prev EmptyString) as [[rest caps']|] eqn:Hm; [|done].
    intros [= <-]. eauto.
  - destruct (match_at r prev (String c s)) as [[rest caps']|] eqn:Hm.
    + intros [= <-]. eauto.
    + apply IH.
Qed.

Lemma part_match_groups prev s rest caps :
  match_at PART_RE prev s = Some (rest, caps) →
  ∃ g, caps = [g] ∧ part_number_ok g.
Proof.
  unfold match_at. intros H. simpl in H.
  destruct (xorb _ _); [|done].
  rep_step H as letters s1 Hl Hll Hhl.
  rep_step H as digits s2 Hd Hld Hhd.
  rep_step H as tail s3 Ht Hlt Hht.
  rewrite <- !app_assoc_s, take_app_exact in H.
  destruct (xorb _ _); [|done]. injection H as <- <-.
  eexists. split; [done|]. exists letters, digits, tail.
  by rewrite app_assoc_s.
Qed.

Lemma part_number_step_ok found line :
  (∀ p, found = Some p → part_number_ok p) →
  ∀ p, part_number_step found line = Some p → part_number_ok p.
Proof.
  intros Hfound p. unfold part_number_step.
  destruct (re_search PART_RE line) as [caps|] eqn:Hs; [|by apply Hfound].
  apply search_from_matches in Hs as (prev & s' & rest & Hm).
  apply part_match_groups in Hm as (g & -> & Hg).
  destruct found as [q|]; [|by intros [= <-]].
  destruct (Py.truthy q); [by apply Hfound|by intros [= <-]].
Qed.

(** X16. The part number and the title of the metadata are read off the
    head of the page: lines after the tenth never change the part number,
    lines after the fifteenth never change the title. A part number is two
    upper-case letters or more followed by three digits or more and then by
    upper-case letters and digits; a title is one of the first fifteen
    lines, of 21 to 149 characters, without the white space around it. *)
Theorem metadata_head_lines (lines more : list string) :
  ((10 ≤ length lines)%nat →
   part_number (metadata_of_lines bullet (lines ++ more))
   = part_number (metadata_of_lines bullet lines))
  ∧ ((15 ≤ length lines)%nat →
     title (metadata_of_lines bullet (lines ++ more))
     = title (metadata_of_lines bullet lines))
  ∧ (∀ p, part_number (metadata_of_lines bullet lines) = Some p → part_number_ok p)
  ∧ (∀ t, title (metadata_of_lines bullet lines) = Some t →
          ∃ line, line ∈ take 15 lines ∧ t = Py.strip line
                  ∧ 21 ≤ Py.len line ≤ 149).
Proof.
  unfold metadata_of_lines. simpl. repeat split.
  - intros Hlen. unfold find_part_number. by rewrite take_app_le.
  - intros Hlen. unfold find_title. by rewrite take_app_le.
  - unfold find_part_number. generalize (take 10 lines). intros l.
    assert (∀ found, (∀ p, found = Some p → part_number_ok p) →
              ∀ p, foldl part_number_step found l = Some p → part_number_ok p) as Hfold.
    { induction l as [|line l IH]; intros found Hfound p; simpl; [by apply Hfound|].
      apply IH. by apply part_number_step_ok. }
    by apply Hfold.
  - intros t. unfold find_title.
    destruct (List.find is_title_line (take 15 lines)) as [line|] eqn:Hfind; [|done].
    intros [= <-]. apply List.find_some in Hfind as [Hin Hline].
    exists line. split; [by apply list_elem_of_In|]. split; [done|].
    unfold is_title_line in Hline.
    repeat (apply andb_true_iff in Hline as [Hline ?]). lia.
Qed.

Lemma description_text_ok in_description lines :
  Forall (λ l, l ≠ EmptyString ∧ Py.strip l = l
               ∧ Py.startswith (String bullet EmptyString) l = false)
         (description_text bullet in_description lines).
Proof.
  revert in_description.
  induction lines as [|line rest IH]; intros in_description;
    cbn [description_text]; cbv zeta.
  - constructor.
  - destruct (_ || _); [done|]. destruct in_description; [|done].
    destruct (existsb _ _); [constructor|].
    destruct (Py.truthy (Py.strip line)) eqn:Ht; cbn [andb negb]; [|done].
    destruct (Py.startswith _ _) eqn:Hb; cbn [andb negb]; [done|].
    constructor; [|done]. split; [by destruct (Py.strip line)|].
    split; [apply strip_idem|done].
Qed.

(** The collected lines are lines of the page, stripped, in page order. *)
Lemma description_text_sublist in_description lines :
  description_text bullet in_description lines `sublist_of` (Py.strip <$> lines).
Proof.
  revert in_description.
  induction lines as [|line rest IH]; intros in_description;
    cbn [description_text]; cbv zeta; [done|].
  rewrite fmap_cons.
  destruct (_ || _); [by apply sublist_cons|]. destruct in_description;
    [|by apply sublist_cons].
  destruct (existsb _ _); [apply sublist_nil_l|].
  destruct (_ && _); [by apply sublist_skip|by apply sublist_cons].
Qed.

(** X17. The description of the metadata, when there is one, is made of
    1 to 10 lines joined by single spaces. They are lines of the page
    without the white space around them, in the order of the page; each
    of them is not empty and does not start with the bullet. *)
Theorem metadata_description_shape (text : string) (d : string) :
  description (extract_metadata_from_text bullet text) = Some d →
  ∃ ls, d = Py.join " " ls ∧ (1 ≤ length ls ≤ 10)%nat
        ∧ ls `sublist_of` (Py.strip <$> Py.split_char "010" text)
        ∧ Forall (λ l, l ≠ EmptyString ∧ Py.strip l = l
                       ∧ Py.startswith (String bullet EmptyString) l = false) ls.
Proof.
  unfold extract_metadata_from_text, metadata_of_lines. simpl. unfold find_description.
  pose proof (description_text_ok false (Py.split_char "010" text)) as Hall.
  pose proof (description_text_sublist false (Py.split_char "010" text)) as Hsub.
  destruct (description_text bullet false _) as [|l ls] eqn:Hd; [done|].
  intros [= <-]. exists (take 10 (l :: ls)). split; [done|]. split; [|split].
  - rewrite length_take. change (length (l :: ls)) with (S (length ls)). lia.
  - etrans; [apply sublist_take|exact Hsub].
  - by apply Forall_take.
Qed.

End MetadataFacts.

(** ** The code fence of a reply *)

Section Fence.
Import Schema LlmExtractor Shape.

Lemma rev_app_rev_app (t a b : string) :
  String.rev_app (String.rev_app t a) b = String.rev_app a (t +:+ b).
Proof.
  revert a b. induction t as [|c t IH]; intros a b; [done|].
  simpl. rewrite IH. simpl. by rewrite app_String.
Qed.

Lemma rev_rev_app (t : string) : String.rev (String.rev_app t EmptyString) = t.
Proof.
  unfold String.rev. rewrite rev_app_rev_app. simpl. apply app_Empty_r.
Qed.

(** Characters other than the backtick go to the part being read. *)
Lemma split_go_plain (t rest cur : string) :
  Py.all_chars not_backtick t = true →
  Py.split_go "```" cur (t +:+ rest) 0 = Py.split_go "```" (String.rev_app t cur) rest 0.
Proof.
  revert cur. induction t as [|c t IH]; intros cur Ht; [done|].
  simpl in Ht. apply andb_true_iff in Ht as [Hc Ht].
  rewrite app_String.
  change (Py.split_go "```" cur (String c (t +:+ rest)) 0)
    with (if Py.startswith "```" (String c (t +:+ rest))
          then String.rev cur :: Py.split_go "```" EmptyString (t +:+ rest) 2
          else Py.split_go "```" (String c cur) (t +:+ rest) 0).
  assert (Py.startswith "```" (String c (t +:+ rest)) = false) as ->.
  { unfold not_backtick in Hc. apply negb_true_iff in Hc.
    change (Ascii.eqb "`" c && Py.startswith "``" (t +:+ rest) = false).
    by rewrite Ascii.eqb_sym, Hc. }
  by rewrite IH.
Qed.

Lemma rstrip_app (s t : string) c r :
  Py.rstrip t = String c r → Py.rstrip (s +:+ t) = s +:+ Py.rstrip t.
Proof.
  intros Ht. induction s as [|a s IH]; [done|].
  rewrite app_String. simpl. rewrite IH, Ht.
  by destruct s.
Qed.

(** X18. A reply wrapped in a code fence is unwrapped: for a body without
    a backtick, the reply made of the opening fence with the tag json, the
    body and the closing fence is reduced to the body without the white
    space around it, and so is the reply fenced without a tag when the body
    does not itself start with json. *)
Theorem strip_fence_unwraps (body : string) :
  Py.all_chars not_backtick body = true →
  strip_fence ("```json" +:+ body +:+ "```") = Py.strip body
  ∧ (Py.startswith "json" body = false →
     strip_fence ("```" +:+ body +:+ "```") = Py.strip body).
Proof.
  intros Hbody.
  assert (∀ tag, Py.all_chars not_backtick tag = true →
            Py.strip ("```" +:+ tag +:+ body +:+ "```") = "```" +:+ tag +:+ body +:+ "```"
            ∧ Py.split "```" ("```" +:+ tag +:+ body +:+ "```") !! 1%nat
              = Some (tag +:+ body)) as Hsplit.
  { intros tag Htag. split.
    - unfold Py.strip.
      change (Py.lstrip ("```" +:+ tag +:+ body +:+ "```"))
        with ("```" +:+ tag +:+ body +:+ "```").
      rewrite <- !app_assoc_s.
      by rewrite (rstrip_app _ "```" "`" "``").
    - unfold Py.split.
      change (Py.split_go "```" EmptyString ("```" +:+ tag +:+ body +:+ "```") 0)
        with (String.rev EmptyString
                :: Py.split_go "```" EmptyString (tag +:+ body +:+ "```") 0).
      rewrite <- app_assoc_s.
      rewrite split_go_plain by (by rewrite all_chars_app, Htag, Hbody).
      change (Py.split_go "```" (String.rev_app (tag +:+ body) EmptyString) "```" 0)
        with [String.rev (String.rev_app (tag +:+ body) EmptyString);
              String.rev EmptyString].
      simpl. by rewrite rev_rev_app. }
  split.
  - destruct (Hsplit "json" eq_refl) as [Hs Hl].
    unfold strip_fence. cbv zeta.
    change ("```json" +:+ body +:+ "```") with ("```" +:+ "json" +:+ body +:+ "```").
    rewrite Hs.
    change (Py.startswith "```" ("```" +:+ "json" +:+ body +:+ "```")) with true.
    cbv iota. by rewrite Hl.
  - intros Hj. destruct (Hsplit EmptyString eq_refl) as [Hs Hl].
    unfold strip_fence. cbv zeta.
    change ("```" +:+ body +:+ "```") with ("```" +:+ EmptyString +:+ body +:+ "```").
    rewrite Hs.
    change (Py.startswith "```" ("```" +:+ EmptyString +:+ body +:+ "```")) with true.
    cbv iota. rewrite Hl.
    change (default EmptyString (Some (EmptyString +:+ body))) with body.
    by rewrite Hj.
Qed.

End Fence.

(** ** Header row, text names, pin data *)

Section Remaining.
Import Schema Re TableExtractor TextExtractor Shape.

(** X19. In a table of two rows or more the header row is row 0 or row 1,
    the header list has one entry per cell of that row, and at least one
    row is left below it as data. *)
Theorem header_row_leaves_data (table : Table) :
  (2 ≤ length table)%nat →
  let start := (select_headers table).2 in
  (start = 1%nat ∨ start = 2%nat)
  ∧ (start < length table)%nat
  ∧ length (select_headers table).1 = length (default [] (table !! (start - 1)%nat)).
Proof.
  intros Hlen. unfold select_headers. cbv zeta.
  assert (length (first_row_headers table) = length (default [] (table !! 0%nat)))
    as H0 by apply length_map.
  assert (length (second_row_headers table) = length (default [] (table !! 1%nat)))
    as H1 by apply length_map.
  destruct (weak_header _); [|simpl; split; [by left|]; split; [lia|done]].
  destruct (Nat.ltb_spec 2 (length table));
    [|simpl; split; [by left|]; split; [lia|done]].
  destruct (looks_like_header _); simpl.
  - split; [by right|]. split; [lia|done].
  - split; [by left|]. split; [lia|done].
Qed.

Lemma text_pattern_groups s caps :
  re_match pattern s = Some caps →
  ∃ pin name,
    caps = [pin; name]
    ∧ Py.all_chars Py.is_digit pin = true ∧ (1 ≤ String.length pin ≤ 3)%nat
    ∧ Py.all_chars OcrExtractor.token_char name = true
    ∧ (1 ≤ String.length name)%nat.
Proof.
  unfold re_match, match_at.
  destruct (run _ _ _ _ _) as [[rest caps']|] eqn:H; [|done].
  intros [= <-]. simpl in H.
  rep_step H as w0 s0 Hw0 Hlw0 Hhw0.
  rep_step H as pin s1 Hp Hlp Hhp. rewrite take_app_exact in H.
  rep_step H as w1 s2 Hw1 Hlw1 Hhw1.
  rep_step H as name s3 Hn Hln Hhn. rewrite take_app_exact in H.
  rep_step H as w2 s4 Hw2 Hlw2 Hhw2.
  destruct (at_end s4); [|done]. injection H as <- <-.
  exists pin, name. repeat split; try done. by apply (Hhp 3%nat).
Qed.

(** X20. Every name that the text strategy returns is one token character
    or more: it is not empty and holds no white space. *)
Theorem text_names_tokens (images : OcrExtractor.Recognized) (names : list string) :
  extract_pins_from_text images = Py.Returns (Some names) →
  Forall (λ name, name ≠ EmptyString
                  ∧ Py.all_chars OcrExtractor.token_char name = true) names.
Proof.
  unfold extract_pins_from_text. destruct images as [images|]; [|done].
  destruct (OcrExtractor.recognized_text _ _) as [text|]; [|done].
  unfold names_of_text.
  set (lines := Py.splitlines _).
  assert (Forall (λ x : Z * string,
                    x.2 ≠ EmptyString
                    ∧ Py.all_chars OcrExtractor.token_char x.2 = true)
                 (omap line_result lines)) as Hall.
  { apply Forall_forall. intros x (line & _ & Hx)%list_elem_of_omap.
    unfold line_result in Hx.
    destruct (re_match pattern line) as [caps|] eqn:Hm; [|done].
    apply text_pattern_groups in Hm as (pin & name & -> & _ & _ & Htok & Hlen).
    injection Hx as <-. simpl. split; [|done]. intros ->. simpl in Hlen. lia. }
  generalize dependent (omap line_result lines). intros results Hall.
  destruct results as [|r rs]; [done|]. intros [= <-].
  change (map snd ?l) with (l.*2). apply Forall_fmap.
  rewrite (sort_by_key_perm (r :: rs)). exact Hall.
Qed.

(** X21. The count that [format_pin_data] reports is the number of entries
    of its pin list, with and without indices; with indices the entries
    carry the numbers 1, 2, ... and the names in the order given. *)
Theorem format_pin_data_count (pins : list string) (include_indices : bool) :
  Utils.pd_count (Utils.format_pin_data pins include_indices)
  = length (Utils.pd_pins (Utils.format_pin_data pins include_indices))
  ∧ (∀ i name, pins !! i = Some name →
       Utils.pd_pins (Utils.format_pin_data pins include_indices) !! i
       = Some (if include_indices then Utils.Indexed (Z.of_nat i + 1) name
               else Utils.Plain name)).
Proof.
  unfold Utils.format_pin_data. simpl. destruct include_indices; split.
  - by rewrite length_imap.
  - intros i name Hi. by rewrite list_lookup_imap, Hi.
  - by rewrite length_map.
  - intros i name Hi. change (map Utils.Plain pins) with (Utils.Plain <$> pins).
    by rewrite list_lookup_fmap, Hi.
Qed.

End Remaining.


(** ** The further theorems at concrete inputs *)

Section FurtherWitnesses.
Import Schema TableExtractor Parse Spec Shape Scenario Cases.

Lemma table_pins_shape_witness : Forall pin_shape [pin_B; pin_VSS].
Proof.
  apply (table_pins_shape no_sections (Some pages_B4) result_B4). by vm_compute.
Defined.

Lemma table_pin_numbers_positive_witness :
  Forall (λ pin, ∃ n, number pin = IntNum n ∧ 1 ≤ n) [pin_B; pin_VSS].
Proof.
  apply (table_pin_numbers_positive no_sections (Some pages_B4) result_B4).
  by vm_compute.
Defined.

Lemma ocr_names_bounded_witness :
  (1 ≤ length ["VDD"; "SDA"] ≤ 1000)%nat
  ∧ Forall (λ name, name ≠ EmptyString
                    ∧ Py.all_chars OcrExtractor.token_char name = true) ["VDD"; "SDA"].
Proof. apply (ocr_names_bounded (Some [Py.Returns diagram_comma])). by vm_compute. Defined.

Lemma llm_result_counts_witness :
  LlmExtractor.pages_with_pins llm_result_3 = 2%nat
  ∧ Forall (λ pins, pins ≠ []) (LlmExtractor.llm_results llm_result_3).
Proof.
  destruct (llm_result_counts llm_one_pin pdf_three_pages llm_result_3)
    as (_ & _ & _ & Hp & _ & Hreal & _); [by vm_compute|].
  split; [exact Hp|]. apply Hreal. discriminate.
Defined.

Lemma traditional_result_has_pins_witness :
  pins result_comma ≠ [] ∧ metadata result_comma = None.
Proof.
  destruct (traditional_result_has_pins no_sections doc_diagram_comma result_comma)
    as [Hp Hrest]; [by vm_compute|].
  split; [exact Hp|]. apply Hrest. vm_compute. discriminate.
Defined.

Lemma pages_after_50_ignored_witness :
  extract_pins_from_tables no_sections (Some (fifty_pages ++ [page_51]))
  = extract_pins_from_tables no_sections (Some fifty_pages).
Proof. apply pages_after_50_ignored. vm_compute. lia. Defined.

Lemma merge_of_ascending_witness : merge_candidates candidates_13 = [vdd; pin_B].
Proof.
  apply (merge_of_ascending candidates_13).
  repeat constructor; lia.
Defined.

Lemma roles_first_match_and_bounds_witness :
  name_idx (classify_headers (["pin"; "name"] ++ ["signal name"])) = Some 1%nat
  ∧ pin_idx (classify_headers headers_two_pins) = Some 2%nat.
Proof.
  split.
  - destruct (roles_first_match_and_bounds ["pin"; "name"] ["signal name"])
      as (_ & Hname & _). by apply Hname.
  - destruct (roles_first_match_and_bounds headers_two_pins [])
      as (_ & _ & _ & _ & _ & Hpin & _). apply Hpin. split.
    + by exists "pin no".
    + intros j h' Hj Hl. unfold headers_two_pins in Hl.
      do 3 (destruct j as [|j]; [lia|]).
      destruct j as [|j]; [by injection Hl as <-|done].
Defined.

Lemma metadata_head_lines_witness :
  part_number (MetadataExtractor.metadata_of_lines bullet (head_lines ++ [late_line]))
  = Some "ADS1115"
  ∧ title (MetadataExtractor.metadata_of_lines bullet (head_lines ++ [late_line])) = None.
Proof.
  destruct (metadata_head_lines bullet head_lines [late_line]) as (Hp & Ht & _).
  split.
  - rewrite Hp; [by vm_compute|vm_compute; lia].
  - rewrite Ht; [by vm_compute|vm_compute; lia].
Defined.

Lemma metadata_description_shape_witness :
  ∃ ls, "The part is small." = Py.join " " ls ∧ (1 ≤ length ls ≤ 10)%nat
        ∧ ls `sublist_of` (Py.strip <$> Py.split_char "010" text_description).
Proof.
  destruct (metadata_description_shape bullet text_description "The part is small.")
    as (ls & Hj & Hlen & Hsub & _); [by vm_compute|].
  by exists ls.
Defined.

Lemma strip_fence_unwraps_witness :
  LlmExtractor.strip_fence ("```json" +:+ fenced_body +:+ "```") = reply.
Proof.
  destruct (strip_fence_unwraps fenced_body) as [H _]; [by vm_compute|].
  rewrite H. by vm_compute.
Defined.

Lemma text_names_tokens_witness :
  Forall (λ name, name ≠ EmptyString
                  ∧ Py.all_chars OcrExtractor.token_char name = true) ["VDD"; "SDA"].
Proof. apply (text_names_tokens (Some [Py.Returns text_lines])). by vm_compute. Defined.

Lemma header_row_leaves_data_witness :
  (select_headers table_three_rows).2 = 2%nat
  ∧ ((select_headers table_three_rows).2 < length table_three_rows)%nat.
Proof.
  destruct (header_row_leaves_data table_three_rows) as (_ & Hlt & _);
    [simpl; lia|].
  split; [by vm_compute|exact Hlt].
Defined.

Lemma traditional_mode_exit_code_witness :
  (cli no_sections llm_one_pin (mkArgs Traditional true) doc_tables).2 = Return 0
  ∧ length (cli no_sections llm_one_pin (mkArgs Traditional true) doc_tables).1 = 1%nat
  ∧ cli no_sections llm_one_pin (mkArgs Traditional false) doc_empty
    = ([FailureNotice], Return 1)
  ∧ cli no_sections llm_one_pin (mkArgs Traditional false) doc_text_raises
    = ([], StrategyException).
Proof.
  pose proof (traditional_mode_exit_code no_sections llm_one_pin true doc_tables) as H0.
  pose proof (traditional_mode_exit_code no_sections llm_one_pin false doc_empty) as H1.
  pose proof (traditional_mode_exit_code no_sections llm_one_pin false doc_text_raises)
    as H2.
  cbv zeta in H0, H1, H2.
  assert (has_pins (extract_pins_from_tables no_sections (doc_pdf doc_tables)) = true)
    as T0 by (by vm_compute).
  assert (has_pins (extract_pins_from_tables no_sections (doc_pdf doc_empty)) = false)
    as T1 by (by vm_compute).
  assert (has_pins (extract_pins_from_tables no_sections (doc_pdf doc_text_raises))
          = false) as T2 by (by vm_compute).
  assert (OcrExtractor.extract_pins_from_ocr (doc_diagram doc_empty) = Py.Returns None)
    as D1 by (by vm_compute).
  assert (OcrExtractor.extract_pins_from_ocr (doc_diagram doc_text_raises)
          = Py.Returns None) as D2 by (by vm_compute).
  assert (TextExtractor.extract_pins_from_text (doc_text doc_empty) = Py.Returns None)
    as X1 by (by vm_compute).
  assert (TextExtractor.extract_pins_from_text (doc_text doc_text_raises) = Py.Raises)
    as X2 by (by vm_compute).
  rewrite T0 in H0. rewrite T1, D1, X1 in H1. rewrite T2, D2, X2 in H2.
  destruct H0 as (r & _ & Hcode & _ & Hlen). destruct H2 as [_ H2].
  split; [exact Hcode|]. split; [by apply Hlen|]. split; [exact H1|exact H2].
Defined.

Lemma format_pin_data_count_witness :
  Utils.pd_pins (Utils.format_pin_data ["VDD"; "SDA"] true) !! 1%nat
  = Some (Utils.Indexed 2 "SDA").
Proof.
  destruct (format_pin_data_count ["VDD"; "SDA"] true) as [_ H].
  by apply (H 1%nat "SDA").
Defined.

End FurtherWitnesses.
